(** * Incident-response agents: a shallow embedding of the Lambda functions

    The development follows the Python sources function by function.
    DynamoDB tables are finite maps keyed by their partition key, the
    reasoner and the tool endpoint are oracles, and every function that
    writes a table takes the tables as an argument and returns them.

    Conventions.
    - A Python [dict] read with [d.get(k, default)] is a record whose
      fields are options; [dict_get] supplies the default.
    - Field values that the code only tests for truth or compares with a
      string literal are JSON scalars ([pyval]).
    - Wall-clock readings are arguments ([now]); fields that only echo a
      clock reading into a result ([timestamp], [started_at], ...) are
      left out of the result records. *)

From Stdlib Require Import ZArith QArith Bool List String Ascii Lia Lqa.
From stdpp Require Import base option list gmap strings pretty.
Import ListNotations.

Local Open Scope string_scope.
Local Open Scope Z_scope.
Local Open Scope list_scope.

(** ** Python values *)

Module Py.

(** A JSON scalar as Python sees it. *)
Inductive pyval : Type :=
| PyNone
| PyBool (b : bool)
| PyInt (z : Z)
| PyStr (s : string).

(** [bool(v)]. *)
Definition truthy (v : pyval) : bool :=
  match v with
  | PyNone => false
  | PyBool b => b
  | PyInt z => negb (Z.eqb z 0)
  | PyStr s => negb (String.eqb s "")
  end.

(** [v == s] for a string literal [s]. *)
Definition eq_str (v : pyval) (s : string) : bool :=
  match v with
  | PyStr t => String.eqb t s
  | _ => false
  end.

(** [d.get(k, default)] where the field holds [Some v] iff the key is
    present. *)
Definition dict_get {A : Type} (field : option A) (dflt : A) : A :=
  match field with
  | Some v => v
  | None => dflt
  end.

(** [k in d]. *)
Definition has_key {A : Type} (field : option A) : bool :=
  match field with
  | Some _ => true
  | None => false
  end.

(** [d.get(k)], which is [None] for an absent key. *)
Definition dict_get_none (field : option pyval) : pyval :=
  dict_get field PyNone.

(** [s in l] for a string literal [s] and a list of values. *)
Definition str_in (s : string) (l : list pyval) : bool :=
  existsb (fun v => eq_str v s) l.

End Py.
Import Py.

(** ** Remediation plans *)

(** One entry of [immediate_actions] or [corrective_actions]. *)
Record Action : Type := mkAction {
  action : option pyval;
  command : option pyval;
  risk : option pyval;
  reversible : option pyval;
  critical : option pyval
}.

(** The plan dictionary.  [extra_keys] lists the keys no function below
    reads ([preventive_measures], [estimated_duration], ...); they only
    matter for the truth value of the dictionary. *)
Record RemediationPlan : Type := mkPlan {
  immediate_actions : option (list Action);
  corrective_actions : option (list Action);
  success_criteria : option (list string);
  extra_keys : list string
}.

(** [bool(plan)] for an optional plan: [None] and the empty dictionary are
    false. *)
Definition plan_truthy (p : option RemediationPlan) : bool :=
  match p with
  | None => false
  | Some p =>
      has_key (immediate_actions p)
      || has_key (corrective_actions p)
      || has_key (success_criteria p)
      || negb (Nat.eqb (List.length (extra_keys p)) 0)
  end.

(** [plan.get('immediate_actions', []) + plan.get('corrective_actions', [])] *)
Definition all_actions (plan : RemediationPlan) : list Action :=
  dict_get (immediate_actions plan) [] ++ dict_get (corrective_actions plan) [].

(** [str(v)] as an f-string renders it. *)
Definition py_str (v : pyval) : string :=
  match v with
  | PyNone => "None"
  | PyBool true => "True"
  | PyBool false => "False"
  | PyInt z => pretty z
  | PyStr s => s
  end.

(** ** DynamoDB tables

    Each table is a finite map on its partition key.  The sort key
    ([created_at]) is a field of the item: every reader takes [Items[0]] of
    the partition and every writer addresses that item's sort key, so one
    item per partition is all the code can see. *)

Record TimelineEvent : Type := mkEvent {
  ev_timestamp : Z;
  ev_event : string;
  ev_actor : string
}.

(** An item of [ITOps-Incidents]. [inc_timeline] is [None] when the
    attribute is absent; [inc_verification_result] keeps the [verified] and
    [confidence] entries of the stored verification. *)
Record Incident : Type := mkIncident {
  inc_created_at : Z;
  inc_status : string;
  inc_timeline : option (list TimelineEvent);
  inc_verification_result : option (bool * Q)
}.

(** An item of [ITOps-ApprovalQueue]. *)
Record Approval : Type := mkApproval {
  apr_created_at : Z;
  apr_incident_id : option string;
  apr_status : option string;
  apr_risk_level : option string;
  apr_plan : option RemediationPlan;
  apr_requested_by : option string;
  apr_ttl : option Z;
  apr_approver : option string;
  apr_approved_at : option Z;
  apr_comments : option string
}.

(** An item of [ITOps-RemediationLog]. *)
Record LogItem : Type := mkLogItem {
  log_execution_id : string;
  log_incident_id : string;
  log_status : string;
  log_actions_executed : nat;
  log_actions_failed : nat
}.

Record Tables : Type := mkTables {
  incidents_table : gmap string Incident;
  approval_queue_table : gmap string Approval;
  remediation_log_table : list LogItem
}.

Definition set_incidents (tb : Tables) (m : gmap string Incident) : Tables :=
  mkTables m (approval_queue_table tb) (remediation_log_table tb).

Definition set_approvals (tb : Tables) (m : gmap string Approval) : Tables :=
  mkTables (incidents_table tb) m (remediation_log_table tb).

Definition set_log (tb : Tables) (l : list LogItem) : Tables :=
  mkTables (incidents_table tb) (approval_queue_table tb) l.

(** ** agent-remediation: [RemediationAgent] *)

Module RemediationAgent.

Definition agent_id : string := "remediation-agent".

(** [_assess_risk]: the list comprehension over [action.get('risk',
    'medium')], the membership tests and the [any] over
    [not action.get('reversible', True)]. *)
Definition _assess_risk (plan : RemediationPlan) : string :=
  let all := all_actions plan in
  let risk_levels := map (fun a => dict_get (risk a) (PyStr "medium")) all in
  if str_in "high" risk_levels
     || existsb (fun a => negb (truthy (dict_get (reversible a) (PyBool true)))) all
  then "high"
  else if str_in "medium" risk_levels then "medium"
  else "low".

(** [_queue_for_approval]; [uuid8] stands for
    [uuid.uuid4().hex[:8].upper()]. *)
Definition _queue_for_approval (tb : Tables) (now : Z) (uuid8 : string)
    (incident_id : string) (plan : RemediationPlan) (risk_level : string)
  : string * Tables :=
  let approval_id := "APPR-" +:+ uuid8 in
  let item :=
    {| apr_created_at := now;
       apr_incident_id := Some incident_id;
       apr_status := Some "pending";
       apr_risk_level := Some risk_level;
       apr_plan := Some plan;
       apr_requested_by := Some agent_id;
       apr_ttl := Some (now + 86400);
       apr_approver := None;
       apr_approved_at := None;
       apr_comments := None |} in
  (approval_id, set_approvals tb (<[approval_id := item]> (approval_queue_table tb))).

(** The dictionary [_execute_action] returns. *)
Record ActionResult : Type := mkActionResult {
  res_action : pyval;
  res_success : bool;
  res_simulated : bool;
  res_message : string
}.

Definition _execute_action (a : Action) : ActionResult :=
  {| res_action := dict_get_none (action a);
     res_success := true;
     res_simulated := true;
     res_message := "Action simulated successfully (would execute in production)" |}.

Record ExecutionResult : Type := mkExecutionResult {
  executed_actions : nat;
  results : list ActionResult;
  status : string
}.

(** One [for] loop of [_execute_plan]: [results] accumulates the returned
    dictionaries and [calls] the actions handed to [_execute_action], in
    call order. *)
Fixpoint execute_loop (actions : list Action)
    (acc : list ActionResult * list Action) : list ActionResult * list Action :=
  match actions with
  | [] => acc
  | a :: rest =>
      if eq_str (dict_get_none (risk a)) "low"
      then execute_loop rest (fst acc ++ [_execute_action a], snd acc ++ [a])
      else execute_loop rest acc
  end.

(** [_execute_plan] together with the list of actions it executed. *)
Definition _execute_plan (plan : RemediationPlan) : ExecutionResult * list Action :=
  let acc := execute_loop (dict_get (immediate_actions plan) []) ([], []) in
  let acc := execute_loop (dict_get (corrective_actions plan) []) acc in
  ({| executed_actions := List.length (fst acc);
      results := fst acc;
      status := if forallb res_success (fst acc) then "completed" else "partial" |},
   snd acc).

(** [_update_incident]: [list_append(timeline, :event)] has no
    [if_not_exists], so the update is refused (and the exception swallowed)
    when the item has no timeline. *)
Definition _update_incident (tb : Tables) (now : Z) (incident_id : string)
    (execution_result : ExecutionResult) : Tables :=
  match incidents_table tb !! incident_id with
  | Some inc =>
      match inc_timeline inc with
      | Some tl =>
          let ev := mkEvent now "remediation_executed" "remediation_agent" in
          let new_status :=
            if String.eqb (status execution_result) "completed"
            then "resolved" else "in_progress" in
          set_incidents tb
            (<[incident_id :=
                 mkIncident (inc_created_at inc) new_status (Some (tl ++ [ev]))
                   (inc_verification_result inc)]>
               (incidents_table tb))
      | None => tb
      end
  | None => tb
  end.

Inductive RemediateResult : Type :=
| PendingApproval (incident_id : string) (approval_id : string)
    (risk_level : string) (plan : RemediationPlan)
| Executed (incident_id : string) (risk_level : string)
    (plan : RemediationPlan) (execution_result : ExecutionResult).

(** The ['status'] entry of the returned dictionary. *)
Definition result_status (r : RemediateResult) : string :=
  match r with
  | PendingApproval _ _ _ _ => "pending_approval"
  | Executed _ _ _ _ => "executed"
  end.

(** [remediate], from the point where [_generate_plan] has returned [plan].
    The third component lists the actions that were executed. *)
Definition remediate (tb : Tables) (now : Z) (uuid8 : string)
    (incident_id : string) (plan : RemediationPlan)
  : RemediateResult * Tables * list Action :=
  let risk_level := _assess_risk plan in
  if String.eqb risk_level "high" || String.eqb risk_level "critical" then
    let '(approval_id, tb) :=
      _queue_for_approval tb now uuid8 incident_id plan risk_level in
    (PendingApproval incident_id approval_id risk_level plan, tb, [])
  else
    let '(execution_result, calls) := _execute_plan plan in
    let tb := _update_incident tb now incident_id execution_result in
    (Executed incident_id risk_level plan execution_result, tb, calls).

End RemediationAgent.

(** ** execute-remediation: [RemediationExecutor] *)

Module RemediationExecutor.

(** [str.lower] on the ASCII letters. *)
Definition lower_ascii (c : ascii) : ascii :=
  let n := nat_of_ascii c in
  if (Nat.leb 65 n && Nat.leb n 90)%bool then ascii_of_nat (n + 32) else c.

Fixpoint lower (s : string) : string :=
  match s with
  | EmptyString => EmptyString
  | String c rest => String (lower_ascii c) (lower rest)
  end.

(** [needle in hay] for strings. *)
Definition contains (needle hay : string) : bool :=
  match String.index 0 needle hay with
  | Some _ => true
  | None => false
  end.

(** The dictionary [_execute_action] returns. *)
Record ActionResult : Type := mkActionResult {
  res_action : pyval;
  res_type : string;
  res_risk : pyval;
  res_success : bool;
  res_output : string;
  res_simulated : bool;
  res_error : option string
}.

(** The executor object: [dry_run] is set to [False] by [__init__]. *)
Definition dry_run : bool := false.

Definition dry_run_output (command : string) : string :=
  "[DRY RUN] Would execute: " +:+ command.

Definition _execute_lambda_action (command : string) : string :=
  if dry_run then dry_run_output command
  else if contains "update-function-configuration" command
  then "Lambda configuration updated (simulated)"
  else "Lambda action executed: " +:+ command.

Definition _execute_ec2_action (command : string) : string :=
  if dry_run then dry_run_output command
  else if contains "reboot-instances" command
  then "EC2 instances restarted (simulated)"
  else "EC2 action executed: " +:+ command.

Definition _execute_rds_action (command : string) : string :=
  if dry_run then dry_run_output command
  else if contains "modify-db-instance" command
  then "RDS instance modified (simulated)"
  else "RDS action executed: " +:+ command.

Definition _execute_scaling_action (command : string) : string :=
  if dry_run then dry_run_output command
  else "Scaling action executed: " +:+ command.

Definition _execute_restart_action (command : string) : string :=
  if dry_run then dry_run_output command
  else "Restart completed: " +:+ command.

Definition _simulate_action (command : string) : string :=
  "Action executed successfully (simulated): " +:+ command.

(** The type name in the [AttributeError] raised by [command.lower()] on a
    value that is not a string. *)
Definition type_name (v : pyval) : string :=
  match v with
  | PyNone => "NoneType"
  | PyBool _ => "bool"
  | PyInt _ => "int"
  | PyStr _ => "str"
  end.

(** [_execute_action].  The [try] body can only raise at
    [command.lower()], which it does exactly when the [command] entry is
    not a string; the handlers themselves return simulated outputs. *)
Definition _execute_action (a : Action) (action_type : string) : ActionResult :=
  let action_name := dict_get (action a) (PyStr "Unknown") in
  let command := dict_get (command a) (PyStr "") in
  let risk := dict_get (risk a) (PyStr "medium") in
  match command with
  | PyStr c =>
      let l := lower c in
      let output :=
        if contains "lambda" l then _execute_lambda_action c
        else if contains "ec2" l then _execute_ec2_action c
        else if contains "rds" l then _execute_rds_action c
        else if contains "scaling" l || contains "autoscaling" l
        then _execute_scaling_action c
        else if contains "restart" l then _execute_restart_action c
        else _simulate_action c in
      mkActionResult action_name action_type risk true output true None
  | v =>
      mkActionResult action_name action_type risk false "" false
        (Some ("'" +:+ type_name v +:+ "' object has no attribute 'lower'"))
  end.

(** [_verify_approval]: the partition is empty, or its first item is read
    with [approval.get('status', 'pending')]. *)
Definition _verify_approval (tb : Tables) (approval_id : string) : bool :=
  match approval_queue_table tb !! approval_id with
  | None => false
  | Some approval => String.eqb (dict_get (apr_status approval) "pending") "approved"
  end.

Record SafetyCheck : Type := mkSafetyCheck {
  safe : bool;
  reason : string
}.

(** The [for] loop of [_pre_execution_safety_check]: the first action with
    [risk == 'high'] and a false [reversible] (absent counts as false)
    returns the rejection. *)
Fixpoint safety_loop (actions : list Action) : SafetyCheck :=
  match actions with
  | [] => mkSafetyCheck true "All safety checks passed"
  | a :: rest =>
      if eq_str (dict_get_none (risk a)) "high"
         && negb (truthy (dict_get (reversible a) (PyBool false)))
      then mkSafetyCheck false
             ("High-risk irreversible action: " +:+ py_str (dict_get_none (action a)))
      else safety_loop rest
  end.

Definition _pre_execution_safety_check (plan : RemediationPlan) : SafetyCheck :=
  safety_loop (all_actions plan).

Record Verification : Type := mkVerification {
  verified : bool;
  criteria_met : list string;
  criteria_failed : list string
}.

(** [_verify_remediation]: every criterion is assumed met. *)
Definition _verify_remediation (plan : RemediationPlan) : Verification :=
  mkVerification true (dict_get (success_criteria plan) []) [].

(** The [results] dictionary built by [execute]. *)
Record Results : Type := mkResults {
  incident_id : string;
  execution_id : string;
  status : string;
  message : option string;
  immediate_actions_done : list ActionResult;
  corrective_actions_done : list ActionResult;
  failed_actions : list ActionResult;
  rollback_performed : bool;
  verification : option Verification
}.

(** What [execute] returns: the short dictionary of a refused plan, or the
    [results] dictionary. *)
Inductive Outcome : Type :=
| Refused (incident_id : string) (status : string) (message : string)
    (executed_actions : list ActionResult)
| Ran (results : Results).

Definition outcome_status (o : Outcome) : string :=
  match o with
  | Refused _ s _ _ => s
  | Ran r => status r
  end.

(** Every per-action record the returned dictionary carries. *)
Definition outcome_actions (o : Outcome) : list ActionResult :=
  match o with
  | Refused _ _ _ l => l
  | Ran r => immediate_actions_done r ++ corrective_actions_done r
  end.

Definition outcome_failed (o : Outcome) : list ActionResult :=
  match o with
  | Refused _ _ _ _ => []
  | Ran r => failed_actions r
  end.

Definition with_status (r : Results) (s : string) (m : string) : Results :=
  mkResults (incident_id r) (execution_id r) s (Some m)
    (immediate_actions_done r) (corrective_actions_done r) (failed_actions r)
    (rollback_performed r) (verification r).

Definition push_immediate (r : Results) (x : ActionResult) : Results :=
  mkResults (incident_id r) (execution_id r) (status r) (message r)
    (immediate_actions_done r ++ [x]) (corrective_actions_done r) (failed_actions r)
    (rollback_performed r) (verification r).

Definition push_corrective (r : Results) (x : ActionResult) : Results :=
  mkResults (incident_id r) (execution_id r) (status r) (message r)
    (immediate_actions_done r) (corrective_actions_done r ++ [x]) (failed_actions r)
    (rollback_performed r) (verification r).

Definition push_failed (r : Results) (x : ActionResult) : Results :=
  mkResults (incident_id r) (execution_id r) (status r) (message r)
    (immediate_actions_done r) (corrective_actions_done r) (failed_actions r ++ [x])
    (rollback_performed r) (verification r).

Definition with_verification (r : Results) (v : Verification) : Results :=
  mkResults (incident_id r) (execution_id r) (status r) (message r)
    (immediate_actions_done r) (corrective_actions_done r) (failed_actions r)
    (rollback_performed r) (Some v).

(** How a [for] loop with a [return] in its body ends. *)
Inductive LoopExit (A : Type) : Type :=
| Fallthrough (st : A)
| Returned (st : A).
Arguments Fallthrough {A} st.
Arguments Returned {A} st.

(** The loop over the immediate actions.  The state pairs [results] with
    the actions handed to [_execute_action] so far. *)
Fixpoint immediate_loop (actions : list Action) (st : Results * list Action)
  : LoopExit (Results * list Action) :=
  match actions with
  | [] => Fallthrough st
  | a :: rest =>
      let result := _execute_action a "immediate" in
      let results := push_immediate (fst st) result in
      let calls := snd st ++ [a] in
      if negb (res_success result) then
        let results := push_failed results result in
        if truthy (dict_get (critical a) (PyBool false)) then
          Returned
            (with_status results "failed"
               ("Critical action failed: " +:+ py_str (dict_get_none (action a))),
             calls)
        else immediate_loop rest (results, calls)
      else immediate_loop rest (results, calls)
  end.

(** The loop over the corrective actions. *)
Fixpoint corrective_loop (actions : list Action) (st : Results * list Action)
  : Results * list Action :=
  match actions with
  | [] => st
  | a :: rest =>
      let result := _execute_action a "corrective" in
      let results := push_corrective (fst st) result in
      let calls := snd st ++ [a] in
      if negb (res_success result)
      then corrective_loop rest (push_failed results result, calls)
      else corrective_loop rest (results, calls)
  end.

(** "Determine overall status". *)
Definition determine_status (r : Results) : Results :=
  let failed := List.length (failed_actions r) in
  let total := (List.length (immediate_actions_done r)
                + List.length (corrective_actions_done r))%nat in
  if Nat.eqb failed 0 then
    with_status r "success" "All remediation actions completed successfully"
  else if Nat.ltb failed total then
    with_status r "partial_success" (pretty failed +:+ " actions failed")
  else with_status r "failed" "Remediation failed".

Definition _log_execution (tb : Tables) (incident_id : string) (r : Results) : Tables :=
  set_log tb
    (remediation_log_table tb ++
       [mkLogItem (execution_id r) incident_id (status r)
          (List.length (immediate_actions_done r) + List.length (corrective_actions_done r))%nat
          (List.length (failed_actions r))]).

(** [_update_incident]: the incident becomes ['resolved'] when the overall
    status is ['success'] and ['in_progress'] otherwise. *)
Definition _update_incident (tb : Tables) (now : Z) (incident_id : string)
    (r : Results) : Tables :=
  match incidents_table tb !! incident_id with
  | Some inc =>
      let new_status :=
        if String.eqb (status r) "success" then "resolved" else "in_progress" in
      let ev := mkEvent now "remediation_executed" "remediation_executor" in
      set_incidents tb
        (<[incident_id :=
             mkIncident (inc_created_at inc) new_status
               (Some (dict_get (inc_timeline inc) [] ++ [ev]))
               (inc_verification_result inc)]>
           (incidents_table tb))
  | None => tb
  end.

(** [if approval_id:] *)
Definition approval_supplied (approval_id : option string) : option string :=
  match approval_id with
  | Some s => if String.eqb s "" then None else Some s
  | None => None
  end.

(** [execute].  Returns the outcome, the tables and the actions that were
    handed to [_execute_action], in order. *)
Definition execute (tb : Tables) (now : Z) (incident_id : string)
    (remediation_plan : RemediationPlan) (approval_id : option string)
  : Outcome * Tables * list Action :=
  let blocked :=
    match approval_supplied approval_id with
    | Some id => negb (_verify_approval tb id)
    | None => false
    end in
  if blocked then
    (Refused incident_id "blocked" "Approval not granted or expired" [], tb, [])
  else
    let safety_check := _pre_execution_safety_check remediation_plan in
    if negb (safe safety_check) then
      (Refused incident_id "aborted"
         ("Safety check failed: " +:+ reason safety_check) [], tb, [])
    else
      let results :=
        mkResults incident_id ("EXEC-" +:+ pretty now) "in_progress" None
          [] [] [] false None in
      match immediate_loop (dict_get (immediate_actions remediation_plan) []) (results, []) with
      | Returned (results, calls) => (Ran results, tb, calls)
      | Fallthrough st =>
          let '(results, calls) :=
            corrective_loop (dict_get (corrective_actions remediation_plan) []) st in
          let results := determine_status results in
          let tb := _log_execution tb incident_id results in
          let tb := _update_incident tb now incident_id results in
          let results :=
            if String.eqb (status results) "success"
               || String.eqb (status results) "partial_success"
            then with_verification results (_verify_remediation remediation_plan)
            else results in
          (Ran results, tb, calls)
      end.

End RemediationExecutor.

(** ** verify-resolution: [ResolutionVerifier] *)

Module ResolutionVerifier.

(** The [affected_services] entry of the incident: a JSON array, or a
    scalar. *)
Inductive services : Type :=
| SvcList (l : list pyval)
| SvcScalar (v : pyval).

(** The incident dictionary as the verifier reads it. *)
Record IncidentData : Type := mkIncidentData {
  affected_services : option services;
  severity : option pyval
}.

(** One entry of [checks]: the [passed] flag and the message.  Messages
    that embed an exception text or a formatted float are abbreviated. *)
Record Check : Type := mkCheck {
  passed : bool;
  check_message : string
}.

(** ['X' in affected_services]: membership in an array, substring of a
    string, [TypeError] ([None]) on any other scalar. *)
Definition service_in (name : string) (sv : services) : option bool :=
  match sv with
  | SvcList l => Some (str_in name l)
  | SvcScalar (PyStr s) => Some (RemediationExecutor.contains name s)
  | SvcScalar _ => None
  end.

(** [_verify_metrics].  Every per-service check reports [within_range], so
    the check passes unless a membership test raises. *)
Definition _verify_metrics (incident_data : IncidentData) : Check :=
  let sv := dict_get (affected_services incident_data) (SvcList []) in
  match service_in "Lambda" sv, service_in "EC2" sv,
        service_in "RDS" sv, service_in "API-Gateway" sv with
  | Some l, Some e, Some r, Some a =>
      let n := List.length (List.filter (fun b : bool => b) [l; e; r; a]) in
      if Nat.eqb n 0
      then mkCheck true "No metrics to verify (simulated pass)"
      else mkCheck true (pretty n +:+ "/" +:+ pretty n +:+ " metrics within normal range")
  | _, _, _, _ => mkCheck false "Error checking metrics"
  end.

(** [_verify_error_logs]: the simulated counts are 2 errors against a
    baseline of 50. *)
Definition _verify_error_logs (incident_data : IncidentData) : Check :=
  let current_errors := 2 in
  let baseline_errors := 50 in
  if 0 <? baseline_errors then
    let reduction :=
      (inject_Z (baseline_errors - current_errors) / inject_Z baseline_errors * 100)%Q in
    mkCheck (Qle_bool 80 reduction) "Error rate reduced"
  else mkCheck true "No baseline errors to compare".

(** The number of elements [for service in affected_services] visits, or
    [None] when the value is not iterable. *)
Definition iterate (sv : services) : option nat :=
  match sv with
  | SvcList l => Some (List.length l)
  | SvcScalar (PyStr s) => Some (String.length s)
  | SvcScalar _ => None
  end.

(** [_verify_service_health]: each service visited is reported healthy. *)
Definition _verify_service_health (incident_data : IncidentData) : Check :=
  match iterate (dict_get (affected_services incident_data) (SvcList [])) with
  | Some n =>
      if Nat.eqb n 0 then mkCheck true "No services to check"
      else mkCheck true (pretty n +:+ "/" +:+ pretty n +:+ " services healthy")
  | None => mkCheck false "Error checking service health"
  end.

(** [_verify_success_criteria]: every criterion is counted as met. *)
Definition _verify_success_criteria (incident_data : IncidentData)
    (criteria : list string) : Check :=
  match criteria with
  | [] => mkCheck true "No success criteria defined"
  | _ =>
      let n := List.length criteria in
      mkCheck true (pretty n +:+ "/" +:+ pretty n +:+ " criteria met")
  end.

Record Checks : Type := mkChecks {
  metrics : Check;
  error_logs : Check;
  service_health : Check;
  checks_success_criteria : option Check
}.

Record VerificationResult : Type := mkVerificationResult {
  incident_id : string;
  verified : bool;
  checks : Checks;
  confidence : Q;
  recommendation : string
}.

(** [sum(1 for check in all_checks if check.get('passed'))] *)
Definition passed_checks (all_checks : list Check) : nat :=
  List.length (List.filter passed all_checks).

(** [(passed_checks / total_checks) * 100].  The list has three or four
    entries, so the divisor is never zero. *)
Definition confidence_of (all_checks : list Check) : Q :=
  (inject_Z (Z.of_nat (passed_checks all_checks))
   / inject_Z (Z.of_nat (List.length all_checks)) * 100)%Q.

Definition _generate_recommendation (confidence : Q) : string :=
  if Qle_bool 90 confidence then "Resolution confirmed. Safe to close incident."
  else if Qle_bool 75 confidence
  then "Resolution likely successful. Monitor for 24 hours before closing."
  else if Qle_bool 50 confidence
  then "Resolution uncertain. Continue monitoring and consider additional remediation."
  else "Resolution verification failed. Manual investigation required.".

(** [_update_incident].  [update_item] is handed the whole
    [verification_result] as [:verification]; its [confidence] is a float,
    which boto3 refuses to serialise ([TypeError]: float types are not
    supported) before any request is sent.  The [except] swallows the
    exception, so the status ['resolved'] or ['monitoring'], the result and
    the timeline event of the request are never stored. *)
Definition _update_incident (tb : Tables) (now : Z) (incident_id : string)
    (r : VerificationResult) : Tables :=
  match incidents_table tb !! incident_id with
  | Some inc => tb
  | None => tb
  end.

(** The list [all_checks] of a run: three checks, and the success-criteria
    check when the plan is true. *)
Definition all_checks_of (c : Checks) : list Check :=
  [metrics c; error_logs c; service_health c]
  ++ match checks_success_criteria c with
     | Some k => [k]
     | None => []
     end.

(** [verify_resolution]. *)
Definition verify_resolution (tb : Tables) (now : Z) (incident_id : string)
    (incident_data : IncidentData) (remediation_plan : option RemediationPlan)
  : VerificationResult * Tables :=
  let metrics_check := _verify_metrics incident_data in
  let logs_check := _verify_error_logs incident_data in
  let health_check := _verify_service_health incident_data in
  let criteria_check :=
    match remediation_plan with
    | Some plan =>
        if plan_truthy remediation_plan
        then Some (_verify_success_criteria incident_data
                     (dict_get (success_criteria plan) []))
        else None
    | None => None
    end in
  let all_checks :=
    [metrics_check; logs_check; health_check]
    ++ match criteria_check with
       | Some k => [k]
       | None => []
       end in
  let confidence := confidence_of all_checks in
  let result :=
    {| incident_id := incident_id;
       verified := Qle_bool 75 confidence;
       checks := mkChecks metrics_check logs_check health_check criteria_check;
       confidence := confidence;
       recommendation := _generate_recommendation confidence |} in
  (result, _update_incident tb now incident_id result).

End ResolutionVerifier.

(** ** process-approval: [ApprovalProcessor] *)

Module ApprovalProcessor.

(** The dictionary [_trigger_execution] returns. *)
Inductive TriggerResult : Type :=
| Triggered (simulated : bool) (message : string)
| NotTriggered (error : string).

Definition triggered (r : TriggerResult) : bool :=
  match r with
  | Triggered _ _ => true
  | NotTriggered _ => false
  end.

(** A number stored in a table is read back as a [Decimal]. *)
Definition is_decimal (v : option pyval) : bool :=
  match v with
  | Some (PyInt _) => true
  | _ => false
  end.

Definition action_has_decimal (a : Action) : bool :=
  is_decimal (action a) || is_decimal (command a) || is_decimal (risk a)
  || is_decimal (reversible a) || is_decimal (critical a).

(** [json.dumps(plan)] raises on a [Decimal].  The entries of the actions
    are looked at; the values under [extra_keys] and the success criteria
    are texts in the format the plan is asked for. *)
Definition plan_has_decimal (plan : RemediationPlan) : bool :=
  existsb action_has_decimal (all_actions plan).

(** The dictionary [process_approval] returns. *)
Inductive ProcessResult : Type :=
| Failure (message : string)
| Success (approval_id : string) (incident_id : option string) (status : string)
    (approver : string) (message : string) (execution : option TriggerResult).

Definition success (r : ProcessResult) : bool :=
  match r with
  | Failure _ => false
  | Success _ _ _ _ _ _ => true
  end.

Definition _get_approval (tb : Tables) (approval_id : string) : option Approval :=
  approval_queue_table tb !! approval_id.

(** [_get_created_at] *)
Definition _get_created_at (tb : Tables) (approval_id : string) : Z :=
  match _get_approval tb approval_id with
  | Some approval => apr_created_at approval
  | None => 0
  end.

(** [if comments:] *)
Definition comments_given (comments : option string) : option string :=
  match comments with
  | Some c => if String.eqb c "" then None else Some c
  | None => None
  end.

(** [_update_approval_status]: [update_item] on the key
    [(approval_id, created_at)] sets [status], [approver] and
    [approved_at], and [comments] when given; it creates the item when the
    key is new. *)
Definition _update_approval_status (tb : Tables) (now : Z) (approval_id : string)
    (status : string) (approver : string) (comments : option string)
  : bool * Tables :=
  let created_at := _get_created_at tb approval_id in
  let old :=
    match _get_approval tb approval_id with
    | Some a => a
    | None => mkApproval created_at None None None None None None None None None
    end in
  let item :=
    {| apr_created_at := created_at;
       apr_incident_id := apr_incident_id old;
       apr_status := Some status;
       apr_risk_level := apr_risk_level old;
       apr_plan := apr_plan old;
       apr_requested_by := apr_requested_by old;
       apr_ttl := apr_ttl old;
       apr_approver := Some approver;
       apr_approved_at := Some now;
       apr_comments :=
         match comments_given comments with
         | Some c => Some c
         | None => apr_comments old
         end |} in
  (true, set_approvals tb (<[approval_id := item]> (approval_queue_table tb))).

(** [_update_incident_timeline]; the query raises (and nothing is written)
    when the approval carries no incident id. *)
Definition _update_incident_timeline (tb : Tables) (now : Z)
    (incident_id : option string) (approval_id : string) (status : string)
    (approver : string) : Tables :=
  match incident_id with
  | Some id =>
      match incidents_table tb !! id with
      | Some inc =>
          let ev := mkEvent now ("approval_" +:+ status) approver in
          set_incidents tb
            (<[id := mkIncident (inc_created_at inc) (inc_status inc)
                       (Some (dict_get (inc_timeline inc) [] ++ [ev]))
                       (inc_verification_result inc)]>
               (incidents_table tb))
      | None => tb
      end
  | None => tb
  end.

(** [_trigger_execution]: nothing is invoked; the plan is printed with
    [json.dumps], and an exception there gives the error dictionary. *)
Definition _trigger_execution (approval : Approval) (incident_id : option string)
  : TriggerResult :=
  let plan := dict_get (apr_plan approval) (mkPlan None None None []) in
  if plan_has_decimal plan
  then NotTriggered "Object of type Decimal is not JSON serializable"
  else Triggered true "Execution triggered (simulated)".

(** [process_approval] *)
Definition process_approval (tb : Tables) (now : Z) (approval_id : string)
    (action : string) (approver : string) (comments : option string)
  : ProcessResult * Tables :=
  if negb (String.eqb action "approve" || String.eqb action "reject") then
    (Failure ("Invalid action: " +:+ action +:+ ". Must be 'approve' or 'reject'"), tb)
  else
    match _get_approval tb approval_id with
    | None => (Failure ("Approval " +:+ approval_id +:+ " not found"), tb)
    | Some approval =>
        let current_status := dict_get (apr_status approval) "pending" in
        if negb (String.eqb current_status "pending") then
          (Failure ("Approval already processed (status: " +:+ current_status +:+ ")"), tb)
        else
          let new_status :=
            if String.eqb action "approve" then "approved" else "rejected" in
          let '(updated, tb) :=
            _update_approval_status tb now approval_id new_status approver comments in
          if negb updated then (Failure "Failed to update approval status", tb)
          else
            let incident_id := apr_incident_id approval in
            let tb :=
              _update_incident_timeline tb now incident_id approval_id new_status approver in
            if String.eqb action "approve" then
              (Success approval_id incident_id new_status approver
                 "Approval granted - remediation execution started"
                 (Some (_trigger_execution approval incident_id)), tb)
            else
              (Success approval_id incident_id new_status approver
                 "Approval rejected - remediation will not be executed" None, tb)
    end.

End ApprovalProcessor.

(** ** mcp-monitoring: [CircuitBreaker] *)

Module CircuitBreaker.

(** An item of [ITOps-CircuitBreaker].  [put_item] replaces the whole
    item, so an attribute a writer leaves out is absent afterwards. *)
Record Item : Type := mkItem {
  state : string;
  failure_count : Z;
  last_failure_time : option Z;
  last_success_time : option Z;
  ttl : option Z
}.

(** The breaker object built by [__init__]. *)
Record Breaker : Type := mkBreaker {
  service_name : string;
  failure_threshold : Z;
  timeout : Z
}.

(** [CircuitBreaker(service_name)] with the default arguments. *)
Definition init (service_name : string) : Breaker :=
  mkBreaker service_name 5 60.

(** [int(x)] on a clock reading: truncation towards zero. *)
Definition py_int (x : Q) : Z :=
  Z.quot (Qnum x) (Zpos (Qden x)).

(** [get_state]: the stored item, or the closed default. *)
Definition get_state (cb : Breaker) (tbl : gmap string Item) : Item :=
  match tbl !! service_name cb with
  | Some item => item
  | None => mkItem "CLOSED" 0 (Some 0) None None
  end.

(** [record_success] at clock reading [now]. *)
Definition record_success (cb : Breaker) (tbl : gmap string Item) (now : Q)
  : gmap string Item :=
  <[service_name cb :=
      mkItem "CLOSED" 0 None (Some (py_int now)) (Some (py_int now + 300))]> tbl.

(** [record_failure] at clock reading [now]. *)
Definition record_failure (cb : Breaker) (tbl : gmap string Item) (now : Q)
  : gmap string Item :=
  let st := get_state cb tbl in
  let count := failure_count st + 1 in
  let new_state := if failure_threshold cb <=? count then "OPEN" else "CLOSED" in
  <[service_name cb :=
      mkItem new_state count (Some (py_int now)) None
        (Some (py_int now + timeout cb))]> tbl.

(** [a > b] on clock readings. *)
Definition Qgt_bool (a b : Q) : bool := negb (Qle_bool a b).

(** What a call that may raise gives. *)
Inductive Outcome (A : Type) : Type :=
| Raises (error : string)
| Returns (value : A).

Arguments Raises {A} error.
Arguments Returns {A} value.

(** The [TypeError] of [datetime.now().timestamp() - last_failure] when
    [last_failure] comes from the table: boto3 reads a stored number as a
    [Decimal], and a float minus a [Decimal] is not defined. *)
Definition float_minus_decimal : string :=
  "unsupported operand type(s) for -: 'float' and 'decimal.Decimal'".

(** [is_open] at clock reading [now].  The subtraction is reached only for
    an item whose state is ['OPEN']; there a stored [last_failure_time]
    makes it raise, and an absent one is read as the integer 0. *)
Definition is_open (cb : Breaker) (tbl : gmap string Item) (now : Q) : Outcome bool :=
  let st := get_state cb tbl in
  if String.eqb (state st) "OPEN" then
    match last_failure_time st with
    | Some last_failure => Raises float_minus_decimal
    | None =>
        if Qgt_bool (now - inject_Z 0)%Q (inject_Z (timeout cb))
        then Returns false
        else Returns true
    end
  else Returns false.

(** [n] calls of [record_failure], at the clock readings [times]. *)
Fixpoint record_failures (cb : Breaker) (tbl : gmap string Item) (times : list Q)
  : gmap string Item :=
  match times with
  | [] => tbl
  | t :: rest => record_failures cb (record_failure cb tbl t) rest
  end.

End CircuitBreaker.

(** ** agent-rootcause: [RootCauseAgent] *)

Module RootCauseAgent.

(** JSON values: events, parsed model output and tool results. *)
#[warnings="-register-all"]
Inductive json : Type :=
| JNull
| JBool (b : bool)
| JNum (z : Z)
| JStr (s : string)
| JArr (l : list json)
| JObj (items : list (string * json)).

(** [bool(v)] *)
Definition json_truthy (v : json) : bool :=
  match v with
  | JNull => false
  | JBool b => b
  | JNum z => negb (Z.eqb z 0)
  | JStr s => negb (String.eqb s "")
  | JArr l => negb (Nat.eqb (List.length l) 0)
  | JObj items => negb (Nat.eqb (List.length items) 0)
  end.

(** [d.get(k)] on the items of a dictionary. *)
Fixpoint items_get (items : list (string * json)) (k : string) : json :=
  match items with
  | [] => JNull
  | (k', v) :: rest => if String.eqb k' k then v else items_get rest k
  end.

(** [k in d] *)
Definition items_has (items : list (string * json)) (k : string) : bool :=
  existsb (fun kv => String.eqb (fst kv) k) items.

(** [d.get(k)] as an option: [None] for an absent key. *)
Definition items_lookup (items : list (string * json)) (k : string) : option json :=
  if items_has items k then Some (items_get items k) else None.

Definition json_is_str (v : json) (s : string) : bool :=
  match v with
  | JStr t => String.eqb t s
  | _ => false
  end.

(** [str(v)] for the scalars; containers are rendered by their brackets
    only. *)
Definition json_str (v : json) : string :=
  match v with
  | JNull => "None"
  | JBool true => "True"
  | JBool false => "False"
  | JNum z => pretty z
  | JStr s => s
  | JArr _ => "[...]"
  | JObj _ => "{...}"
  end.

(** Exceptions that leave [investigate]. *)
Inductive exn : Type :=
| AttributeError (msg : string)
| TypeError (msg : string)
| KeyError (key : string).

Definition exn_str (e : exn) : string :=
  match e with
  | AttributeError m => m
  | TypeError m => m
  | KeyError k => "'" +:+ k +:+ "'"
  end.

(** [response.find(c)], or [-1]. *)
Fixpoint find_from (c : ascii) (s : string) (i : Z) : Z :=
  match s with
  | EmptyString => -1
  | String d rest => if Ascii.eqb d c then i else find_from c rest (i + 1)
  end.

Definition find (c : ascii) (s : string) : Z := find_from c s 0.

(** [response.rfind(c)], or [-1]. *)
Fixpoint rfind_from (c : ascii) (s : string) (i : Z) (last : Z) : Z :=
  match s with
  | EmptyString => last
  | String d rest => rfind_from c rest (i + 1) (if Ascii.eqb d c then i else last)
  end.

Definition rfind (c : ascii) (s : string) : Z := rfind_from c s 0 (-1).

(** [s[start:end]] for [0 <= start] and [0 <= end]. *)
Definition slice (s : string) (start end_ : Z) : string :=
  if start <? end_
  then String.substring (Z.to_nat start) (Z.to_nat (end_ - start)) s
  else "".

(** [c.isspace()] for a character read as a code point below 256: the
    characters [str.strip] removes. *)
Definition is_space (c : ascii) : bool :=
  let n := nat_of_ascii c in
  (Nat.leb 9 n && Nat.leb n 13)%bool || (Nat.leb 28 n && Nat.leb n 32)%bool
  || Nat.eqb n 133 || Nat.eqb n 160.

Fixpoint lstrip (s : string) : string :=
  match s with
  | EmptyString => EmptyString
  | String c rest => if is_space c then lstrip rest else s
  end.

Definition string_rev (s : string) : string :=
  string_of_list_ascii (rev (list_ascii_of_string s)).

(** [s.strip()] *)
Definition strip (s : string) : string :=
  string_rev (lstrip (string_rev (lstrip s))).

(** The agent object: [__init__] sets [max_iterations] to 5. *)
Record Agent : Type := mkAgent {
  max_iterations : nat
}.

Definition init : Agent := mkAgent 5.

Definition agent_id : string := "rootcause-agent".

(** An observation dictionary. *)
Record Observation : Type := mkObservation {
  obs_type : string;
  obs_tool : option string;
  obs_data : option json;
  obs_summary : string
}.

(** An entry of [investigation_log]. *)
Inductive LogEntry : Type :=
| Thought (content : string)
| ActionEntry (content : list (string * json))
| ObservationEntry (content : Observation).

(** The investigation context: the incident and [gathered_data].  The
    [known_facts] strings only feed the prompt text. *)
Record Context : Type := mkContext {
  ctx_incident : json;
  gathered_data : gmap string json
}.

(** The state of the [while] loop of [investigate]. *)
Record LoopState : Type := mkLoopState {
  iteration : nat;
  investigation_log : list LogEntry;
  conclusion_reached : bool;
  root_cause : json;
  context : Context;
  model_calls : nat
}.

(** The dictionary [investigate] returns. *)
Record Investigation : Type := mkInvestigation {
  inv_incident_id : json;
  inv_root_cause : json;
  inv_confidence : json;
  inv_evidence : json;
  investigation_steps : nat;
  report : json
}.

Record Response : Type := mkResponse {
  statusCode : Z;
  result : Investigation
}.

(** The fallback of [_parse_action]. *)
Definition fallback_action : list (string * json) :=
  [("type", JStr "check_service_health"); ("parameters", JObj [])].

(** The fallback of [_parse_report]. *)
Definition fallback_report : list (string * json) :=
  [("root_cause", JStr "Unable to determine definitively");
   ("confidence", JStr "low");
   ("evidence", JArr []);
   ("contributing_factors", JArr []);
   ("recommendations", JArr [JStr "Manual investigation required"]);
   ("summary", JStr "Automated analysis inconclusive")].

(** The name Python gives the type of a value. *)
Definition json_type_name (v : json) : string :=
  match v with
  | JNull => "NoneType"
  | JBool _ => "bool"
  | JNum _ => "int"
  | JStr _ => "str"
  | JArr _ => "list"
  | JObj _ => "dict"
  end.

(** The first element of an array that is not a string, with its index. *)
Fixpoint first_non_str (l : list json) (i : nat) : option (nat * json) :=
  match l with
  | [] => None
  | JStr _ :: rest => first_non_str rest (S i)
  | v :: _ => Some (i, v)
  end.

(** [', '.join(incident.get('affected_services', []))]: [None] when the
    join succeeds (an array of strings, a string, a dictionary), otherwise
    the text of the [TypeError]. *)
Definition join_error (v : option json) : option string :=
  match v with
  | None => None
  | Some (JArr l) =>
      match first_non_str l 0 with
      | None => None
      | Some (i, x) =>
          Some ("sequence item " +:+ pretty i +:+ ": expected str instance, "
                +:+ json_type_name x +:+ " found")
      end
  | Some (JStr _) => None
  | Some (JObj _) => None
  | Some _ => Some "can only join an iterable"
  end.

Definition join_ok (v : option json) : bool :=
  match join_error v with
  | None => true
  | Some _ => false
  end.

(** [_build_initial_context]: [incident.get] raises on anything but a
    dictionary, and the join raises as [join_error] says. *)
Definition _build_initial_context (incident : json) : exn + Context :=
  match incident with
  | JObj items =>
      match join_error (items_lookup items "affected_services") with
      | None => inr (mkContext incident ∅)
      | Some msg => inl (TypeError msg)
      end
  | other =>
      inl (AttributeError
             ("'" +:+ json_type_name other +:+ "' object has no attribute 'get'"))
  end.

(** [_update_context] *)
Definition _update_context (ctx : Context) (o : Observation) : Context :=
  if String.eqb (obs_type o) "tool_result" then
    match obs_tool o with
    | Some tool_name =>
        mkContext (ctx_incident ctx)
          (<[tool_name := dict_get (obs_data o) JNull]> (gathered_data ctx))
    | None => ctx
    end
  else ctx.

Definition tool_menu : list string :=
  ["get_cpu_metrics"; "get_error_logs"; "check_service_health"; "get_memory_metrics"].

Section Oracles.

(** The text of the model's [n]-th reply, or [None] when the call raises. *)
Variable reasoner : nat -> option string.

(** [json.loads] on a text that starts with an opening brace: the items of
    the object, or [None] when it raises. *)
Variable json_loads : string -> option (list (string * json)).

(** The monitoring endpoint at iteration [n], for a tool name and its
    parameters: the tool result with its rendered summary, or the text of
    the exception raised inside the [try]. *)
Variable invoke_tool : nat -> string -> json -> (json * string) + string.

(** [_call_bedrock] *)
Definition _call_bedrock (n : nat) : string :=
  match reasoner n with
  | Some text => text
  | None => "Error calling AI model"
  end.

(** The [try] block shared by [_parse_action] and [_parse_report]: the
    parsed object, or [None] when the guard is false or [json.loads]
    raises. *)
Definition parse_object (response : string) : option (list (string * json)) :=
  let start := find "{"%char response in
  let end_ := rfind "}"%char response + 1 in
  if negb (Z.eqb start (-1)) && (0 <? end_)
  then json_loads (slice response start end_)
  else None.

Definition _parse_action (response : string) : list (string * json) :=
  match parse_object response with
  | Some items => items
  | None => fallback_action
  end.

Definition _parse_report (response : string) : list (string * json) :=
  match parse_object response with
  | Some items => items
  | None => fallback_report
  end.

(** [_execute_action] at iteration [n]. *)
Definition _execute_action (n : nat) (action : list (string * json)) : Observation :=
  let action_type := items_get action "type" in
  let params := dict_get (items_lookup action "parameters") (JObj []) in
  if json_is_str action_type "conclude" then
    mkObservation "conclusion" None None "Investigation complete"
  else
    match action_type with
    | JStr name =>
        if existsb (String.eqb name) tool_menu then
          match invoke_tool n name params with
          | inl (tool_result, summary) =>
              mkObservation "tool_result" (Some name) (Some tool_result) summary
          | inr e => mkObservation "error" None None e
          end
        else mkObservation "error" None None ("Unknown action: " +:+ name)
    | other => mkObservation "error" None None ("Unknown action: " +:+ json_str other)
    end.

(** One pass through the body of the [while] loop. *)
Definition loop_body (st : LoopState) : LoopState :=
  let iteration := S (iteration st) in
  let thought := strip (_call_bedrock (model_calls st)) in
  let log := investigation_log st ++ [Thought thought] in
  let action := _parse_action (_call_bedrock (S (model_calls st))) in
  let log := log ++ [ActionEntry action] in
  let calls := S (S (model_calls st)) in
  if json_is_str (items_get action "type") "conclude" then
    mkLoopState iteration log true (items_get action "conclusion") (context st) calls
  else
    let observation := _execute_action iteration action in
    let log := log ++ [ObservationEntry observation] in
    mkLoopState iteration log (conclusion_reached st) (root_cause st)
      (_update_context (context st) observation) calls.

(** [while iteration < self.max_iterations and not conclusion_reached] *)
Definition loop_guard (agent : Agent) (st : LoopState) : bool :=
  Nat.ltb (iteration st) (max_iterations agent) && negb (conclusion_reached st).

(** The [while] loop, unrolled at most [fuel] times. *)
Fixpoint while_loop (agent : Agent) (fuel : nat) (st : LoopState) : LoopState :=
  match fuel with
  | O => st
  | S fuel' =>
      if loop_guard agent st then while_loop agent fuel' (loop_body st) else st
  end.

(** [_update_incident]: the timeline gains one event; the call raises (and
    is swallowed) when the incident id is not a string. *)
Definition _update_incident (tb : Tables) (now : Z) (incident_id : json) : Tables :=
  match incident_id with
  | JStr id =>
      match incidents_table tb !! id with
      | Some inc =>
          let ev := mkEvent now "root_cause_analysis_completed" "rootcause_agent" in
          set_incidents tb
            (<[id := mkIncident (inc_created_at inc) (inc_status inc)
                       (Some (dict_get (inc_timeline inc) [] ++ [ev]))
                       (inc_verification_result inc)]>
               (incidents_table tb))
      | None => tb
      end
  | _ => tb
  end.

(** The state the loop starts from. *)
Definition initial_state (ctx : Context) : LoopState :=
  mkLoopState 0 [] false JNull ctx 0.

(** The loop of [investigate] run to its exit. *)
Definition run_loop (agent : Agent) (ctx : Context) : LoopState :=
  while_loop agent (max_iterations agent) (initial_state ctx).

(** [investigate].  [_save_state] writes [ITOps-AgentState], which nothing
    reads, and is left out.  The tables are returned on both exits because
    the incident is updated before the returned dictionary is built. *)
Definition investigate (agent : Agent) (tb : Tables) (now : Z)
    (incident_id : json) (incident_data : json) : (exn + Investigation) * Tables :=
  match _build_initial_context incident_data with
  | inl e => (inl e, tb)
  | inr ctx =>
      let st := run_loop agent ctx in
      let report := _parse_report (_call_bedrock (model_calls st)) in
      let tb := _update_incident tb now incident_id in
      if negb (items_has report "confidence") then (inl (KeyError "confidence"), tb)
      else if negb (items_has report "evidence") then (inl (KeyError "evidence"), tb)
      else
        (inr {| inv_incident_id := incident_id;
                inv_root_cause := root_cause st;
                inv_confidence := items_get report "confidence";
                inv_evidence := items_get report "evidence";
                investigation_steps := List.length (investigation_log st);
                report := JObj report |}, tb)
  end.

(** [lambda_handler] on an event whose [incident_id] and [incident] entries
    are the given values ([JNull] when absent). *)
Definition lambda_handler (tb : Tables) (now : Z) (incident_id : json)
    (incident_data : json) : Response * Tables :=
  if negb (json_truthy incident_id) || negb (json_truthy incident_data) then
    (mkResponse 400
       {| inv_incident_id := if json_truthy incident_id then incident_id else JStr "unknown";
          inv_root_cause := JStr "Unknown";
          inv_confidence := JStr "low";
          inv_evidence := JArr [];
          investigation_steps := 0;
          report :=
            JObj [("root_cause", JStr "Missing incident data");
                  ("confidence", JStr "low");
                  ("evidence", JArr []);
                  ("contributing_factors", JArr []);
                  ("recommendations", JArr [JStr "Provide valid incident data"]);
                  ("summary", JStr "Cannot perform RCA without incident data")] |},
     tb)
  else
    match investigate init tb now incident_id incident_data with
    | (inr r, tb) => (mkResponse 200 r, tb)
    | (inl e, tb) =>
        (mkResponse 500
           {| inv_incident_id := incident_id;
              inv_root_cause := JStr "System error during investigation";
              inv_confidence := JStr "low";
              inv_evidence := JArr [JStr ("Error: " +:+ exn_str e)];
              investigation_steps := 0;
              report :=
                JObj [("root_cause", JStr "System error prevented root cause analysis");
                      ("confidence", JStr "low");
                      ("evidence", JArr []);
                      ("contributing_factors", JArr [JStr (exn_str e)]);
                      ("recommendations",
                       JArr [JStr "Manual investigation required"; JStr "Check Lambda logs"]);
                      ("summary",
                       JStr ("RCA agent encountered an error: " +:+ exn_str e))] |},
         tb)
    end.

End Oracles.

End RootCauseAgent.

(** * Predicates used in the statements *)

(** ** Risk assessment *)

(** What [_assess_risk] reads from one action. *)
Definition risk_read (a : Action) : pyval := dict_get (risk a) (PyStr "medium").

Definition irreversible_read (a : Action) : bool :=
  negb (truthy (dict_get (reversible a) (PyBool true))).

(** "Some action has risk=high or is non-reversible." *)
Definition forces_high (plan : RemediationPlan) : Prop :=
  exists a, In a (all_actions plan)
            /\ (risk_read a = PyStr "high" \/ irreversible_read a = true).

(** "Some action has risk=medium." *)
Definition has_medium (plan : RemediationPlan) : Prop :=
  exists a, In a (all_actions plan) /\ risk_read a = PyStr "medium".

(** ** Auto-execution by the remediation agent *)

(** The test [action.get('risk') == 'low'] of [_execute_plan]. *)
Definition is_low (a : Action) : bool := eq_str (dict_get_none (risk a)) "low".

(** A plan of one low-risk and one medium-risk action, both reversible. *)
Definition low_action : Action :=
  mkAction (Some (PyStr "Clear cache")) (Some (PyStr "redis-cli flushall"))
    (Some (PyStr "low")) (Some (PyBool true)) None.

Definition medium_action : Action :=
  mkAction (Some (PyStr "Restart service")) (Some (PyStr "systemctl restart app"))
    (Some (PyStr "medium")) (Some (PyBool true)) None.

Definition medium_plan : RemediationPlan :=
  mkPlan (Some [low_action]) (Some [medium_action]) (Some ["Issue resolved"]) [].

Definition no_tables : Tables := mkTables ∅ ∅ [].

(** ** Remediation executor *)

(** [_execute_action] fails on the action: its [command] is present and is
    not a string. *)
Definition action_fails (a : Action) : bool :=
  match dict_get (command a) (PyStr "") with
  | PyStr _ => false
  | _ => true
  end.

(** [action.get('critical', False)] is true. *)
Definition is_critical (a : Action) : bool :=
  truthy (dict_get (critical a) (PyBool false)).

(** The test of the safety check on one action. *)
Definition high_irreversible (a : Action) : bool :=
  eq_str (dict_get_none (risk a)) "high"
  && negb (truthy (dict_get (reversible a) (PyBool false))).

(** The approval test at the head of [execute] lets the call through: no
    approval id was supplied, or the approval it names is approved. *)
Definition gate_open (tb : Tables) (approval_id : option string) : Prop :=
  match RemediationExecutor.approval_supplied approval_id with
  | Some id => RemediationExecutor._verify_approval tb id = true
  | None => True
  end.

(** The record of one action of a phase in [results], when the loop does
    not return at it. *)
Definition record_action (phase : string) (r : RemediationExecutor.Results)
    (a : Action) : RemediationExecutor.Results :=
  let result := RemediationExecutor._execute_action a phase in
  let r :=
    if String.eqb phase "immediate"
    then RemediationExecutor.push_immediate r result
    else RemediationExecutor.push_corrective r result in
  if negb (RemediationExecutor.res_success result)
  then RemediationExecutor.push_failed r result
  else r.

(** The initial [results] dictionary of [execute]. *)
Definition initial_results (now : Z) (incident_id : string)
  : RemediationExecutor.Results :=
  RemediationExecutor.mkResults incident_id ("EXEC-" +:+ pretty now) "in_progress"
    None [] [] [] false None.

(** The overall status of a run with [failed] failures among [total]
    executed actions. *)
Definition status_by_count (failed total : nat) : string :=
  if Nat.eqb failed 0 then "success"
  else if Nat.ltb failed total then "partial_success"
  else "failed".

(** Sample actions: [act_ok] succeeds, [act_bad] fails and is not critical,
    [act_crit] fails and is critical, [act_danger] is high-risk and has no
    way back. *)
Definition act_ok : Action :=
  mkAction (Some (PyStr "A")) (Some (PyStr "aws lambda update-function-configuration"))
    (Some (PyStr "low")) (Some (PyBool true)) None.

Definition act_bad : Action :=
  mkAction (Some (PyStr "B")) (Some PyNone) (Some (PyStr "low"))
    (Some (PyBool true)) (Some (PyBool false)).

Definition act_crit : Action :=
  mkAction (Some (PyStr "A")) (Some PyNone) (Some (PyStr "low"))
    (Some (PyBool true)) (Some (PyBool true)).

Definition act_danger : Action :=
  mkAction (Some (PyStr "Delete database")) (Some (PyStr "aws rds delete-db-instance"))
    (Some (PyStr "high")) (Some (PyBool false)) None.

Definition plan_of (imm corr : list Action) : RemediationPlan :=
  mkPlan (Some imm) (Some corr) None [].

(** A table holding incident [INC-1], open, and approval [APPR-1], pending. *)
Definition sample_tables : Tables :=
  mkTables
    {[ "INC-1" := mkIncident 1699999000 "executing" (Some []) None ]}
    {[ "APPR-1" := mkApproval 1699999500 (Some "INC-1") (Some "pending") (Some "high")
                     (Some (plan_of [act_danger] [])) (Some "remediation-agent")
                     (Some 1700085900) None None None ]}
    [].

(** ** Verification *)

(** An incident whose [affected_services] entry is [null], and one that
    names two services. *)
Definition incident_null_services : ResolutionVerifier.IncidentData :=
  ResolutionVerifier.mkIncidentData (Some (ResolutionVerifier.SvcScalar PyNone))
    (Some (PyStr "high")).

Definition incident_two_services : ResolutionVerifier.IncidentData :=
  ResolutionVerifier.mkIncidentData
    (Some (ResolutionVerifier.SvcList [PyStr "Lambda"; PyStr "RDS"]))
    (Some (PyStr "high")).

(** ** Circuit breaker *)

(** The default breaker for CloudWatch after five failures, the last one at
    second 1004. *)
Definition cloudwatch_breaker : CircuitBreaker.Breaker := CircuitBreaker.init "cloudwatch".

Definition five_failures : gmap string CircuitBreaker.Item :=
  CircuitBreaker.record_failures cloudwatch_breaker ∅ [1000; 1001; 1002; 1003; 1004]%Q.

(** ** Investigation loop *)

(** Every action recorded in the log is the fallback health check. *)
Definition only_fallback_actions (log : list RootCauseAgent.LogEntry) : Prop :=
  forall a, In (RootCauseAgent.ActionEntry a) log -> a = RootCauseAgent.fallback_action.

(** A reasoner that answers every call with prose, a parser that rejects
    everything, and a tool endpoint that always raises. *)
Definition prose_reasoner (n : nat) : option string := Some "I am not sure { what to do".

Definition rejecting_loads (s : string) : option (list (string * RootCauseAgent.json)) :=
  None.

Definition failing_tool (n : nat) (name : string) (params : RootCauseAgent.json)
  : (RootCauseAgent.json * string) + string :=
  inr "endpoint unreachable".

Definition sample_incident : RootCauseAgent.json :=
  RootCauseAgent.JObj
    [("title", RootCauseAgent.JStr "High error rate");
     ("severity", RootCauseAgent.JStr "high");
     ("affected_services", RootCauseAgent.JArr [RootCauseAgent.JStr "Lambda"])].

(** * Further functions of the Lambda sources *)

(** ** execute-remediation: [lambda_handler] *)

Module ExecutorHandler.

(** The event entries the handler reads; a field is [None] when the key is
    absent. *)
Record Event : Type := mkEvent {
  ev_incident_id : option string;
  ev_remediation_plan : option RemediationPlan;
  ev_approval_id : option string
}.

(** The [result] entry of the response: the error dictionary of a rejected
    event, or what [execute] returned. *)
Inductive Body : Type :=
| ErrorBody (incident_id : string) (status : string) (message : string)
| OutcomeBody (o : RemediationExecutor.Outcome).

Record Response : Type := mkResponse {
  statusCode : Z;
  result : Body
}.

(** [bool(s)] for an optional string. *)
Definition str_truthy (s : option string) : bool :=
  match s with
  | Some t => negb (String.eqb t "")
  | None => false
  end.

(** The 400 response: its [incident_id] is [incident_id or 'unknown']. *)
Definition missing_fields (incident_id : option string) : Response :=
  mkResponse 400
    (ErrorBody (if str_truthy incident_id then dict_get incident_id "" else "unknown")
       "error" "Missing incident_id or remediation_plan").

(** [lambda_handler].  [execute] raises on no well-typed event, so the
    500 branch is never taken. *)
Definition lambda_handler (tb : Tables) (now : Z) (event : Event)
  : Response * Tables * list Action :=
  if negb (str_truthy (ev_incident_id event))
     || negb (plan_truthy (ev_remediation_plan event))
  then (missing_fields (ev_incident_id event), tb, [])
  else
    match ev_incident_id event, ev_remediation_plan event with
    | Some incident_id, Some remediation_plan =>
        let '(o, tb', calls) :=
          RemediationExecutor.execute tb now incident_id remediation_plan
            (ev_approval_id event) in
        (mkResponse 200 (OutcomeBody o), tb', calls)
    | _, _ => (missing_fields (ev_incident_id event), tb, [])
    end.

End ExecutorHandler.

(** ** agent-remediation: plan generation and [lambda_handler] *)

Module RemediationAgentHandler.

(** The fallback of [_parse_plan]: one high-risk, irreversible action. *)
Definition fallback_plan : RemediationPlan :=
  mkPlan
    (Some [mkAction (Some (PyStr "Manual intervention required")) (Some (PyStr "N/A"))
             (Some (PyStr "high")) (Some (PyBool false)) None])
    (Some [])
    (Some ["Issue resolved"])
    ["preventive_measures"; "estimated_duration"].

(** The [result] entry or the [error] entry of the response. *)
Inductive Body : Type :=
| ErrorBody (error : string)
| ResultBody (r : RemediationAgent.RemediateResult).

Record Response : Type := mkResponse {
  statusCode : Z;
  body : Body
}.

Section Oracles.

(** The text the model returns for the planning prompt, or [None] when
    anything inside the [try] of [_call_bedrock] raises. *)
Variable bedrock : option string.

(** [json.loads] on a text that starts with an opening brace, read as a
    plan dictionary; [None] when it raises. *)
Variable json_loads : string -> option RemediationPlan.

(** [_call_bedrock]: a failed call yields the text of an empty object. *)
Definition _call_bedrock : string :=
  match bedrock with
  | Some text => text
  | None => "{}"
  end.

(** [_parse_plan] *)
Definition _parse_plan (response : string) : RemediationPlan :=
  let start := RootCauseAgent.find "{"%char response in
  let end_ := RootCauseAgent.rfind "}"%char response + 1 in
  if negb (Z.eqb start (-1)) && (0 <? end_)
  then match json_loads (RootCauseAgent.slice response start end_) with
       | Some plan => plan
       | None => fallback_plan
       end
  else fallback_plan.

(** [_generate_plan].  Building the prompt raises when the incident is not
    a dictionary or its [affected_services] cannot be joined. *)
Definition _generate_plan (incident : RootCauseAgent.json)
  : RootCauseAgent.exn + RemediationPlan :=
  match incident with
  | RootCauseAgent.JObj items =>
      match RootCauseAgent.join_error
              (RootCauseAgent.items_lookup items "affected_services") with
      | None => inr (_parse_plan _call_bedrock)
      | Some msg => inl (RootCauseAgent.TypeError msg)
      end
  | other =>
      inl (RootCauseAgent.AttributeError
             ("'" +:+ RootCauseAgent.json_type_name other
              +:+ "' object has no attribute 'get'"))
  end.

(** [lambda_handler] on an event with a string (or absent) incident id. *)
Definition lambda_handler (tb : Tables) (now : Z) (uuid8 : string)
    (incident_id : option string) (incident_data : RootCauseAgent.json)
  : Response * Tables * list Action :=
  match incident_id with
  | Some id =>
      if String.eqb id "" || negb (RootCauseAgent.json_truthy incident_data)
      then (mkResponse 400 (ErrorBody "Missing required fields"), tb, [])
      else
        match _generate_plan incident_data with
        | inl e => (mkResponse 500 (ErrorBody (RootCauseAgent.exn_str e)), tb, [])
        | inr plan =>
            let '(r, tb', calls) := RemediationAgent.remediate tb now uuid8 id plan in
            (mkResponse 200 (ResultBody r), tb', calls)
        end
  | None => (mkResponse 400 (ErrorBody "Missing required fields"), tb, [])
  end.

End Oracles.

End RemediationAgentHandler.

(** ** approval-checker: [lambda_handler] *)

Module ApprovalChecker.

Record Response : Type := mkResponse {
  statusCode : Z;
  approved : bool;
  status : option string;
  approval_id : option string;
  comments : option string;
  error : option string
}.

Definition lambda_handler (tb : Tables) (event_approval_id : option string) : Response :=
  match event_approval_id with
  | Some id =>
      if String.eqb id "" then
        mkResponse 400 false None None None (Some "No approval_id provided")
      else
        match approval_queue_table tb !! id with
        | None => mkResponse 404 false (Some "not_found") None None None
        | Some approval =>
            let status := dict_get (apr_status approval) "pending" in
            mkResponse 200 (String.eqb status "approved") (Some status) (Some id)
              (Some (dict_get (apr_comments approval) "")) None
        end
  | None => mkResponse 400 false None None None (Some "No approval_id provided")
  end.

End ApprovalChecker.

(** ** api-handler: [update_approval] *)

Module ApiHandler.

Inductive Response : Type :=
| Error (statusCode : Z) (error : string)
| Updated (message : string) (approval_id : string).

(** [update_approval].  [status] and [comments] are the entries of the
    request body; the [updated_at] attribute it writes is read by no
    function and is not kept in the item record.  Unlike
    [process_approval] there is no test of the stored status. *)
Definition update_approval (tb : Tables) (now : Z) (approval_id : string)
    (status : option string) (comments : option string) : Response * Tables :=
  match status with
  | Some s =>
      if String.eqb s "approved" || String.eqb s "rejected" then
        match approval_queue_table tb !! approval_id with
        | None => (Error 404 "Approval not found", tb)
        | Some old =>
            let item :=
              {| apr_created_at := apr_created_at old;
                 apr_incident_id := apr_incident_id old;
                 apr_status := Some s;
                 apr_risk_level := apr_risk_level old;
                 apr_plan := apr_plan old;
                 apr_requested_by := apr_requested_by old;
                 apr_ttl := apr_ttl old;
                 apr_approver := apr_approver old;
                 apr_approved_at := apr_approved_at old;
                 apr_comments := Some (dict_get comments "") |} in
            (Updated ("Approval " +:+ s) approval_id,
             set_approvals tb (<[approval_id := item]> (approval_queue_table tb)))
        end
      else (Error 400 "Invalid status", tb)
  | None => (Error 400 "Invalid status", tb)
  end.

End ApiHandler.

(** ** process-approval: details, listing and the two entry points *)

Module ApprovalApi.

(** [path.split('/')]: the pieces between the separators; never empty. *)
Fixpoint split_on (sep : ascii) (s : string) : list string :=
  match s with
  | EmptyString => [EmptyString]
  | String c rest =>
      if Ascii.eqb c sep then EmptyString :: split_on sep rest
      else match split_on sep rest with
           | piece :: pieces => String c piece :: pieces
           | [] => [String c EmptyString]
           end
  end.

(** The dictionary [get_approval_details] returns. *)
Record Details : Type := mkDetails {
  det_approval_id : string;
  det_incident_id : option string;
  det_status : string;
  det_risk_level : option string;
  det_created_at : Z;
  det_requested_by : option string;
  det_plan : option RemediationPlan;
  det_approver : option string;
  det_approved_at : option Z;
  det_comments : option string
}.

Definition get_approval_details (tb : Tables) (approval_id : string) : option Details :=
  match ApprovalProcessor._get_approval tb approval_id with
  | None => None
  | Some approval =>
      Some {| det_approval_id := approval_id;
              det_incident_id := apr_incident_id approval;
              det_status := dict_get (apr_status approval) "pending";
              det_risk_level := apr_risk_level approval;
              det_created_at := apr_created_at approval;
              det_requested_by := apr_requested_by approval;
              det_plan := apr_plan approval;
              det_approver := apr_approver approval;
              det_approved_at := apr_approved_at approval;
              det_comments := apr_comments approval |}
  end.

(** The dictionary [list_pending_approvals] returns. *)
Inductive Listing : Type :=
| ListOk (count : nat) (approvals : list (string * Approval))
| ListError (error : string).

(** One step of a stable sort by [created_at], newest first. *)
Fixpoint insert_newest_first (x : string * Approval) (l : list (string * Approval))
  : list (string * Approval) :=
  match l with
  | [] => [x]
  | y :: rest =>
      if apr_created_at (snd x) <? apr_created_at (snd y)
      then y :: insert_newest_first x rest
      else x :: l
  end.

(** [approvals.sort(key=created_at, reverse=True)] *)
Definition sort_newest_first (l : list (string * Approval)) : list (string * Approval) :=
  fold_right insert_newest_first [] l.

(** The body of a response, before [json.dumps] renders it. *)
Inductive Content : Type :=
| Empty
| Message (success : bool) (message : string)
| Processed (r : ApprovalProcessor.ProcessResult)
| ListOf (l : Listing)
| NotFound
| ErrorText (error : string).

(** [json.dumps] raises [TypeError] on a [Decimal], and every stored
    approval has one: its [created_at].  So the details of an approval are
    never rendered, and a listing is rendered only when it holds no
    approval. *)
Definition decimal_error : string := "Object of type Decimal is not JSON serializable".

Definition listing_renders (l : Listing) : bool :=
  match l with
  | ListOk _ (_ :: _) => false
  | _ => true
  end.

Record Response : Type := mkResponse {
  statusCode : Z;
  content : Content
}.

(** The [body] entry of an API Gateway event. *)
Inductive BodyField : Type :=
| BodyAbsent
| BodyNull
| BodyText (s : string).

(** An API Gateway proxy event. *)
Record ApiEvent : Type := mkApiEvent {
  httpMethod : option string;
  path : option string;
  body : BodyField;
  query_limit : option string
}.

(** A direct invocation event. *)
Record DirectEvent : Type := mkDirectEvent {
  ev_action : option string;
  ev_approval_id : option string;
  ev_decision : option string;
  ev_approver : option string;
  ev_comments : option string;
  ev_limit : option pyval
}.

Inductive Event : Type :=
| Api (e : ApiEvent)
| Direct (e : DirectEvent).

Section Oracles.

(** The table scan for pending approvals under a [Limit]: the items in the
    order DynamoDB returns them, or the text of the exception. *)
Variable scan : Tables -> pyval -> list (string * Approval) + string.

(** [json.loads] of a request body followed by the reads of [approver] and
    [comments]; [None] when the text does not parse to a dictionary. *)
Variable body_loads : string -> option (option string * option string).

(** [int(s)] on a query-string value; [None] when it raises. *)
Variable parse_int : string -> option Z.

Definition list_pending_approvals (tb : Tables) (limit : pyval) : Listing :=
  match scan tb limit with
  | inl items => ListOk (List.length items) (sort_newest_first items)
  | inr e => ListError e
  end.

(** [process_approval] on a path segment that may be missing: with [None]
    the table query raises inside [_get_approval], which the function
    turns into an approval that is not found. *)
Definition process_segment (tb : Tables) (now : Z) (approval_id : option string)
    (decision : string) (approver : string) (comments : option string)
  : ApprovalProcessor.ProcessResult * Tables :=
  match approval_id with
  | Some id => ApprovalProcessor.process_approval tb now id decision approver comments
  | None =>
      if negb (String.eqb decision "approve" || String.eqb decision "reject") then
        (ApprovalProcessor.Failure
           ("Invalid action: " +:+ decision +:+ ". Must be 'approve' or 'reject'"), tb)
      else (ApprovalProcessor.Failure "Approval None not found", tb)
  end.

(** [handle_api_request]; [None] stands for an exception, which
    [lambda_handler] turns into a 500. *)
Definition handle_api_request (tb : Tables) (now : Z) (event : ApiEvent)
  : option (Response * Tables) :=
  let method := httpMethod event in
  let path := dict_get (path event) "" in
  if bool_decide (method = Some "OPTIONS") then Some (mkResponse 200 Empty, tb)
  else if bool_decide (method = Some "POST") && RemediationExecutor.contains "/approve" path
          || RemediationExecutor.contains "/reject" path then
    let pieces := split_on "/"%char path in
    let approval_id := if Nat.ltb 2 (List.length pieces) then pieces !! 2%nat else None in
    let decision :=
      if RemediationExecutor.contains "/approve" path then "approve" else "reject" in
    let parsed :=
      match body event with
      | BodyAbsent => body_loads "{}"
      | BodyNull => None
      | BodyText s => body_loads s
      end in
    match parsed with
    | None => None
    | Some (approver, comments) =>
        let '(result, tb') :=
          process_segment tb now approval_id decision (dict_get approver "api-user")
            comments in
        Some (mkResponse (if ApprovalProcessor.success result then 200 else 400)
                (Processed result), tb')
    end
  else if bool_decide (method = Some "GET") && String.eqb path "/approvals" then
    let limit :=
      match query_limit event with
      | None => Some 50
      | Some s => parse_int s
      end in
    match limit with
    | Some n =>
        let result := list_pending_approvals tb (PyInt n) in
        if listing_renders result then Some (mkResponse 200 (ListOf result), tb)
        else None
    | None => None
    end
  else if bool_decide (method = Some "GET") && String.prefix "/approvals/" path then
    match split_on "/"%char path !! 2%nat with
    | Some id =>
        match get_approval_details tb id with
        | Some d => None
        | None => Some (mkResponse 404 NotFound, tb)
        end
    | None => None
    end
  else Some (mkResponse 404 NotFound, tb).

(** The direct-invocation branch of [lambda_handler], with the 500 its
    [except] gives to an exception of this branch. *)
Definition handle_direct (tb : Tables) (now : Z) (event : DirectEvent)
  : Response * Tables :=
  match ev_action event with
  | Some "process" =>
      if negb (ExecutorHandler.str_truthy (ev_approval_id event))
         || negb (ExecutorHandler.str_truthy (ev_decision event))
      then (mkResponse 400 (Message false "Missing approval_id or decision"), tb)
      else
        let '(result, tb') :=
          ApprovalProcessor.process_approval tb now (dict_get (ev_approval_id event) "")
            (dict_get (ev_decision event) "") (dict_get (ev_approver event) "unknown")
            (ev_comments event) in
        (mkResponse (if ApprovalProcessor.success result then 200 else 400)
           (Processed result), tb')
  | Some "get" =>
      if negb (ExecutorHandler.str_truthy (ev_approval_id event))
      then (mkResponse 400 (Message false "Missing approval_id"), tb)
      else
        match get_approval_details tb (dict_get (ev_approval_id event) "") with
        | Some d => (mkResponse 500 (ErrorText decimal_error), tb)
        | None => (mkResponse 404 (Message false "Approval not found"), tb)
        end
  | Some "list" =>
      let result := list_pending_approvals tb (dict_get (ev_limit event) (PyInt 50)) in
      if listing_renders result then (mkResponse 200 (ListOf result), tb)
      else (mkResponse 500 (ErrorText decimal_error), tb)
  | Some other => (mkResponse 400 (Message false ("Invalid action: " +:+ other)), tb)
  | None => (mkResponse 400 (Message false "Invalid action: None"), tb)
  end.

(** [lambda_handler].  The text of the exception behind a 500 is not
    reproduced. *)
Definition lambda_handler (tb : Tables) (now : Z) (event : Event) : Response * Tables :=
  match event with
  | Api e =>
      match handle_api_request tb now e with
      | Some out => out
      | None => (mkResponse 500 (ErrorText "request failed"), tb)
      end
  | Direct e => handle_direct tb now e
  end.

End Oracles.

End ApprovalApi.

(** * Predicates for the further properties *)

(** The records of a list of action results whose [success] is false. *)
Definition failed_of (l : list RemediationExecutor.ActionResult)
  : list RemediationExecutor.ActionResult :=
  List.filter (fun x => negb (RemediationExecutor.res_success x)) l.

(** What the two loops of [execute] keep true of [results] and of the list
    of executed actions. *)
Definition bookkeeping (st : RemediationExecutor.Results * list Action) : Prop :=
  RemediationExecutor.failed_actions (fst st)
  = failed_of (RemediationExecutor.immediate_actions_done (fst st)
               ++ RemediationExecutor.corrective_actions_done (fst st))
  /\ List.length (snd st)
     = List.length (RemediationExecutor.immediate_actions_done (fst st)
                    ++ RemediationExecutor.corrective_actions_done (fst st)).

(** The plan parsed from the text of an empty JSON object. *)
Definition empty_plan : RemediationPlan := mkPlan None None None [].

(** A parser that knows the empty object only. *)
Definition loads_empty_object (s : string) : option RemediationPlan :=
  if String.eqb s "{}" then Some empty_plan else None.

(** The pending approval that [_queue_for_approval] stores. *)
Definition pending_item (now : Z) (incident_id : string) (plan : RemediationPlan)
    (risk_level : string) : Approval :=
  mkApproval now (Some incident_id) (Some "pending") (Some risk_level) (Some plan)
    (Some "remediation-agent") (Some (now + 86400)) None None None.

(** [sample_tables] after approval [APPR-1] has been rejected by [ops]. *)
Definition rejected_tables : Tables :=
  snd (ApprovalProcessor.process_approval sample_tables 1700000100 "APPR-1" "reject"
         "ops" None).

(** The item [process_approval] stores for a decided approval. *)
Definition decided_item (old : Approval) (status approver : string) (now : Z)
    (comments : option string) : Approval :=
  {| apr_created_at := apr_created_at old;
     apr_incident_id := apr_incident_id old;
     apr_status := Some status;
     apr_risk_level := apr_risk_level old;
     apr_plan := apr_plan old;
     apr_requested_by := apr_requested_by old;
     apr_ttl := apr_ttl old;
     apr_approver := Some approver;
     apr_approved_at := Some now;
     apr_comments :=
       match ApprovalProcessor.comments_given comments with
       | Some c => Some c
       | None => apr_comments old
       end |}.

(** The status stored for a decision. *)
Definition decided_status (action : string) : string :=
  if String.eqb action "approve" then "approved" else "rejected".




(** [inc'] is [inc] with exactly one event appended to its timeline; the
    creation time is kept. *)
Definition appended_one (inc inc' : Incident) : Prop :=
  inc_created_at inc' = inc_created_at inc
  /\ exists ev, inc_timeline inc' = Some (dict_get (inc_timeline inc) [] ++ [ev]).


(** ** Investigation log *)

(** [c in s] for a character. *)
Fixpoint occurs (c : ascii) (s : string) : bool :=
  match s with
  | EmptyString => false
  | String d rest => Ascii.eqb d c || occurs c rest
  end.

(** The data a log entry records for [tool]: the entry is an observation
    of type ['tool_result'] made with that tool. *)
Definition result_for (tool : string) (e : RootCauseAgent.LogEntry)
  : option RootCauseAgent.json :=
  match e with
  | RootCauseAgent.ObservationEntry o =>
      if String.eqb (RootCauseAgent.obs_type o) "tool_result" then
        match RootCauseAgent.obs_tool o with
        | Some t =>
            if String.eqb t tool
            then Some (dict_get (RootCauseAgent.obs_data o) RootCauseAgent.JNull)
            else None
        | None => None
        end
      else None
  | _ => None
  end.

(** The data of the last tool result for [tool] in a log. *)
Definition last_result (tool : string) (log : list RootCauseAgent.LogEntry)
  : option RootCauseAgent.json :=
  fold_left (fun acc e => match result_for tool e with
                          | Some d => Some d
                          | None => acc
                          end) log None.

(** The entry is an action of type ['conclude']. *)
Definition is_conclude (e : RootCauseAgent.LogEntry) : bool :=
  match e with
  | RootCauseAgent.ActionEntry a =>
      RootCauseAgent.json_is_str (RootCauseAgent.items_get a "type") "conclude"
  | _ => false
  end.

Definition no_conclude (log : list RootCauseAgent.LogEntry) : bool :=
  forallb (fun e => negb (is_conclude e)) log.

(** A parser that knows one text, and a reasoner whose second reply is that
    text. *)
Definition conclude_action : list (string * RootCauseAgent.json) :=
  [("type", RootCauseAgent.JStr "conclude");
   ("conclusion", RootCauseAgent.JStr "Connection pool exhausted")].

Definition loads_conclude (s : string) : option (list (string * RootCauseAgent.json)) :=
  if String.eqb s "{conclude}" then Some conclude_action else None.

Definition concluding_reasoner (n : nat) : option string :=
  match n with
  | 1%nat => Some "Decision: {conclude} as the logs show"
  | _ => Some "The error rate points at the database"
  end.

(** A reasoner that gives the same concluding reply to every call, the
    request for the report included. *)
Definition repeating_reasoner (n : nat) : option string :=
  Some "Decision: {conclude} as the logs show".

(** ** Approval listing *)

(** The approvals are in descending order of [created_at]. *)
Fixpoint newest_first (l : list (string * Approval)) : bool :=
  match l with
  | [] => true
  | x :: rest =>
      match rest with
      | [] => true
      | y :: _ => (apr_created_at (snd y) <=? apr_created_at (snd x)) && newest_first rest
      end
  end.

(** A scan that returns three pending approvals, oldest first. *)
Definition three_pending (tb : Tables) (limit : pyval) : list (string * Approval) + string :=
  inl [("APPR-A", pending_item 100 "INC-1" empty_plan "high");
       ("APPR-B", pending_item 200 "INC-2" empty_plan "high");
       ("APPR-C", pending_item 300 "INC-3" empty_plan "critical")].

(** ** mcp-monitoring: [MCPTools] and [lambda_handler] *)

Module MCPTools.

(** A datapoint of [get_metric_statistics] as returned for
    [Statistics=['Average', 'Maximum']]. *)
Record Datapoint : Type := mkDatapoint {
  Timestamp : Z;
  Average : Q;
  Maximum : Q
}.

(** An event of [filter_log_events]. *)
Record LogEvent : Type := mkLogEvent {
  timestamp : Z;
  message : string
}.

(** The tools object: [__init__] builds one breaker per service. *)
Record Tools : Type := mkTools {
  cloudwatch_breaker : CircuitBreaker.Breaker;
  logs_breaker : CircuitBreaker.Breaker
}.

Definition init : Tools :=
  mkTools (CircuitBreaker.init "cloudwatch") (CircuitBreaker.init "cloudwatch_logs").

(** The [parameters] dictionary, with the keys the three tools read; a
    field is [None] when the key is absent. *)
Record Params : Type := mkParams {
  resource_id : option pyval;
  resource_type : option pyval;
  hours : option pyval;
  log_group : option pyval;
  pattern : option pyval;
  service_name : option pyval
}.

Definition no_params : Params := mkParams None None None None None None.

Record Summary : Type := mkSummary {
  avg : Q;
  max : Q;
  count : Z
}.

(** An entry of [issues].  The two latency messages print a float; they
    are kept by their template and the value printed. *)
Inductive Issue : Type :=
| IssueText (text : string)
| HighAverageLatency (avg_duration : Q)
| PeakLatencySpike (max_duration : Q).

Record HealthReport : Type := mkHealthReport {
  hr_service_name : pyval;
  health_status : string;
  error_count : Z;
  avg_duration_ms : Q;
  max_duration_ms : Q;
  issues : list Issue;
  recommendation : string
}.

(** What a tool returns.  The rendered instants ([timestamp] texts,
    [time_range], [checked_at]) are left out. *)
Inductive ToolResult : Type :=
| ErrorResult (error : string) (retry_after : option Z)
| Metrics (resource_id resource_type : pyval) (metric : string)
    (datapoints : list Datapoint) (summary : Summary)
| Logs (log_group pattern : pyval) (event_count : Z) (events : list LogEvent)
| Health (report : HealthReport).

(** [timedelta(hours=hours)] on a value that is not a number: the text of
    its [TypeError].  What it does on a number belongs to the lookups
    below. *)
Definition hours_type_error (hours : pyval) : option string :=
  match hours with
  | PyNone => Some "unsupported type for timedelta hours component: NoneType"
  | PyStr _ => Some "unsupported type for timedelta hours component: str"
  | PyBool _ => None
  | PyInt _ => None
  end.

(** [sorted(l, key=lambda x: x['Timestamp'])]: a stable sort. *)
Fixpoint insert_by_timestamp (d : Datapoint) (l : list Datapoint) : list Datapoint :=
  match l with
  | [] => [d]
  | x :: rest =>
      if Timestamp x <=? Timestamp d then x :: insert_by_timestamp d rest else d :: l
  end.

Definition sorted_by_timestamp (l : list Datapoint) : list Datapoint :=
  fold_left (fun acc d => insert_by_timestamp d acc) l [].

(** [max((d['Maximum'] for d in datapoints), default=0)] *)
Definition max_maximum (l : list Datapoint) : Q :=
  match l with
  | [] => 0%Q
  | d :: rest =>
      fold_left (fun m x => if CircuitBreaker.Qgt_bool (Maximum x) m then Maximum x else m)
        rest (Maximum d)
  end.

(** [message[:500]] *)
Definition truncate (e : LogEvent) : LogEvent :=
  mkLogEvent (timestamp e) (String.substring 0 500 (message e)).

(** [_get_health_recommendation] *)
Definition _get_health_recommendation (status : string) (errors : Z) (duration : Q)
  : string :=
  if String.eqb status "unhealthy" then
    "Service is unhealthy with " +:+ pretty errors
    +:+ " errors. Immediate investigation required. Check logs and consider rolling back recent changes."
  else if String.eqb status "degraded" then
    "Service performance degraded. Review recent deployments, check resource utilization, and consider scaling."
  else "Service is operating normally. Continue monitoring.".

(** [health_status = 'degraded' if health_status == 'healthy' else
    health_status] *)
Definition degrade (health_status : string) : string :=
  if String.eqb health_status "healthy" then "degraded" else health_status.

(** The event of the handler; its [parameters] entry, when present, is a
    dictionary. *)
Record Event : Type := mkEvent {
  ev_action : option pyval;
  ev_tool_name : option pyval;
  ev_parameters : option Params
}.

(** The response: the tool descriptors of [list_tools] by their names, a
    tool result, or the [error] text of a 400 or 500 answer. *)
Inductive Body : Type :=
| ToolsBody (tools : list string)
| ResultBody (result : ToolResult)
| ErrorBody (error : string).

Record Response : Type := mkResponse {
  statusCode : Z;
  body : Body
}.

(** The names [list_tools] advertises. *)
Definition advertised : list string :=
  ["get_cpu_metrics"; "get_error_logs"; "check_service_health"].

(** The clock readings of one handler call: when each breaker is checked
    and when the outcome of each call is recorded. *)
Record Clock : Type := mkClock {
  logs_checked : Q;
  logs_recorded : Q;
  cloudwatch_checked : Q;
  cloudwatch_recorded : Q
}.

Section Oracles.

(** Float arithmetic: [x + y] and [x / n] as Python computes them, the
    exact result rounded to a double. *)
Variable float_add : Q -> Q -> Q.
Variable float_div : Q -> Z -> Q.

(** The statements of the [try] block of [get_cpu_metrics] from the time
    range to the response, for a namespace, a metric name, a dimension name
    and value and a number of hours that is a number: the subtraction of
    [timedelta(hours=hours)] from the clock, which raises [OverflowError]
    out of range, and [cloudwatch.get_metric_statistics].  The [Datapoints]
    of the response, or the text of the exception raised. *)
Variable query_statistics :
  string -> string -> string -> pyval -> pyval -> list Datapoint + string.

(** The same for [get_error_logs]: the time range and
    [logs.filter_log_events] for a log group, a number of hours and a filter
    pattern.  The [events] entry of the response when it has one, or the
    text of the exception raised. *)
Variable query_events :
  pyval -> pyval -> pyval -> option (list LogEvent) + string.

(** [sum(d['Average'] for d in datapoints)] *)
Definition sum_average (l : list Datapoint) : Q :=
  fold_left (fun acc d => float_add acc (Average d)) l 0%Q.

Definition summary_of (datapoints : list Datapoint) : Summary :=
  mkSummary
    (match datapoints with
     | [] => 0%Q
     | _ => float_div (sum_average datapoints) (Z.of_nat (List.length datapoints))
     end)
    (max_maximum datapoints)
    (Z.of_nat (List.length datapoints)).

(** [get_cpu_metrics]: the breaker is read at [checked], the outcome is
    recorded at [recorded].  [is_open] is called before the [try], so its
    exception leaves the function. *)
Definition get_cpu_metrics (tools : Tools) (tbl : gmap string CircuitBreaker.Item)
    (checked recorded : Q) (params : Params)
  : CircuitBreaker.Outcome (ToolResult * gmap string CircuitBreaker.Item) :=
  match CircuitBreaker.is_open (cloudwatch_breaker tools) tbl checked with
  | CircuitBreaker.Raises e => CircuitBreaker.Raises e
  | CircuitBreaker.Returns true =>
      CircuitBreaker.Returns
        (ErrorResult "Circuit breaker OPEN for CloudWatch" (Some 60), tbl)
  | CircuitBreaker.Returns false =>
      let resource_id := dict_get (resource_id params) (PyStr "") in
      let resource_type := dict_get (resource_type params) (PyStr "Lambda") in
      let hours := dict_get (hours params) (PyInt 1) in
      let namespace :=
        if eq_str resource_type "Lambda" then "AWS/Lambda" else "AWS/EC2" in
      let metric_name :=
        if eq_str resource_type "Lambda" then "Duration" else "CPUUtilization" in
      let dimension :=
        if eq_str resource_type "Lambda" then "FunctionName" else "InstanceId" in
      match hours_type_error hours with
      | Some e =>
          CircuitBreaker.Returns
            (ErrorResult e None,
             CircuitBreaker.record_failure (cloudwatch_breaker tools) tbl recorded)
      | None =>
          match query_statistics namespace metric_name dimension resource_id hours with
          | inr e =>
              CircuitBreaker.Returns
                (ErrorResult e None,
                 CircuitBreaker.record_failure (cloudwatch_breaker tools) tbl recorded)
          | inl response =>
              let tbl := CircuitBreaker.record_success (cloudwatch_breaker tools) tbl
                           recorded in
              let datapoints := sorted_by_timestamp response in
              CircuitBreaker.Returns
                (Metrics resource_id resource_type metric_name datapoints
                   (summary_of datapoints), tbl)
          end
      end
  end.

(** [get_error_logs] *)
Definition get_error_logs (tools : Tools) (tbl : gmap string CircuitBreaker.Item)
    (checked recorded : Q) (params : Params)
  : CircuitBreaker.Outcome (ToolResult * gmap string CircuitBreaker.Item) :=
  match CircuitBreaker.is_open (logs_breaker tools) tbl checked with
  | CircuitBreaker.Raises e => CircuitBreaker.Raises e
  | CircuitBreaker.Returns true =>
      CircuitBreaker.Returns
        (ErrorResult "Circuit breaker OPEN for CloudWatch Logs" (Some 60), tbl)
  | CircuitBreaker.Returns false =>
      let log_group := dict_get (log_group params) (PyStr "/aws/lambda/*") in
      let hours := dict_get (hours params) (PyInt 1) in
      let error_pattern := dict_get (pattern params) (PyStr "ERROR") in
      match hours_type_error hours with
      | Some e =>
          CircuitBreaker.Returns
            (ErrorResult e None,
             CircuitBreaker.record_failure (logs_breaker tools) tbl recorded)
      | None =>
          match query_events log_group hours error_pattern with
          | inr e =>
              CircuitBreaker.Returns
                (ErrorResult e None,
                 CircuitBreaker.record_failure (logs_breaker tools) tbl recorded)
          | inl response =>
              let tbl := CircuitBreaker.record_success (logs_breaker tools) tbl
                           recorded in
              let events := dict_get response [] in
              CircuitBreaker.Returns
                (Logs log_group error_pattern (Z.of_nat (List.length events))
                   (List.map truncate (firstn 20 events)), tbl)
          end
      end
  end.

(** The report [check_service_health] builds from its two lookups. *)
Definition health_report (service_name : pyval) (error_logs cpu_metrics : ToolResult)
  : HealthReport :=
  let error_count :=
    match error_logs with
    | Logs _ _ event_count _ => event_count
    | _ => 0
    end in
  let avg_duration :=
    match cpu_metrics with
    | Metrics _ _ _ _ summary => avg summary
    | _ => 0%Q
    end in
  let max_duration :=
    match cpu_metrics with
    | Metrics _ _ _ _ summary => max summary
    | _ => 0%Q
    end in
  let '(health_status, issues) :=
    if 10 <? error_count then
      ("unhealthy",
       [IssueText ("High error rate: " +:+ pretty error_count +:+ " errors in past hour")])
    else if 5 <? error_count then
      ("degraded",
       [IssueText ("Elevated error rate: " +:+ pretty error_count +:+ " errors")])
    else ("healthy", []) in
  let '(health_status, issues) :=
    if CircuitBreaker.Qgt_bool avg_duration 5000
    then (degrade health_status, issues ++ [HighAverageLatency avg_duration])
    else (health_status, issues) in
  let '(health_status, issues) :=
    if CircuitBreaker.Qgt_bool max_duration 10000
    then (degrade health_status, issues ++ [PeakLatencySpike max_duration])
    else (health_status, issues) in
  mkHealthReport service_name health_status error_count avg_duration max_duration
    issues (_get_health_recommendation health_status error_count avg_duration).

(** [check_service_health].  Both lookups are made inside its [try], so an
    exception of [is_open] ends in the error dictionary. *)
Definition check_service_health (tools : Tools) (tbl : gmap string CircuitBreaker.Item)
    (clock : Clock) (params : Params)
  : ToolResult * gmap string CircuitBreaker.Item :=
  let service_name := dict_get (service_name params) (PyStr "") in
  match get_error_logs tools tbl (logs_checked clock) (logs_recorded clock)
          (mkParams None None (Some (PyInt 1))
             (Some (PyStr ("/aws/lambda/" +:+ py_str service_name)))
             (Some (PyStr "ERROR")) None) with
  | CircuitBreaker.Raises e => (ErrorResult e None, tbl)
  | CircuitBreaker.Returns (error_logs, tbl) =>
      match get_cpu_metrics tools tbl (cloudwatch_checked clock)
              (cloudwatch_recorded clock)
              (mkParams (Some service_name) (Some (PyStr "Lambda")) (Some (PyInt 1))
                 None None None) with
      | CircuitBreaker.Raises e => (ErrorResult e None, tbl)
      | CircuitBreaker.Returns (cpu_metrics, tbl) =>
          (Health (health_report service_name error_logs cpu_metrics), tbl)
      end
  end.

(** [lambda_handler]: an exception that leaves a tool is answered 500 with
    its text. *)
Definition lambda_handler (tbl : gmap string CircuitBreaker.Item) (clock : Clock)
    (event : Event) : Response * gmap string CircuitBreaker.Item :=
  let tools := init in
  let action := dict_get (ev_action event) (PyStr "execute") in
  if eq_str action "list_tools" then (mkResponse 200 (ToolsBody advertised), tbl)
  else if eq_str action "execute" then
    let tool_name := dict_get_none (ev_tool_name event) in
    let parameters := dict_get (ev_parameters event) no_params in
    if eq_str tool_name "get_cpu_metrics" then
      match get_cpu_metrics tools tbl (cloudwatch_checked clock)
              (cloudwatch_recorded clock) parameters with
      | CircuitBreaker.Returns (result, tbl) => (mkResponse 200 (ResultBody result), tbl)
      | CircuitBreaker.Raises e => (mkResponse 500 (ErrorBody e), tbl)
      end
    else if eq_str tool_name "get_error_logs" then
      match get_error_logs tools tbl (logs_checked clock) (logs_recorded clock)
              parameters with
      | CircuitBreaker.Returns (result, tbl) => (mkResponse 200 (ResultBody result), tbl)
      | CircuitBreaker.Raises e => (mkResponse 500 (ErrorBody e), tbl)
      end
    else if eq_str tool_name "check_service_health" then
      let '(result, tbl) := check_service_health tools tbl clock parameters in
      (mkResponse 200 (ResultBody result), tbl)
    else (mkResponse 400 (ErrorBody ("Unknown tool: " +:+ py_str tool_name)), tbl)
  else (mkResponse 400 (ErrorBody ("Unknown action: " +:+ py_str action)), tbl).

End Oracles.

End MCPTools.

(** ** Predicates for the monitoring tools *)

(** The stored item of the breaker makes [is_open] raise: its state is
    ['OPEN'] and it has a [last_failure_time]. *)
Definition breaker_raises (cb : CircuitBreaker.Breaker)
    (tbl : gmap string CircuitBreaker.Item) : bool :=
  String.eqb (CircuitBreaker.state (CircuitBreaker.get_state cb tbl)) "OPEN"
  && has_key (CircuitBreaker.last_failure_time (CircuitBreaker.get_state cb tbl)).

(** The lookup that [get_cpu_metrics] makes for [params] raises inside the
    [try]: [timedelta] rejects the type of [hours], or the time range or
    the client raises. *)
Definition cpu_call_fails
    (query_statistics :
       string -> string -> string -> pyval -> pyval -> list MCPTools.Datapoint + string)
    (params : MCPTools.Params) : bool :=
  let resource_type := dict_get (MCPTools.resource_type params) (PyStr "Lambda") in
  let hours := dict_get (MCPTools.hours params) (PyInt 1) in
  match MCPTools.hours_type_error hours with
  | Some _ => true
  | None =>
      match query_statistics
              (if eq_str resource_type "Lambda" then "AWS/Lambda" else "AWS/EC2")
              (if eq_str resource_type "Lambda" then "Duration" else "CPUUtilization")
              (if eq_str resource_type "Lambda" then "FunctionName" else "InstanceId")
              (dict_get (MCPTools.resource_id params) (PyStr "")) hours with
      | inr _ => true
      | inl _ => false
      end
  end.

(** The same for [get_error_logs]. *)
Definition logs_call_fails
    (query_events : pyval -> pyval -> pyval -> option (list MCPTools.LogEvent) + string)
    (params : MCPTools.Params) : bool :=
  let hours := dict_get (MCPTools.hours params) (PyInt 1) in
  match MCPTools.hours_type_error hours with
  | Some _ => true
  | None =>
      match query_events (dict_get (MCPTools.log_group params) (PyStr "/aws/lambda/*"))
              hours (dict_get (MCPTools.pattern params) (PyStr "ERROR")) with
      | inr _ => true
      | inl _ => false
      end
  end.

(** A sequence of calls of [get_cpu_metrics], each with its two clock
    readings and its parameters; a call that raises leaves the table as it
    is. *)
Fixpoint cpu_calls (float_add : Q -> Q -> Q) (float_div : Q -> Z -> Q)
    (query_statistics :
       string -> string -> string -> pyval -> pyval -> list MCPTools.Datapoint + string)
    (tbl : gmap string CircuitBreaker.Item) (calls : list (Q * Q * MCPTools.Params))
  : list (CircuitBreaker.Outcome MCPTools.ToolResult) * gmap string CircuitBreaker.Item :=
  match calls with
  | [] => ([], tbl)
  | (checked, recorded, params) :: rest =>
      match MCPTools.get_cpu_metrics float_add float_div query_statistics MCPTools.init
              tbl checked recorded params with
      | CircuitBreaker.Raises e =>
          let '(rs, tbl) := cpu_calls float_add float_div query_statistics tbl rest in
          (CircuitBreaker.Raises e :: rs, tbl)
      | CircuitBreaker.Returns (r, tbl) =>
          let '(rs, tbl) := cpu_calls float_add float_div query_statistics tbl rest in
          (CircuitBreaker.Returns r :: rs, tbl)
      end
  end.

(** The result is an error dictionary. *)
Definition is_error (r : MCPTools.ToolResult) : bool :=
  match r with
  | MCPTools.ErrorResult _ _ => true
  | _ => false
  end.

(** The answer the tools give in place of a call when [is_open] returns
    true. *)
Definition refused_cloudwatch : MCPTools.ToolResult :=
  MCPTools.ErrorResult "Circuit breaker OPEN for CloudWatch" (Some 60).

Definition refused_logs : MCPTools.ToolResult :=
  MCPTools.ErrorResult "Circuit breaker OPEN for CloudWatch Logs" (Some 60).

(** The error dictionary [check_service_health] makes of the exception of
    [is_open]. *)
Definition breaker_error : MCPTools.ToolResult :=
  MCPTools.ErrorResult CircuitBreaker.float_minus_decimal None.

(** The report of a service without findings. *)
Definition healthy_report (service_name : pyval) : MCPTools.HealthReport :=
  MCPTools.mkHealthReport service_name "healthy" 0 0 0 []
    "Service is operating normally. Continue monitoring.".

(** The two lookups [check_service_health] makes for a service. *)
Definition health_logs_params (service_name : pyval) : MCPTools.Params :=
  MCPTools.mkParams None None (Some (PyInt 1))
    (Some (PyStr ("/aws/lambda/" +:+ py_str service_name))) (Some (PyStr "ERROR")) None.

Definition health_cpu_params (service_name : pyval) : MCPTools.Params :=
  MCPTools.mkParams (Some service_name) (Some (PyStr "Lambda")) (Some (PyInt 1))
    None None None.

(** The datapoints are in ascending order of their timestamps. *)
Fixpoint ascending (l : list MCPTools.Datapoint) : bool :=
  match l with
  | [] => true
  | x :: rest =>
      match rest with
      | [] => true
      | y :: _ => (MCPTools.Timestamp x <=? MCPTools.Timestamp y) && ascending rest
      end
  end.

(** Sample oracles and parameters: arithmetic without rounding, a
    CloudWatch client that is down, one that answers with two datapoints, a
    log client that is down, one that finds 25 events, and a call whose
    [hours] entry is a text. *)
Definition exact_add (x y : Q) : Q := (x + y)%Q.

Definition exact_div (x : Q) (n : Z) : Q := (x / inject_Z n)%Q.

Definition cloudwatch_down (namespace metric dimension : string) (value hours : pyval)
  : list MCPTools.Datapoint + string :=
  inr "Could not connect to the endpoint URL".

Definition cloudwatch_up (namespace metric dimension : string) (value hours : pyval)
  : list MCPTools.Datapoint + string :=
  inl [MCPTools.mkDatapoint 1700000300 (300 # 1) (900 # 1);
       MCPTools.mkDatapoint 1700000000 (100 # 1) (400 # 1)].

Definition logs_down (log_group hours pattern : pyval)
  : option (list MCPTools.LogEvent) + string :=
  inr "Could not connect to the endpoint URL".

Definition logs_up (log_group hours pattern : pyval)
  : option (list MCPTools.LogEvent) + string :=
  inl (Some (repeat (MCPTools.mkLogEvent 1700000000000 "ERROR connection timed out") 25)).

Definition text_hours : MCPTools.Params :=
  MCPTools.mkParams (Some (PyStr "checkout")) None (Some (PyStr "2")) None None None.

Definition sample_clock : MCPTools.Clock := MCPTools.mkClock 1010 1011 1012 1013.

Definition checkout_service : MCPTools.Params :=
  MCPTools.mkParams None None None None None (Some (PyStr "checkout")).

(** * Properties *)

(** ** Python helpers *)

Lemma eq_str_true (v : pyval) (s : string) : eq_str v s = true <-> v = PyStr s.
Proof.
  destruct v as [| b | z | t]; simpl; split; try discriminate.
  - intros H. apply String.eqb_eq in H. now subst.
  - intros H. injection H as ->. apply String.eqb_refl.
Qed.

Lemma str_in_true (s : string) (l : list pyval) :
  str_in s l = true <-> In (PyStr s) l.
Proof.
  unfold str_in. rewrite existsb_exists. split.
  - intros (v & Hin & Hv). apply eq_str_true in Hv. now subst.
  - intros Hin. exists (PyStr s). split; [exact Hin | now apply eq_str_true].
Qed.

(** ** Risk assessment *)

Lemma str_in_risk_levels (s : string) (l : list Action) :
  str_in s (map (fun a => dict_get (risk a) (PyStr "medium")) l) = true
  <-> exists a, In a l /\ risk_read a = PyStr s.
Proof.
  rewrite str_in_true, in_map_iff. unfold risk_read. split.
  - intros (a & Ha & Hin). eauto.
  - intros (a & Hin & Ha). eauto.
Qed.

Lemma high_test_iff (plan : RemediationPlan) :
  str_in "high" (map (fun a => dict_get (risk a) (PyStr "medium")) (all_actions plan))
  || existsb (fun a => negb (truthy (dict_get (reversible a) (PyBool true))))
       (all_actions plan) = true
  <-> forces_high plan.
Proof.
  rewrite orb_true_iff, str_in_risk_levels, existsb_exists. unfold forces_high.
  split.
  - intros [(a & Hin & Ha) | (a & Hin & Ha)]; exists a; auto.
  - intros (a & Hin & [Ha | Ha]); [left | right]; exists a; auto.
Qed.

Lemma assess_risk_high (plan : RemediationPlan) :
  forces_high plan -> RemediationAgent._assess_risk plan = "high".
Proof.
  intros H. apply high_test_iff in H. unfold RemediationAgent._assess_risk.
  cbv zeta. now rewrite H.
Qed.

Lemma assess_risk_not_high (plan : RemediationPlan) :
  ~ forces_high plan ->
  RemediationAgent._assess_risk plan
  = if str_in "medium" (map (fun a => dict_get (risk a) (PyStr "medium")) (all_actions plan))
    then "medium" else "low".
Proof.
  intros H. unfold RemediationAgent._assess_risk. cbv zeta.
  destruct (_ || _) eqn:E; [| reflexivity].
  apply high_test_iff in E. contradiction.
Qed.

(** C3.  [_assess_risk] depends on the concatenated action lists only, and
    on them it returns ['high'] when some action has risk ['high'] or is not
    reversible, otherwise ['medium'] when some action has risk ['medium'],
    otherwise ['low'].  An absent [risk] reads as ['medium'] and an absent
    [reversible] as reversible, as the two [get] defaults say.  In
    particular an action whose [risk] is ['high'] or whose [reversible] is
    [False] forces ['high'] whatever the other actions are. *)
Theorem C3_assess_risk (plan : RemediationPlan) :
  (forall plan', all_actions plan' = all_actions plan ->
     RemediationAgent._assess_risk plan' = RemediationAgent._assess_risk plan)
  /\ (forces_high plan -> RemediationAgent._assess_risk plan = "high")
  /\ (~ forces_high plan -> has_medium plan ->
      RemediationAgent._assess_risk plan = "medium")
  /\ (~ forces_high plan -> ~ has_medium plan ->
      RemediationAgent._assess_risk plan = "low")
  /\ (forall a, In a (all_actions plan) ->
        risk a = Some (PyStr "high") \/ reversible a = Some (PyBool false) ->
        RemediationAgent._assess_risk plan = "high").
Proof.
  split; [| split; [| split; [| split]]].
  - intros plan' E. unfold RemediationAgent._assess_risk. now rewrite E.
  - apply assess_risk_high.
  - intros Hn Hm. rewrite (assess_risk_not_high plan Hn).
    destruct Hm as (a & Hin & Ha).
    assert (Hs : str_in "medium"
                   (map (fun a => dict_get (risk a) (PyStr "medium")) (all_actions plan))
                 = true) by (apply str_in_risk_levels; eauto).
    now rewrite Hs.
  - intros Hn Hm. rewrite (assess_risk_not_high plan Hn).
    destruct (str_in "medium" _) eqn:E; [| reflexivity].
    apply str_in_risk_levels in E. contradiction.
  - intros a Hin Ha. apply assess_risk_high. exists a. split; [exact Hin |].
    unfold risk_read, irreversible_read.
    destruct Ha as [-> | ->]; simpl; auto.
Qed.

(** ** Auto-execution by the remediation agent *)

Lemma execute_loop_filter (l : list Action)
    (acc : list RemediationAgent.ActionResult * list Action) :
  RemediationAgent.execute_loop l acc
  = (fst acc ++ map RemediationAgent._execute_action (List.filter is_low l),
     snd acc ++ List.filter is_low l).
Proof.
  revert acc. induction l as [| a l IH]; intros [rs cs]; simpl.
  - now rewrite !app_nil_r.
  - change (eq_str (dict_get_none (risk a)) "low") with (is_low a).
    destruct (is_low a); rewrite IH; simpl; now rewrite <- ?app_assoc.
Qed.

Lemma execute_plan_filter (plan : RemediationPlan) :
  RemediationAgent._execute_plan plan
  = (RemediationAgent.mkExecutionResult
       (List.length (List.filter is_low (all_actions plan)))
       (map RemediationAgent._execute_action (List.filter is_low (all_actions plan)))
       "completed",
     List.filter is_low (all_actions plan)).
Proof.
  unfold RemediationAgent._execute_plan, all_actions.
  rewrite !execute_loop_filter. cbn [fst snd app].
  rewrite <- List.map_app, <- List.filter_app.
  set (l := List.filter is_low _).
  assert (H : forallb RemediationAgent.res_success
                (map RemediationAgent._execute_action l) = true).
  { apply forallb_forall. intros x Hx. apply in_map_iff in Hx.
    destruct Hx as (a & <- & _). reflexivity. }
  rewrite H. now rewrite List.length_map.
Qed.

Lemma agent_update_keeps_approvals (tb : Tables) (now : Z) (id : string)
    (er : RemediationAgent.ExecutionResult) :
  approval_queue_table (RemediationAgent._update_incident tb now id er)
  = approval_queue_table tb.
Proof.
  unfold RemediationAgent._update_incident.
  destruct (incidents_table tb !! id) as [inc |]; [| reflexivity].
  destruct (inc_timeline inc); reflexivity.
Qed.

(** C10.  When [_assess_risk] returns ['low'] or ['medium'], [remediate]
    takes the auto-execute branch: no approval is queued, and the actions
    executed are exactly those whose [risk] equals ['low'], in plan order.
    Every other action, a medium-risk one included, is not executed, has no
    entry in [results] and is not counted as failed; the reported status is
    ['completed'].  The plan [medium_plan] is assessed ['medium'] and
    reports ['completed'] after running its low-risk action alone. *)
Theorem C10_auto_execute_low_only (tb : Tables) (now : Z) (uuid8 : string)
    (incident_id : string) (plan : RemediationPlan) :
  RemediationAgent._assess_risk plan = "low"
  \/ RemediationAgent._assess_risk plan = "medium" ->
  (exists er tb',
     RemediationAgent.remediate tb now uuid8 incident_id plan
     = (RemediationAgent.Executed incident_id (RemediationAgent._assess_risk plan) plan er,
        tb', List.filter is_low (all_actions plan))
     /\ approval_queue_table tb' = approval_queue_table tb
     /\ RemediationAgent.results er
        = map RemediationAgent._execute_action (List.filter is_low (all_actions plan))
     /\ RemediationAgent.executed_actions er
        = List.length (List.filter is_low (all_actions plan))
     /\ RemediationAgent.status er = "completed"
     /\ (forall a, In a (all_actions plan) -> risk a <> Some (PyStr "low") ->
           ~ In a (List.filter is_low (all_actions plan))))
  /\ RemediationAgent._assess_risk medium_plan = "medium"
  /\ (exists er tb',
        RemediationAgent.remediate tb now uuid8 incident_id medium_plan
        = (RemediationAgent.Executed incident_id "medium" medium_plan er, tb', [low_action])
        /\ RemediationAgent.status er = "completed"
        /\ RemediationAgent.executed_actions er = 1%nat).
Proof.
  intros Hrisk. split; [| split].
  - unfold RemediationAgent.remediate. cbv zeta.
    assert (Hb : String.eqb (RemediationAgent._assess_risk plan) "high"
                 || String.eqb (RemediationAgent._assess_risk plan) "critical" = false).
    { destruct Hrisk as [-> | ->]; reflexivity. }
    rewrite Hb, execute_plan_filter.
    eexists _, _. split; [reflexivity |].
    split; [apply agent_update_keeps_approvals |].
    repeat split.
    intros a _ Hne Hin. apply List.filter_In in Hin. destruct Hin as [_ Hlow].
    unfold is_low in Hlow. apply eq_str_true in Hlow.
    destruct (risk a) as [v |]; simpl in Hlow; [| discriminate].
    subst v. now apply Hne.
  - reflexivity.
  - unfold RemediationAgent.remediate. cbv zeta.
    change (RemediationAgent._assess_risk medium_plan) with "medium".
    cbn [String.eqb Ascii.eqb Bool.eqb orb].
    rewrite execute_plan_filter.
    eexists _, _. split; [reflexivity |]. split; reflexivity.
Qed.

Lemma C10_auto_execute_low_only_witness :
  exists er tb',
    RemediationAgent.remediate no_tables 1700000000 "1A2B3C4D" "INC-1" medium_plan
    = (RemediationAgent.Executed "INC-1" "medium" medium_plan er, tb', [low_action])
    /\ RemediationAgent.status er = "completed"
    /\ RemediationAgent.executed_actions er = 1%nat.
Proof.
  apply (C10_auto_execute_low_only no_tables 1700000000 "1A2B3C4D" "INC-1" medium_plan).
  right. reflexivity.
Defined.

Lemma C3_assess_risk_witness :
  RemediationAgent._assess_risk
    (mkPlan (Some [low_action;
                   mkAction (Some (PyStr "Drop table")) (Some (PyStr "aws rds delete"))
                     (Some (PyStr "low")) (Some (PyBool false)) None])
       None None [])
  = "high".
Proof.
  eapply (C3_assess_risk _).
  - right. left. reflexivity.
  - right. reflexivity.
Defined.

(** ** Remediation executor *)

Lemma execute_action_success (a : Action) (phase : string) :
  RemediationExecutor.res_success (RemediationExecutor._execute_action a phase)
  = negb (action_fails a).
Proof.
  unfold RemediationExecutor._execute_action, action_fails.
  destruct (dict_get (command a) (PyStr "")); reflexivity.
Qed.

Lemma safety_loop_unsafe (l : list Action) :
  (exists a, In a l /\ high_irreversible a = true) ->
  RemediationExecutor.safe (RemediationExecutor.safety_loop l) = false.
Proof.
  induction l as [| x l IH]; intros (a & Hin & Ha).
  - destruct Hin.
  - simpl. change (eq_str _ _ && negb _) with (high_irreversible x).
    destruct (high_irreversible x) eqn:E; [reflexivity |].
    apply IH. destruct Hin as [-> | Hin]; [congruence | eauto].
Qed.

Lemma safety_loop_safe (l : list Action) :
  (forall a, In a l -> high_irreversible a = false) ->
  RemediationExecutor.safety_loop l
  = RemediationExecutor.mkSafetyCheck true "All safety checks passed".
Proof.
  induction l as [| x l IH]; intros H; [reflexivity |].
  simpl. change (eq_str _ _ && negb _) with (high_irreversible x).
  rewrite (H x (or_introl eq_refl)). apply IH. intros a Ha. apply H. now right.
Qed.

Lemma gate_open_not_blocked (tb : Tables) (approval_id : option string) :
  gate_open tb approval_id ->
  match RemediationExecutor.approval_supplied approval_id with
  | Some id => negb (RemediationExecutor._verify_approval tb id)
  | None => false
  end = false.
Proof.
  unfold gate_open. destruct (RemediationExecutor.approval_supplied approval_id).
  - now intros ->.
  - reflexivity.
Qed.

(** C1.  The safety check rejects every plan that holds an action with
    [risk == 'high'] whose [reversible] is false (or absent), whatever the
    other actions are.  [execute] then returns status ['aborted'] with an
    empty [executed_actions], no action is handed to [_execute_action] and
    no table is written.  This is the result whenever the approval test
    that precedes the check lets the call through; when that test refuses
    the call the result is ['blocked'], equally without any action. *)
Theorem C1_safety_check_aborts (plan : RemediationPlan) (a : Action) :
  In a (all_actions plan) ->
  risk a = Some (PyStr "high") ->
  truthy (dict_get (reversible a) (PyBool false)) = false ->
  RemediationExecutor.safe (RemediationExecutor._pre_execution_safety_check plan) = false
  /\ (forall tb now incident_id approval_id,
        gate_open tb approval_id ->
        exists msg,
          RemediationExecutor.execute tb now incident_id plan approval_id
          = (RemediationExecutor.Refused incident_id "aborted" msg [], tb, []))
  /\ (forall tb now incident_id approval_id,
        exists o,
          RemediationExecutor.execute tb now incident_id plan approval_id = (o, tb, [])
          /\ RemediationExecutor.outcome_actions o = []
          /\ (RemediationExecutor.outcome_status o = "aborted"
              \/ RemediationExecutor.outcome_status o = "blocked")).
Proof.
  intros Hin Hrisk Hrev.
  assert (Hunsafe :
            RemediationExecutor.safe
              (RemediationExecutor._pre_execution_safety_check plan) = false).
  { apply safety_loop_unsafe. exists a. split; [exact Hin |].
    unfold high_irreversible. rewrite Hrisk, Hrev. reflexivity. }
  split; [exact Hunsafe | split].
  - intros tb now incident_id approval_id Hgate.
    unfold RemediationExecutor.execute. cbv zeta.
    rewrite (gate_open_not_blocked _ _ Hgate), Hunsafe. simpl. eauto.
  - intros tb now incident_id approval_id.
    unfold RemediationExecutor.execute. cbv zeta.
    destruct (match RemediationExecutor.approval_supplied approval_id with
              | Some id => negb (RemediationExecutor._verify_approval tb id)
              | None => false
              end).
    + eexists. split; [reflexivity |]. simpl. auto.
    + rewrite Hunsafe. simpl. eexists. split; [reflexivity |]. simpl. auto.
Qed.

Lemma C1_safety_check_aborts_witness :
  exists msg,
    RemediationExecutor.execute sample_tables 1700000000 "INC-1"
      (plan_of [act_ok] [act_danger]) None
    = (RemediationExecutor.Refused "INC-1" "aborted" msg [], sample_tables, []).
Proof.
  refine (proj1 (proj2 (C1_safety_check_aborts (plan_of [act_ok] [act_danger])
                          act_danger _ _ _)) _ _ _ _ _).
  - simpl. auto.
  - reflexivity.
  - reflexivity.
  - exact I.
Defined.

(** *** The two loops *)

Lemma record_immediate_fields (l : list Action) (r : RemediationExecutor.Results) :
  fold_left (record_action "immediate") l r
  = RemediationExecutor.mkResults
      (RemediationExecutor.incident_id r) (RemediationExecutor.execution_id r)
      (RemediationExecutor.status r) (RemediationExecutor.message r)
      (RemediationExecutor.immediate_actions_done r
       ++ map (fun a => RemediationExecutor._execute_action a "immediate") l)
      (RemediationExecutor.corrective_actions_done r)
      (RemediationExecutor.failed_actions r
       ++ map (fun a => RemediationExecutor._execute_action a "immediate")
            (List.filter action_fails l))
      (RemediationExecutor.rollback_performed r) (RemediationExecutor.verification r).
Proof.
  revert r. induction l as [| a l IH]; intros r.
  - destruct r; simpl. now rewrite !app_nil_r.
  - cbn [fold_left]. rewrite IH. unfold record_action. cbv zeta.
    rewrite execute_action_success, negb_involutive.
    cbn [String.eqb Ascii.eqb Bool.eqb andb]. cbn [List.filter].
    destruct (action_fails a); destruct r; simpl; now rewrite <- ?app_assoc.
Qed.

Lemma record_corrective_fields (l : list Action) (r : RemediationExecutor.Results) :
  fold_left (record_action "corrective") l r
  = RemediationExecutor.mkResults
      (RemediationExecutor.incident_id r) (RemediationExecutor.execution_id r)
      (RemediationExecutor.status r) (RemediationExecutor.message r)
      (RemediationExecutor.immediate_actions_done r)
      (RemediationExecutor.corrective_actions_done r
       ++ map (fun a => RemediationExecutor._execute_action a "corrective") l)
      (RemediationExecutor.failed_actions r
       ++ map (fun a => RemediationExecutor._execute_action a "corrective")
            (List.filter action_fails l))
      (RemediationExecutor.rollback_performed r) (RemediationExecutor.verification r).
Proof.
  revert r. induction l as [| a l IH]; intros r.
  - destruct r; simpl. now rewrite !app_nil_r.
  - cbn [fold_left]. rewrite IH. unfold record_action. cbv zeta.
    rewrite execute_action_success, negb_involutive.
    cbn [String.eqb Ascii.eqb Bool.eqb andb]. cbn [List.filter].
    destruct (action_fails a); destruct r; simpl; now rewrite <- ?app_assoc.
Qed.

Lemma immediate_loop_step (a : Action) (rest : list Action)
    (st : RemediationExecutor.Results * list Action) :
  action_fails a && is_critical a = false ->
  RemediationExecutor.immediate_loop (a :: rest) st
  = RemediationExecutor.immediate_loop rest
      (record_action "immediate" (fst st) a, snd st ++ [a]).
Proof.
  intros H. cbn [RemediationExecutor.immediate_loop]. cbv zeta.
  unfold record_action. cbv zeta.
  rewrite execute_action_success, negb_involutive.
  cbn [String.eqb Ascii.eqb Bool.eqb andb].
  change (truthy (dict_get (critical a) (PyBool false))) with (is_critical a).
  destruct (action_fails a); [| reflexivity].
  simpl in H. now rewrite H.
Qed.

Lemma immediate_loop_fallthrough (l : list Action)
    (st : RemediationExecutor.Results * list Action) :
  (forall x, In x l -> action_fails x && is_critical x = false) ->
  RemediationExecutor.immediate_loop l st
  = RemediationExecutor.Fallthrough
      (fold_left (record_action "immediate") l (fst st), snd st ++ l).
Proof.
  revert st. induction l as [| a l IH]; intros st H.
  - destruct st. simpl. now rewrite app_nil_r.
  - rewrite immediate_loop_step by (apply H; now left).
    rewrite IH by (intros x Hx; apply H; now right).
    simpl. now rewrite <- app_assoc.
Qed.

Lemma immediate_loop_returns (pre : list Action) (a : Action) (post : list Action)
    (st : RemediationExecutor.Results * list Action) :
  (forall x, In x pre -> action_fails x && is_critical x = false) ->
  action_fails a = true -> is_critical a = true ->
  RemediationExecutor.immediate_loop (pre ++ a :: post) st
  = RemediationExecutor.Returned
      (RemediationExecutor.with_status
         (record_action "immediate" (fold_left (record_action "immediate") pre (fst st)) a)
         "failed"
         ("Critical action failed: " +:+ py_str (dict_get_none (action a))),
       snd st ++ pre ++ [a]).
Proof.
  revert st. induction pre as [| x pre IH]; intros st H Hf Hc.
  - cbn [app RemediationExecutor.immediate_loop fold_left]. cbv zeta.
    unfold record_action. cbv zeta.
    rewrite execute_action_success, Hf.
    change (truthy (dict_get (critical a) (PyBool false))) with (is_critical a).
    rewrite Hc. reflexivity.
  - cbn [app]. rewrite immediate_loop_step by (apply H; now left).
    rewrite IH by (try assumption; intros y Hy; apply H; now right).
    simpl. now rewrite <- app_assoc.
Qed.

Lemma corrective_loop_fold (l : list Action)
    (st : RemediationExecutor.Results * list Action) :
  RemediationExecutor.corrective_loop l st
  = (fold_left (record_action "corrective") l (fst st), snd st ++ l).
Proof.
  revert st. induction l as [| a l IH]; intros st.
  - destruct st. simpl. now rewrite app_nil_r.
  - cbn [RemediationExecutor.corrective_loop]. cbv zeta.
    rewrite execute_action_success, negb_involutive.
    destruct (action_fails a) eqn:E; rewrite IH;
      cbn [fold_left fst snd]; unfold record_action; cbv zeta;
      rewrite execute_action_success, E; simpl; now rewrite <- app_assoc.
Qed.

Lemma first_occurrence {A : Type} (P : A -> bool) (l : list A) :
  (exists a, In a l /\ P a = true) ->
  exists pre a post,
    l = pre ++ a :: post /\ P a = true /\ (forall x, In x pre -> P x = false).
Proof.
  induction l as [| x l IH]; intros (a & Hin & Ha).
  - destruct Hin.
  - destruct (P x) eqn:E.
    + exists [], x, l. split; [reflexivity |]. split; [exact E |]. intros y [].
    + destruct Hin as [-> | Hin]; [congruence |].
      destruct IH as (pre & b & post & -> & Hb & Hpre); [eauto |].
      exists (x :: pre), b, post. split; [reflexivity |]. split; [exact Hb |].
      intros y [-> | Hy]; auto.
Qed.

(** *** [execute] past the two pre-execution tests *)

Lemma execute_started (tb : Tables) (now : Z) (incident_id : string)
    (plan : RemediationPlan) (approval_id : option string) :
  gate_open tb approval_id ->
  RemediationExecutor.safe (RemediationExecutor._pre_execution_safety_check plan) = true ->
  RemediationExecutor.execute tb now incident_id plan approval_id
  = match RemediationExecutor.immediate_loop (dict_get (immediate_actions plan) [])
            (initial_results now incident_id, []) with
    | RemediationExecutor.Returned (results, calls) =>
        (RemediationExecutor.Ran results, tb, calls)
    | RemediationExecutor.Fallthrough st =>
        let '(results, calls) :=
          RemediationExecutor.corrective_loop (dict_get (corrective_actions plan) []) st in
        let results := RemediationExecutor.determine_status results in
        let tb1 := RemediationExecutor._log_execution tb incident_id results in
        let tb2 := RemediationExecutor._update_incident tb1 now incident_id results in
        let results :=
          if String.eqb (RemediationExecutor.status results) "success"
             || String.eqb (RemediationExecutor.status results) "partial_success"
          then RemediationExecutor.with_verification results
                 (RemediationExecutor._verify_remediation plan)
          else results in
        (RemediationExecutor.Ran results, tb2, calls)
    end.
Proof.
  intros Hgate Hsafe. unfold RemediationExecutor.execute. cbv zeta.
  rewrite (gate_open_not_blocked _ _ Hgate), Hsafe. reflexivity.
Qed.

Lemma execute_critical_stop (tb : Tables) (now : Z) (incident_id : string)
    (plan : RemediationPlan) (approval_id : option string)
    (pre : list Action) (a : Action) (post : list Action) :
  gate_open tb approval_id ->
  RemediationExecutor.safe (RemediationExecutor._pre_execution_safety_check plan) = true ->
  dict_get (immediate_actions plan) [] = pre ++ a :: post ->
  (forall x, In x pre -> action_fails x && is_critical x = false) ->
  action_fails a = true -> is_critical a = true ->
  exists r,
    RemediationExecutor.execute tb now incident_id plan approval_id
    = (RemediationExecutor.Ran r, tb, pre ++ [a])
    /\ RemediationExecutor.status r = "failed"
    /\ RemediationExecutor.immediate_actions_done r
       = map (fun x => RemediationExecutor._execute_action x "immediate") (pre ++ [a])
    /\ RemediationExecutor.corrective_actions_done r = []
    /\ In (RemediationExecutor._execute_action a "immediate")
         (RemediationExecutor.failed_actions r).
Proof.
  intros Hgate Hsafe Himm Hpre Hf Hc.
  rewrite (execute_started _ _ _ _ _ Hgate Hsafe), Himm.
  rewrite (immediate_loop_returns pre a post _ Hpre Hf Hc).
  cbn [fst snd app].
  change (record_action "immediate"
            (fold_left (record_action "immediate") pre (initial_results now incident_id)) a)
    with (fold_left (record_action "immediate") [a]
            (fold_left (record_action "immediate") pre (initial_results now incident_id))).
  rewrite <- fold_left_app, record_immediate_fields.
  eexists. split; [reflexivity |]. cbn.
  repeat split.
  rewrite List.filter_app, List.map_app. cbn. rewrite Hf.
  apply in_or_app. right. now left.
Qed.

(** C2.  Once [execute] is past the approval test and the safety check, a
    plan whose immediate actions contain one that fails and is flagged
    [critical] stops at the first such action: the actions before it and
    the action itself are the only ones executed, no later immediate action
    and no corrective action runs, the overall status is ['failed'] and no
    table is written.  When the failing critical action is the first of
    the list, as in [A; B; C], it is the only action executed. *)
Theorem C2_critical_failure_stops (tb : Tables) (now : Z) (incident_id : string)
    (plan : RemediationPlan) (approval_id : option string) (a : Action) :
  gate_open tb approval_id ->
  RemediationExecutor.safe (RemediationExecutor._pre_execution_safety_check plan) = true ->
  In a (dict_get (immediate_actions plan) []) ->
  action_fails a = true -> is_critical a = true ->
  (exists pre a' post r,
     dict_get (immediate_actions plan) [] = pre ++ a' :: post
     /\ action_fails a' = true /\ is_critical a' = true
     /\ (forall x, In x pre -> action_fails x && is_critical x = false)
     /\ RemediationExecutor.execute tb now incident_id plan approval_id
        = (RemediationExecutor.Ran r, tb, pre ++ [a'])
     /\ RemediationExecutor.status r = "failed"
     /\ RemediationExecutor.immediate_actions_done r
        = map (fun x => RemediationExecutor._execute_action x "immediate") (pre ++ [a'])
     /\ RemediationExecutor.corrective_actions_done r = []
     /\ In (RemediationExecutor._execute_action a' "immediate")
          (RemediationExecutor.failed_actions r))
  /\ (forall rest, dict_get (immediate_actions plan) [] = a :: rest ->
      exists r,
        RemediationExecutor.execute tb now incident_id plan approval_id
        = (RemediationExecutor.Ran r, tb, [a])
        /\ RemediationExecutor.status r = "failed"
        /\ RemediationExecutor.immediate_actions_done r
           = [RemediationExecutor._execute_action a "immediate"]
        /\ RemediationExecutor.corrective_actions_done r = []).
Proof.
  intros Hgate Hsafe Hin Hf Hc. split.
  - destruct (first_occurrence (fun x => action_fails x && is_critical x)
                (dict_get (immediate_actions plan) []))
      as (pre & a' & post & Himm & Ha' & Hpre).
    { exists a. split; [exact Hin |]. now rewrite Hf, Hc. }
    apply andb_true_iff in Ha'. destruct Ha' as [Hf' Hc'].
    destruct (execute_critical_stop tb now incident_id plan approval_id pre a' post
                Hgate Hsafe Himm Hpre Hf' Hc') as (r & He & Hs & Hi & Hco & Hfa).
    exists pre, a', post, r. repeat (split; [assumption |]). assumption.
  - intros rest Himm.
    destruct (execute_critical_stop tb now incident_id plan approval_id [] a rest
                Hgate Hsafe Himm (fun x (H : In x []) => match H with end) Hf Hc)
      as (r & He & Hs & Hi & Hco & _).
    exists r. repeat (split; [assumption |]). assumption.
Qed.

Lemma C2_critical_failure_stops_witness :
  exists r,
    RemediationExecutor.execute sample_tables 1700000000 "INC-1"
      (plan_of [act_crit; act_ok; act_bad] [act_ok]) None
    = (RemediationExecutor.Ran r, sample_tables, [act_crit])
    /\ RemediationExecutor.status r = "failed"
    /\ RemediationExecutor.immediate_actions_done r
       = [RemediationExecutor._execute_action act_crit "immediate"]
    /\ RemediationExecutor.corrective_actions_done r = [].
Proof.
  refine (proj2 (C2_critical_failure_stops sample_tables 1700000000 "INC-1"
                   (plan_of [act_crit; act_ok; act_bad] [act_ok]) None act_crit
                   _ _ _ _ _) [act_ok; act_bad] _).
  - exact I.
  - reflexivity.
  - simpl. auto.
  - reflexivity.
  - reflexivity.
  - reflexivity.
Defined.

(** *** A run without a critical failure *)

Lemma phases_fields (now : Z) (incident_id : string) (imm corr : list Action) :
  fold_left (record_action "corrective") corr
    (fold_left (record_action "immediate") imm (initial_results now incident_id))
  = RemediationExecutor.mkResults incident_id ("EXEC-" +:+ pretty now) "in_progress" None
      (map (fun a => RemediationExecutor._execute_action a "immediate") imm)
      (map (fun a => RemediationExecutor._execute_action a "corrective") corr)
      (map (fun a => RemediationExecutor._execute_action a "immediate")
         (List.filter action_fails imm)
       ++ map (fun a => RemediationExecutor._execute_action a "corrective")
            (List.filter action_fails corr))
      false None.
Proof.
  rewrite record_corrective_fields, record_immediate_fields. reflexivity.
Qed.

Lemma determine_status_status (r : RemediationExecutor.Results) :
  RemediationExecutor.status (RemediationExecutor.determine_status r)
  = status_by_count (List.length (RemediationExecutor.failed_actions r))
      (List.length (RemediationExecutor.immediate_actions_done r)
       + List.length (RemediationExecutor.corrective_actions_done r))%nat.
Proof.
  unfold RemediationExecutor.determine_status, status_by_count. cbv zeta.
  destruct (Nat.eqb _ 0); [reflexivity |]. destruct (Nat.ltb _ _); reflexivity.
Qed.

Lemma determine_status_lists (r : RemediationExecutor.Results) :
  RemediationExecutor.immediate_actions_done (RemediationExecutor.determine_status r)
  = RemediationExecutor.immediate_actions_done r
  /\ RemediationExecutor.corrective_actions_done (RemediationExecutor.determine_status r)
     = RemediationExecutor.corrective_actions_done r
  /\ RemediationExecutor.failed_actions (RemediationExecutor.determine_status r)
     = RemediationExecutor.failed_actions r.
Proof.
  unfold RemediationExecutor.determine_status. cbv zeta.
  destruct (Nat.eqb _ 0); [now repeat split |]. destruct (Nat.ltb _ _); now repeat split.
Qed.

(** The [results] dictionary that [execute] returns after both phases. *)
Lemma execute_completed (tb : Tables) (now : Z) (incident_id : string)
    (plan : RemediationPlan) (approval_id : option string) :
  gate_open tb approval_id ->
  RemediationExecutor.safe (RemediationExecutor._pre_execution_safety_check plan) = true ->
  (forall x, In x (dict_get (immediate_actions plan) []) ->
     action_fails x && is_critical x = false) ->
  exists r,
    RemediationExecutor.execute tb now incident_id plan approval_id
    = (RemediationExecutor.Ran r,
       RemediationExecutor._update_incident
         (RemediationExecutor._log_execution tb incident_id
            (RemediationExecutor.determine_status
               (fold_left (record_action "corrective") (dict_get (corrective_actions plan) [])
                  (fold_left (record_action "immediate") (dict_get (immediate_actions plan) [])
                     (initial_results now incident_id)))))
         now incident_id
         (RemediationExecutor.determine_status
            (fold_left (record_action "corrective") (dict_get (corrective_actions plan) [])
               (fold_left (record_action "immediate") (dict_get (immediate_actions plan) [])
                  (initial_results now incident_id)))),
       all_actions plan)
    /\ RemediationExecutor.status r
       = RemediationExecutor.status
           (RemediationExecutor.determine_status
              (fold_left (record_action "corrective") (dict_get (corrective_actions plan) [])
                 (fold_left (record_action "immediate") (dict_get (immediate_actions plan) [])
                    (initial_results now incident_id))))
    /\ RemediationExecutor.immediate_actions_done r
       = map (fun a => RemediationExecutor._execute_action a "immediate")
           (dict_get (immediate_actions plan) [])
    /\ RemediationExecutor.corrective_actions_done r
       = map (fun a => RemediationExecutor._execute_action a "corrective")
           (dict_get (corrective_actions plan) [])
    /\ RemediationExecutor.failed_actions r
       = map (fun a => RemediationExecutor._execute_action a "immediate")
           (List.filter action_fails (dict_get (immediate_actions plan) []))
         ++ map (fun a => RemediationExecutor._execute_action a "corrective")
              (List.filter action_fails (dict_get (corrective_actions plan) [])).
Proof.
  intros Hgate Hsafe Hnc.
  rewrite (execute_started _ _ _ _ _ Hgate Hsafe).
  rewrite (immediate_loop_fallthrough _ _ Hnc), corrective_loop_fold.
  cbn [fst snd app]. cbv zeta.
  set (R := fold_left _ _ (fold_left _ _ _)).
  destruct (determine_status_lists R) as (Hi & Hc & Hf).
  assert (HR := phases_fields now incident_id (dict_get (immediate_actions plan) [])
                  (dict_get (corrective_actions plan) [])).
  fold R in HR.
  eexists. split; [reflexivity |].
  destruct (String.eqb _ "success" || String.eqb _ "partial_success");
    cbn [RemediationExecutor.with_verification RemediationExecutor.status
         RemediationExecutor.immediate_actions_done
         RemediationExecutor.corrective_actions_done
         RemediationExecutor.failed_actions];
    rewrite ?Hi, ?Hc, ?Hf, HR; cbn; auto.
Qed.

(** C9.  Once [execute] is past the approval test and the safety check and
    no immediate action both fails and is critical, both phases run in
    order over every action, [failed_actions] holds exactly the records of
    the failing actions, and the overall status follows the failure count:
    ['success'] for no failure, ['partial_success'] when some but not all
    of the executed actions failed, ['failed'] when all of them did. *)
Theorem C9_status_by_failure_count (tb : Tables) (now : Z) (incident_id : string)
    (plan : RemediationPlan) (approval_id : option string) :
  gate_open tb approval_id ->
  RemediationExecutor.safe (RemediationExecutor._pre_execution_safety_check plan) = true ->
  (forall x, In x (dict_get (immediate_actions plan) []) ->
     action_fails x && is_critical x = false) ->
  exists r tb',
    RemediationExecutor.execute tb now incident_id plan approval_id
    = (RemediationExecutor.Ran r, tb', all_actions plan)
    /\ RemediationExecutor.immediate_actions_done r
       = map (fun a => RemediationExecutor._execute_action a "immediate")
           (dict_get (immediate_actions plan) [])
    /\ RemediationExecutor.corrective_actions_done r
       = map (fun a => RemediationExecutor._execute_action a "corrective")
           (dict_get (corrective_actions plan) [])
    /\ RemediationExecutor.failed_actions r
       = map (fun a => RemediationExecutor._execute_action a "immediate")
           (List.filter action_fails (dict_get (immediate_actions plan) []))
         ++ map (fun a => RemediationExecutor._execute_action a "corrective")
              (List.filter action_fails (dict_get (corrective_actions plan) []))
    /\ List.length (RemediationExecutor.failed_actions r)
       = List.length (List.filter action_fails (all_actions plan))
    /\ (List.length (List.filter action_fails (all_actions plan)) = 0%nat ->
        RemediationExecutor.status r = "success")
    /\ ((0 < List.length (List.filter action_fails (all_actions plan))
         < List.length (all_actions plan))%nat ->
        RemediationExecutor.status r = "partial_success")
    /\ ((0 < List.length (List.filter action_fails (all_actions plan)))%nat ->
        List.length (List.filter action_fails (all_actions plan))
        = List.length (all_actions plan) ->
        RemediationExecutor.status r = "failed").
Proof.
  intros Hgate Hsafe Hnc.
  destruct (execute_completed tb now incident_id plan approval_id Hgate Hsafe Hnc)
    as (r & He & Hs & Hi & Hc & Hf).
  exists r. eexists. split; [exact He |].
  split; [exact Hi |]. split; [exact Hc |]. split; [exact Hf |].
  assert (Hlen : List.length (RemediationExecutor.failed_actions r)
                 = List.length (List.filter action_fails (all_actions plan))).
  { rewrite Hf. unfold all_actions.
    now rewrite List.filter_app, !List.length_app, !List.length_map. }
  split; [exact Hlen |].
  rewrite Hs, determine_status_status.
  rewrite phases_fields.
  cbn [RemediationExecutor.failed_actions RemediationExecutor.immediate_actions_done
       RemediationExecutor.corrective_actions_done].
  rewrite <- Hf, Hlen, !List.length_map, <- List.length_app.
  fold (all_actions plan). unfold status_by_count.
  set (f := List.length (List.filter action_fails (all_actions plan))).
  set (t := List.length (all_actions plan)).
  repeat split.
  - intros ->. reflexivity.
  - intros [H0 Ht]. destruct (Nat.eqb_spec f 0); [lia |].
    destruct (Nat.ltb_spec f t); [reflexivity | lia].
  - intros H0 Ht. destruct (Nat.eqb_spec f 0); [lia |].
    destruct (Nat.ltb_spec f t); [lia | reflexivity].
Qed.

Lemma C9_status_by_failure_count_witness :
  exists r tb',
    RemediationExecutor.execute sample_tables 1700000000 "INC-1"
      (plan_of [act_ok; act_bad] []) None
    = (RemediationExecutor.Ran r, tb', [act_ok; act_bad])
    /\ RemediationExecutor.status r = "partial_success"
    /\ RemediationExecutor.failed_actions r
       = [RemediationExecutor._execute_action act_bad "immediate"].
Proof.
  destruct (C9_status_by_failure_count sample_tables 1700000000 "INC-1"
              (plan_of [act_ok; act_bad] []) None I eq_refl)
    as (r & tb' & He & _ & _ & Hf & _ & _ & Hp & _).
  - intros x [<- | [<- | []]]; reflexivity.
  - exists r, tb'. split; [exact He |]. split; [| exact Hf].
    apply Hp. simpl. lia.
Defined.

(** ** Verification *)

Lemma inject_Z_nonneg (z : Z) : (0 <= z)%Z -> (0 <= inject_Z z)%Q.
Proof. intros H. change (inject_Z 0 <= inject_Z z)%Q. now rewrite <- Zle_Qle. Qed.

Lemma inject_Z_pos (z : Z) : (0 < z)%Z -> (0 < inject_Z z)%Q.
Proof. intros H. change (inject_Z 0 < inject_Z z)%Q. now rewrite <- Zlt_Qlt. Qed.

Lemma passed_checks_le (l : list ResolutionVerifier.Check) :
  (ResolutionVerifier.passed_checks l <= List.length l)%nat.
Proof. unfold ResolutionVerifier.passed_checks. apply List.filter_length_le. Qed.

Lemma confidence_of_bounds (l : list ResolutionVerifier.Check) :
  l <> [] ->
  (0 <= ResolutionVerifier.confidence_of l <= 100)%Q.
Proof.
  intros Hne. unfold ResolutionVerifier.confidence_of.
  assert (Hle := passed_checks_le l).
  assert (Hpos : (0 < List.length l)%nat) by (destruct l; [congruence | simpl; lia]).
  set (p := Z.of_nat (ResolutionVerifier.passed_checks l)).
  set (n := Z.of_nat (List.length l)).
  assert (Hp : (0 <= inject_Z p)%Q) by (apply inject_Z_nonneg; lia).
  assert (Hpn : (inject_Z p <= inject_Z n)%Q) by (rewrite <- (Zle_Qle p n); lia).
  assert (Hn : (0 < inject_Z n)%Q) by (apply inject_Z_pos; lia).
  assert (H0 : (0 <= inject_Z p / inject_Z n)%Q).
  { apply Qle_shift_div_l; [exact Hn | lra]. }
  assert (H1 : (inject_Z p / inject_Z n <= 1)%Q).
  { apply Qle_shift_div_r; [exact Hn | lra]. }
  split; lra.
Qed.

Lemma verify_resolution_checks (tb : Tables) (now : Z) (incident_id : string)
    (incident_data : ResolutionVerifier.IncidentData)
    (remediation_plan : option RemediationPlan) :
  let v := fst (ResolutionVerifier.verify_resolution tb now incident_id incident_data
                  remediation_plan) in
  List.length (ResolutionVerifier.all_checks_of (ResolutionVerifier.checks v))
  = (if plan_truthy remediation_plan then 4%nat else 3%nat)
  /\ ResolutionVerifier.confidence v
     = ResolutionVerifier.confidence_of
         (ResolutionVerifier.all_checks_of (ResolutionVerifier.checks v))
  /\ ResolutionVerifier.verified v
     = Qle_bool 75 (ResolutionVerifier.confidence v).
Proof.
  unfold ResolutionVerifier.verify_resolution. cbv zeta. cbn [fst].
  destruct remediation_plan as [plan |]; [| now repeat split].
  destruct (plan_truthy (Some plan)); now repeat split.
Qed.

(** C7.  For every run of [verify_resolution] the confidence is the number
    of passed checks over the number of checks performed, times 100; three
    checks are performed without a plan (or with an empty one) and four
    with a plan; the confidence lies between 0 and 100 and [verified] holds
    exactly when it is at least 75.  The bounds hold for any outcome of the
    individual checks. *)
Theorem C7_confidence_ratio (tb : Tables) (now : Z) (incident_id : string)
    (incident_data : ResolutionVerifier.IncidentData)
    (remediation_plan : option RemediationPlan) :
  let v := fst (ResolutionVerifier.verify_resolution tb now incident_id incident_data
                  remediation_plan) in
  let performed := ResolutionVerifier.all_checks_of (ResolutionVerifier.checks v) in
  List.length performed = (if plan_truthy remediation_plan then 4%nat else 3%nat)
  /\ (ResolutionVerifier.confidence v
      == inject_Z (Z.of_nat (List.length (List.filter ResolutionVerifier.passed performed)))
         / inject_Z (Z.of_nat (List.length performed)) * 100)%Q
  /\ (0 <= ResolutionVerifier.confidence v <= 100)%Q
  /\ (ResolutionVerifier.verified v = true <-> (75 <= ResolutionVerifier.confidence v)%Q)
  /\ (forall outcomes : list ResolutionVerifier.Check, outcomes <> [] ->
        (0 <= ResolutionVerifier.confidence_of outcomes <= 100)%Q
        /\ (Qle_bool 75 (ResolutionVerifier.confidence_of outcomes) = true
            <-> (3 * Z.of_nat (List.length outcomes)
                 <= 4 * Z.of_nat (ResolutionVerifier.passed_checks outcomes))%Z)).
Proof.
  cbv zeta.
  destruct (verify_resolution_checks tb now incident_id incident_data remediation_plan)
    as (Hlen & Hconf & Hver).
  split; [exact Hlen |]. split; [rewrite Hconf; reflexivity |].
  split.
  - rewrite Hconf. apply confidence_of_bounds.
    intros E. rewrite E in Hlen. destruct (plan_truthy remediation_plan); discriminate.
  - split; [rewrite Hver; apply Qle_bool_iff |].
    intros outcomes Hne. split; [now apply confidence_of_bounds |].
    rewrite Qle_bool_iff. unfold ResolutionVerifier.confidence_of.
    assert (Hpos : (0 < List.length outcomes)%nat)
      by (destruct outcomes; [congruence | simpl; lia]).
    set (p := Z.of_nat (ResolutionVerifier.passed_checks outcomes)).
    set (n := Z.of_nat (List.length outcomes)).
    assert (Hn : (0 < inject_Z n)%Q) by (apply inject_Z_pos; lia).
    assert (Hn' : ~ (inject_Z n == 0)%Q) by lra.
    split.
    + intros H.
      assert (H' : (75 * inject_Z n <= inject_Z p / inject_Z n * 100 * inject_Z n)%Q)
        by (apply Qmult_le_compat_r; lra).
      assert (E : (inject_Z p / inject_Z n * 100 * inject_Z n == 100 * inject_Z p)%Q)
        by (field; exact Hn').
      rewrite E in H'.
      assert (H3 : (inject_Z (3 * n) <= inject_Z (4 * p))%Q)
        by (rewrite !inject_Z_mult; change (inject_Z 3) with 3%Q;
            change (inject_Z 4) with 4%Q; lra).
      now rewrite <- Zle_Qle in H3.
    + intros H. rewrite Zle_Qle, !inject_Z_mult in H.
      change (inject_Z 3) with 3%Q in H. change (inject_Z 4) with 4%Q in H.
      assert (E : (inject_Z p / inject_Z n * 100 == 100 * inject_Z p / inject_Z n)%Q)
        by (field; exact Hn').
      rewrite E. apply Qle_shift_div_l; [exact Hn | lra].
Qed.

Lemma C7_confidence_ratio_witness :
  ResolutionVerifier.verified
    (fst (ResolutionVerifier.verify_resolution sample_tables 1700000000 "INC-1"
            incident_null_services (Some (plan_of [act_ok] [])))) = true
  <-> (75 <= ResolutionVerifier.confidence
               (fst (ResolutionVerifier.verify_resolution sample_tables 1700000000 "INC-1"
                       incident_null_services (Some (plan_of [act_ok] [])))))%Q.
Proof.
  exact (proj1 (proj2 (proj2 (proj2
           (C7_confidence_ratio sample_tables 1700000000 "INC-1" incident_null_services
              (Some (plan_of [act_ok] []))))))).
Defined.

(** ** Incident status after execution *)

Lemma executor_update_status (tb : Tables) (now : Z) (incident_id : string)
    (r : RemediationExecutor.Results) (inc : Incident) :
  incidents_table tb !! incident_id = Some inc ->
  inc_status <$>
    (incidents_table
       (RemediationExecutor._update_incident
          (RemediationExecutor._log_execution tb incident_id r) now incident_id r)
     !! incident_id)
  = Some (if String.eqb (RemediationExecutor.status r) "success"
          then "resolved" else "in_progress").
Proof.
  intros Hinc. unfold RemediationExecutor._update_incident. cbn [incidents_table
    RemediationExecutor._log_execution set_log]. rewrite Hinc. cbv zeta.
  cbn [set_incidents incidents_table]. now rewrite lookup_insert_eq.
Qed.

(** C6, amended.  When [execute] completes both phases it sets the
    incident to ['resolved'] if the overall status is ['success'] and to
    ['in_progress'] otherwise; the code has no ['verifying'] state.  A run
    of [verify_resolution] reports the resolution as verified exactly when
    its confidence is at least 75. *)
Theorem C6_status_after_execution_and_verification :
  (forall tb now incident_id plan approval_id inc,
     gate_open tb approval_id ->
     RemediationExecutor.safe (RemediationExecutor._pre_execution_safety_check plan) = true ->
     (forall x, In x (dict_get (immediate_actions plan) []) ->
        action_fails x && is_critical x = false) ->
     incidents_table tb !! incident_id = Some inc ->
     exists r tb',
       RemediationExecutor.execute tb now incident_id plan approval_id
       = (RemediationExecutor.Ran r, tb', all_actions plan)
       /\ inc_status <$> (incidents_table tb' !! incident_id)
          = Some (if String.eqb (RemediationExecutor.status r) "success"
                  then "resolved" else "in_progress")
       /\ inc_status <$> (incidents_table tb' !! incident_id) <> Some "verifying")
  /\ (forall tb now incident_id incident_data remediation_plan,
        let v := fst (ResolutionVerifier.verify_resolution tb now incident_id
                        incident_data remediation_plan) in
        ResolutionVerifier.verified v = true
        <-> (75 <= ResolutionVerifier.confidence v)%Q).
Proof.
  split.
  - intros tb now incident_id plan approval_id inc Hgate Hsafe Hnc Hinc.
    destruct (execute_completed tb now incident_id plan approval_id Hgate Hsafe Hnc)
      as (r & He & Hs & _).
    exists r. eexists. split; [exact He |].
    rewrite (executor_update_status _ _ _ _ _ Hinc), Hs.
    split; [reflexivity |]. destruct (String.eqb _ "success"); discriminate.
  - intros tb now incident_id incident_data remediation_plan. cbv zeta.
    destruct (verify_resolution_checks tb now incident_id incident_data remediation_plan)
      as (_ & _ & Hver).
    rewrite Hver. apply Qle_bool_iff.
Qed.

Lemma C6_status_after_execution_and_verification_witness :
  exists r tb',
    RemediationExecutor.execute sample_tables 1700000000 "INC-1"
      (plan_of [act_ok; act_bad] []) None
    = (RemediationExecutor.Ran r, tb', [act_ok; act_bad])
    /\ inc_status <$> (incidents_table tb' !! "INC-1")
       = Some (if String.eqb (RemediationExecutor.status r) "success"
               then "resolved" else "in_progress")
    /\ inc_status <$> (incidents_table tb' !! "INC-1") <> Some "verifying".
Proof.
  refine (proj1 C6_status_after_execution_and_verification sample_tables 1700000000
            "INC-1" (plan_of [act_ok; act_bad] []) None
            (mkIncident 1699999000 "executing" (Some []) None) I eq_refl _ eq_refl).
  intros x [<- | [<- | []]]; reflexivity.
Defined.

(** C6 as stated fails: a plan whose only action succeeds leaves the
    incident ['resolved'] straight after [execute], with no verification
    stored, and never in a ['verifying'] state. *)
Lemma C6_counterexample :
  let out := RemediationExecutor.execute sample_tables 1700000000 "INC-1"
               (plan_of [act_ok] []) None in
  RemediationExecutor.outcome_status (fst (fst out)) = "success"
  /\ inc_status <$> (incidents_table (snd (fst out)) !! "INC-1") = Some "resolved"
  /\ inc_verification_result <$> (incidents_table (snd (fst out)) !! "INC-1") = Some None
  /\ inc_status <$> (incidents_table (snd (fst out)) !! "INC-1") <> Some "verifying".
Proof.
  vm_compute. repeat split; discriminate.
Qed.

(** ** Approval decisions *)

Lemma valid_action_passes (action : string) :
  action = "approve" \/ action = "reject" ->
  negb (String.eqb action "approve" || String.eqb action "reject") = false.
Proof. intros [-> | ->]; reflexivity. Qed.

Lemma timeline_keeps_approvals (tb : Tables) (now : Z) (incident_id : option string)
    (approval_id status approver : string) :
  approval_queue_table
    (ApprovalProcessor._update_incident_timeline tb now incident_id approval_id
       status approver)
  = approval_queue_table tb.
Proof.
  unfold ApprovalProcessor._update_incident_timeline.
  destruct incident_id as [id |]; [| reflexivity].
  destruct (incidents_table tb !! id); reflexivity.
Qed.

Lemma process_already_processed (tb : Tables) (now : Z)
    (approval_id action approver : string) (comments : option string)
    (approval : Approval) :
  action = "approve" \/ action = "reject" ->
  approval_queue_table tb !! approval_id = Some approval ->
  dict_get (apr_status approval) "pending" <> "pending" ->
  ApprovalProcessor.process_approval tb now approval_id action approver comments
  = (ApprovalProcessor.Failure
       ("Approval already processed (status: "
        +:+ dict_get (apr_status approval) "pending" +:+ ")"), tb).
Proof.
  intros Hact Hlook Hst. unfold ApprovalProcessor.process_approval.
  rewrite (valid_action_passes _ Hact). unfold ApprovalProcessor._get_approval.
  rewrite Hlook. cbv zeta.
  destruct (String.eqb_spec (dict_get (apr_status approval) "pending") "pending");
    [contradiction | reflexivity].
Qed.

(** The first decision on a pending approval: it succeeds and stores the
    decided status. *)
Lemma process_pending (tb : Tables) (now : Z)
    (approval_id action approver : string) (comments : option string)
    (approval : Approval) :
  action = "approve" \/ action = "reject" ->
  approval_queue_table tb !! approval_id = Some approval ->
  dict_get (apr_status approval) "pending" = "pending" ->
  exists r tb1 decided,
    ApprovalProcessor.process_approval tb now approval_id action approver comments
    = (r, tb1)
    /\ ApprovalProcessor.success r = true
    /\ approval_queue_table tb1 !! approval_id = Some decided
    /\ apr_status decided = Some (if String.eqb action "approve"
                                  then "approved" else "rejected")
    /\ apr_approver decided = Some approver
    /\ apr_approved_at decided = Some now.
Proof.
  intros Hact Hlook Hst. unfold ApprovalProcessor.process_approval.
  rewrite (valid_action_passes _ Hact). unfold ApprovalProcessor._get_approval.
  rewrite Hlook. cbv zeta. rewrite Hst. cbn [String.eqb Ascii.eqb Bool.eqb andb negb].
  unfold ApprovalProcessor._update_approval_status, ApprovalProcessor._get_approval.
  cbv zeta. rewrite Hlook. cbn [negb].
  destruct Hact as [-> | ->]; cbn [String.eqb Ascii.eqb Bool.eqb andb];
    eexists _, _, _; (split; [reflexivity |]); (split; [reflexivity |]);
    rewrite timeline_keeps_approvals; cbn [set_approvals approval_queue_table];
    rewrite lookup_insert_eq; repeat split.
Qed.

(** C4.  A decision ([approve] or [reject]) on an approval whose stored
    status is not ['pending'] fails as already processed and writes
    nothing: every table, and with it the stored status, approver and
    timestamps, is returned unchanged.  A decision on an unknown approval
    id fails as not found, again writing nothing.  Consequently, after a
    first decision on a pending approval has been stored, any further
    decision fails and leaves the first one in place. *)
Theorem C4_decide_is_one_shot (tb : Tables) (now : Z)
    (approval_id action approver : string) (comments : option string) :
  action = "approve" \/ action = "reject" ->
  (forall approval,
     approval_queue_table tb !! approval_id = Some approval ->
     dict_get (apr_status approval) "pending" <> "pending" ->
     ApprovalProcessor.process_approval tb now approval_id action approver comments
     = (ApprovalProcessor.Failure
          ("Approval already processed (status: "
           +:+ dict_get (apr_status approval) "pending" +:+ ")"), tb))
  /\ (approval_queue_table tb !! approval_id = None ->
      ApprovalProcessor.process_approval tb now approval_id action approver comments
      = (ApprovalProcessor.Failure ("Approval " +:+ approval_id +:+ " not found"), tb))
  /\ (forall approval,
        approval_queue_table tb !! approval_id = Some approval ->
        dict_get (apr_status approval) "pending" = "pending" ->
        exists r tb1 decided,
          ApprovalProcessor.process_approval tb now approval_id action approver comments
          = (r, tb1)
          /\ ApprovalProcessor.success r = true
          /\ approval_queue_table tb1 !! approval_id = Some decided
          /\ forall now' action' approver' comments',
               action' = "approve" \/ action' = "reject" ->
               exists msg,
                 ApprovalProcessor.process_approval tb1 now' approval_id action'
                   approver' comments'
                 = (ApprovalProcessor.Failure msg, tb1)).
Proof.
  intros Hact. split; [| split].
  - intros approval Hlook Hst.
    now apply process_already_processed.
  - intros Hnone. unfold ApprovalProcessor.process_approval.
    rewrite (valid_action_passes _ Hact). unfold ApprovalProcessor._get_approval.
    now rewrite Hnone.
  - intros approval Hlook Hst.
    destruct (process_pending tb now approval_id action approver comments approval
                Hact Hlook Hst) as (r & tb1 & decided & He & Hs & Hl & Hd & _).
    exists r, tb1, decided. repeat (split; [assumption |]).
    intros now' action' approver' comments' Hact'. eexists.
    apply process_already_processed; [exact Hact' | exact Hl |].
    rewrite Hd. destruct Hact as [-> | ->]; discriminate.
Qed.

Lemma C4_decide_is_one_shot_witness :
  ApprovalProcessor.process_approval sample_tables 1700000000 "APPR-404" "approve"
    "john.doe" None
  = (ApprovalProcessor.Failure "Approval APPR-404 not found", sample_tables).
Proof.
  apply (C4_decide_is_one_shot sample_tables 1700000000 "APPR-404" "approve"
           "john.doe" None).
  - left. reflexivity.
  - reflexivity.
Defined.

(** ** Circuit breaker *)

Lemma get_state_insert (cb : CircuitBreaker.Breaker) (tbl : gmap string CircuitBreaker.Item)
    (item : CircuitBreaker.Item) :
  CircuitBreaker.get_state cb (<[CircuitBreaker.service_name cb := item]> tbl) = item.
Proof. unfold CircuitBreaker.get_state. now rewrite lookup_insert_eq. Qed.

Lemma get_state_record_success (cb : CircuitBreaker.Breaker)
    (tbl : gmap string CircuitBreaker.Item) (now : Q) :
  CircuitBreaker.get_state cb (CircuitBreaker.record_success cb tbl now)
  = CircuitBreaker.mkItem "CLOSED" 0 None (Some (CircuitBreaker.py_int now))
      (Some (CircuitBreaker.py_int now + 300)).
Proof. apply get_state_insert. Qed.

Lemma get_state_record_failure (cb : CircuitBreaker.Breaker)
    (tbl : gmap string CircuitBreaker.Item) (now : Q) :
  CircuitBreaker.get_state cb (CircuitBreaker.record_failure cb tbl now)
  = CircuitBreaker.mkItem
      (if CircuitBreaker.failure_threshold cb
          <=? CircuitBreaker.failure_count (CircuitBreaker.get_state cb tbl) + 1
       then "OPEN" else "CLOSED")
      (CircuitBreaker.failure_count (CircuitBreaker.get_state cb tbl) + 1)
      (Some (CircuitBreaker.py_int now)) None
      (Some (CircuitBreaker.py_int now + CircuitBreaker.timeout cb)).
Proof. apply get_state_insert. Qed.

Lemma record_failures_count (cb : CircuitBreaker.Breaker) (times : list Q)
    (tbl : gmap string CircuitBreaker.Item) :
  CircuitBreaker.failure_count
    (CircuitBreaker.get_state cb (CircuitBreaker.record_failures cb tbl times))
  = CircuitBreaker.failure_count (CircuitBreaker.get_state cb tbl)
    + Z.of_nat (List.length times).
Proof.
  revert tbl. induction times as [| t times IH]; intros tbl.
  - simpl. lia.
  - cbn [CircuitBreaker.record_failures]. rewrite IH, get_state_record_failure.
    cbn [CircuitBreaker.failure_count List.length]. lia.
Qed.

Lemma record_failures_last (cb : CircuitBreaker.Breaker) (times : list Q) (t : Q)
    (tbl : gmap string CircuitBreaker.Item) :
  CircuitBreaker.get_state cb (CircuitBreaker.record_failures cb tbl (times ++ [t]))
  = CircuitBreaker.mkItem
      (if CircuitBreaker.failure_threshold cb
          <=? CircuitBreaker.failure_count (CircuitBreaker.get_state cb tbl)
              + Z.of_nat (List.length times) + 1
       then "OPEN" else "CLOSED")
      (CircuitBreaker.failure_count (CircuitBreaker.get_state cb tbl)
       + Z.of_nat (List.length times) + 1)
      (Some (CircuitBreaker.py_int t)) None
      (Some (CircuitBreaker.py_int t + CircuitBreaker.timeout cb)).
Proof.
  revert tbl. induction times as [| x times IH]; intros tbl.
  - cbn [app CircuitBreaker.record_failures List.length].
    rewrite get_state_record_failure. now rewrite Z.add_0_r.
  - cbn [app CircuitBreaker.record_failures List.length].
    rewrite IH, get_state_record_failure. cbn [CircuitBreaker.failure_count].
    replace (CircuitBreaker.failure_count (CircuitBreaker.get_state cb tbl) + 1
             + Z.of_nat (List.length times) + 1)
      with (CircuitBreaker.failure_count (CircuitBreaker.get_state cb tbl)
            + Z.of_nat (S (List.length times)) + 1) by lia.
    reflexivity.
Qed.

Lemma is_open_not_open (cb : CircuitBreaker.Breaker)
    (tbl : gmap string CircuitBreaker.Item) (now : Q) :
  CircuitBreaker.state (CircuitBreaker.get_state cb tbl) <> "OPEN" ->
  CircuitBreaker.is_open cb tbl now = CircuitBreaker.Returns false.
Proof.
  intros H. unfold CircuitBreaker.is_open. cbv zeta.
  destruct (String.eqb_spec (CircuitBreaker.state (CircuitBreaker.get_state cb tbl)) "OPEN");
    [contradiction | reflexivity].
Qed.

Lemma is_open_raises (cb : CircuitBreaker.Breaker)
    (tbl : gmap string CircuitBreaker.Item) (now : Q) (z : Z) :
  CircuitBreaker.state (CircuitBreaker.get_state cb tbl) = "OPEN" ->
  CircuitBreaker.last_failure_time (CircuitBreaker.get_state cb tbl) = Some z ->
  CircuitBreaker.is_open cb tbl now
  = CircuitBreaker.Raises CircuitBreaker.float_minus_decimal.
Proof.
  intros Hs Hl. unfold CircuitBreaker.is_open. cbv zeta. now rewrite Hs, Hl.
Qed.

Lemma is_open_absent (cb : CircuitBreaker.Breaker)
    (tbl : gmap string CircuitBreaker.Item) (now : Q) :
  tbl !! CircuitBreaker.service_name cb = None ->
  CircuitBreaker.is_open cb tbl now = CircuitBreaker.Returns false.
Proof.
  intros H. apply is_open_not_open. unfold CircuitBreaker.get_state. rewrite H.
  discriminate.
Qed.

Lemma is_open_after_failure (cb : CircuitBreaker.Breaker)
    (tbl : gmap string CircuitBreaker.Item) (t now : Q) :
  CircuitBreaker.is_open cb (CircuitBreaker.record_failure cb tbl t) now
  = if CircuitBreaker.failure_threshold cb
       <=? CircuitBreaker.failure_count (CircuitBreaker.get_state cb tbl) + 1
    then CircuitBreaker.Raises CircuitBreaker.float_minus_decimal
    else CircuitBreaker.Returns false.
Proof.
  destruct (CircuitBreaker.failure_threshold cb
            <=? CircuitBreaker.failure_count (CircuitBreaker.get_state cb tbl) + 1) eqn:E.
  - apply is_open_raises with (z := CircuitBreaker.py_int t);
      rewrite get_state_record_failure, ?E; reflexivity.
  - apply is_open_not_open. rewrite get_state_record_failure, E. discriminate.
Qed.

(** C5.  [record_success] stores failure count 0 and state [CLOSED].
    [record_failure] adds one to the failure count, stamps
    [last_failure_time] and stores [OPEN] exactly when the new count has
    reached the threshold; the defaults are 5 and 60.  [is_open] answers
    [False] for a breaker without a stored item, after a recorded success
    and after a failure below the threshold.  On the item that an opening
    failure stores it gives no answer: it raises [TypeError] at every
    clock reading, within the timeout and after it.  So after five failures
    in a row on a fresh default breaker [is_open] neither returns true nor
    turns false once the timeout has elapsed. *)
Theorem C5_is_open_raises_once_open (cb : CircuitBreaker.Breaker)
    (tbl : gmap string CircuitBreaker.Item) (now : Q) :
  (CircuitBreaker.failure_count
     (CircuitBreaker.get_state cb (CircuitBreaker.record_success cb tbl now)) = 0
   /\ CircuitBreaker.state
        (CircuitBreaker.get_state cb (CircuitBreaker.record_success cb tbl now)) = "CLOSED")
  /\ (CircuitBreaker.failure_count
        (CircuitBreaker.get_state cb (CircuitBreaker.record_failure cb tbl now))
      = CircuitBreaker.failure_count (CircuitBreaker.get_state cb tbl) + 1
      /\ CircuitBreaker.last_failure_time
           (CircuitBreaker.get_state cb (CircuitBreaker.record_failure cb tbl now))
         = Some (CircuitBreaker.py_int now)
      /\ (CircuitBreaker.state
            (CircuitBreaker.get_state cb (CircuitBreaker.record_failure cb tbl now)) = "OPEN"
          <-> CircuitBreaker.failure_threshold cb
              <= CircuitBreaker.failure_count (CircuitBreaker.get_state cb tbl) + 1)
      /\ (CircuitBreaker.state
            (CircuitBreaker.get_state cb (CircuitBreaker.record_failure cb tbl now)) <> "OPEN"
          -> CircuitBreaker.state
               (CircuitBreaker.get_state cb (CircuitBreaker.record_failure cb tbl now))
             = "CLOSED"))
  /\ ((tbl !! CircuitBreaker.service_name cb = None ->
       CircuitBreaker.is_open cb tbl now = CircuitBreaker.Returns false)
      /\ (forall t,
            CircuitBreaker.is_open cb (CircuitBreaker.record_success cb tbl t) now
            = CircuitBreaker.Returns false)
      /\ (forall t,
            CircuitBreaker.is_open cb (CircuitBreaker.record_failure cb tbl t) now
            = if CircuitBreaker.failure_threshold cb
                 <=? CircuitBreaker.failure_count (CircuitBreaker.get_state cb tbl) + 1
              then CircuitBreaker.Raises CircuitBreaker.float_minus_decimal
              else CircuitBreaker.Returns false))
  /\ (forall name,
        CircuitBreaker.failure_threshold (CircuitBreaker.init name) = 5
        /\ CircuitBreaker.timeout (CircuitBreaker.init name) = 60)
  /\ (forall name t1 t2 t3 t4 t5,
        let b := CircuitBreaker.init name in
        let opened := CircuitBreaker.record_failures b ∅ [t1; t2; t3; t4; t5] in
        CircuitBreaker.state (CircuitBreaker.get_state b opened) = "OPEN"
        /\ (forall t,
              CircuitBreaker.is_open b opened t
              = CircuitBreaker.Raises CircuitBreaker.float_minus_decimal)
        /\ (forall t,
              CircuitBreaker.failure_count
                (CircuitBreaker.get_state b (CircuitBreaker.record_success b opened t))
              = 0))
  /\ (CircuitBreaker.is_open cloudwatch_breaker five_failures 1050
      = CircuitBreaker.Raises CircuitBreaker.float_minus_decimal
      /\ CircuitBreaker.is_open cloudwatch_breaker five_failures 1070
         = CircuitBreaker.Raises CircuitBreaker.float_minus_decimal).
Proof.
  split; [| split; [| split; [| split; [| split]]]].
  - rewrite get_state_record_success. split; reflexivity.
  - rewrite get_state_record_failure.
    cbn [CircuitBreaker.failure_count CircuitBreaker.last_failure_time CircuitBreaker.state].
    split; [reflexivity |]. split; [reflexivity |].
    destruct (Z.leb_spec (CircuitBreaker.failure_threshold cb)
                (CircuitBreaker.failure_count (CircuitBreaker.get_state cb tbl) + 1)).
    + split; [split; [intros _; assumption | reflexivity] | intros H'; now contradiction H'].
    + split; [split; [discriminate | lia] | reflexivity].
  - split; [apply is_open_absent |]. split.
    + intros t. apply is_open_not_open. rewrite get_state_record_success. discriminate.
    + intros t. apply is_open_after_failure.
  - intros name. split; reflexivity.
  - intros name t1 t2 t3 t4 t5 b opened.
    assert (Hst : CircuitBreaker.get_state b opened
                  = CircuitBreaker.mkItem "OPEN" 5 (Some (CircuitBreaker.py_int t5)) None
                      (Some (CircuitBreaker.py_int t5 + 60))).
    { unfold opened. change [t1; t2; t3; t4; t5] with ([t1; t2; t3; t4] ++ [t5]).
      rewrite record_failures_last. reflexivity. }
    split; [now rewrite Hst |]. split.
    + intros t. apply is_open_raises with (z := CircuitBreaker.py_int t5);
        now rewrite Hst.
    + intros t. now rewrite get_state_record_success.
  - split; reflexivity.
Qed.

(** ** Investigation loop *)

Section Investigation.

Variable reasoner : nat -> option string.
Variable json_loads : string -> option (list (string * RootCauseAgent.json)).
Variable invoke_tool :
  nat -> string -> RootCauseAgent.json -> (RootCauseAgent.json * string) + string.

Local Abbreviation body := (RootCauseAgent.loop_body reasoner json_loads invoke_tool).
Local Abbreviation loop := (RootCauseAgent.while_loop reasoner json_loads invoke_tool).

Lemma loop_body_iteration (st : RootCauseAgent.LoopState) :
  RootCauseAgent.iteration (body st) = S (RootCauseAgent.iteration st)
  /\ RootCauseAgent.model_calls (body st) = S (S (RootCauseAgent.model_calls st))
  /\ (List.length (RootCauseAgent.investigation_log (body st))
      <= List.length (RootCauseAgent.investigation_log st) + 3)%nat.
Proof.
  unfold RootCauseAgent.loop_body. cbv zeta.
  destruct (RootCauseAgent.json_is_str _ "conclude");
    cbn [RootCauseAgent.iteration RootCauseAgent.model_calls
         RootCauseAgent.investigation_log];
    rewrite ?List.length_app; cbn [List.length]; repeat split; lia.
Qed.

(** The loop never runs past the bound, and with fuel for the remaining
    iterations it stops because its own guard is false. *)
Lemma while_loop_bounded (agent : RootCauseAgent.Agent) (fuel : nat)
    (st : RootCauseAgent.LoopState) :
  (RootCauseAgent.iteration st <= RootCauseAgent.max_iterations agent)%nat ->
  (RootCauseAgent.max_iterations agent - RootCauseAgent.iteration st <= fuel)%nat ->
  (RootCauseAgent.iteration (loop agent fuel st)
   <= RootCauseAgent.max_iterations agent)%nat
  /\ RootCauseAgent.loop_guard agent (loop agent fuel st) = false
  /\ (RootCauseAgent.model_calls (loop agent fuel st) + 2 * RootCauseAgent.iteration st
      = RootCauseAgent.model_calls st + 2 * RootCauseAgent.iteration (loop agent fuel st))%nat
  /\ (List.length (RootCauseAgent.investigation_log (loop agent fuel st))
      + 3 * RootCauseAgent.iteration st
      <= List.length (RootCauseAgent.investigation_log st)
         + 3 * RootCauseAgent.iteration (loop agent fuel st))%nat.
Proof.
  revert st. induction fuel as [| fuel IH]; intros st Hle Hfuel.
  - cbn [RootCauseAgent.while_loop]. split; [exact Hle |]. split; [| lia].
    unfold RootCauseAgent.loop_guard.
    destruct (Nat.ltb_spec (RootCauseAgent.iteration st)
                (RootCauseAgent.max_iterations agent)); [lia | reflexivity].
  - cbn [RootCauseAgent.while_loop].
    destruct (RootCauseAgent.loop_guard agent st) eqn:G.
    + destruct (loop_body_iteration st) as (Hi & Hm & Hl).
      assert (Hlt : (RootCauseAgent.iteration st
                     < RootCauseAgent.max_iterations agent)%nat).
      { unfold RootCauseAgent.loop_guard in G. apply andb_true_iff in G.
        destruct G as [G _]. now apply Nat.ltb_lt in G. }
      destruct (IH (body st)) as (H1 & H2 & H3 & H4); [lia | lia |].
      split; [exact H1 |]. split; [exact H2 |]. split; lia.
    + split; [exact Hle |]. split; [exact G |]. split; lia.
Qed.

Lemma run_loop_bounded (agent : RootCauseAgent.Agent) (ctx : RootCauseAgent.Context) :
  let st := RootCauseAgent.run_loop reasoner json_loads invoke_tool agent ctx in
  (RootCauseAgent.iteration st <= RootCauseAgent.max_iterations agent)%nat
  /\ RootCauseAgent.loop_guard agent st = false
  /\ RootCauseAgent.model_calls st = (2 * RootCauseAgent.iteration st)%nat
  /\ (List.length (RootCauseAgent.investigation_log st)
      <= 3 * RootCauseAgent.max_iterations agent)%nat.
Proof.
  cbv zeta. unfold RootCauseAgent.run_loop.
  destruct (while_loop_bounded agent (RootCauseAgent.max_iterations agent)
              (RootCauseAgent.initial_state ctx)) as (H1 & H2 & H3 & H4);
    cbn [RootCauseAgent.initial_state RootCauseAgent.iteration]; try lia.
  cbn [RootCauseAgent.initial_state RootCauseAgent.iteration RootCauseAgent.model_calls
       RootCauseAgent.investigation_log List.length] in H3, H4.
  repeat split; try assumption; lia.
Qed.

Lemma investigate_report (agent : RootCauseAgent.Agent) (tb : Tables) (now : Z)
    (incident_id incident_data : RootCauseAgent.json)
    (r : RootCauseAgent.Investigation) (tb' : Tables) :
  RootCauseAgent.investigate reasoner json_loads invoke_tool agent tb now
    incident_id incident_data = (inr r, tb') ->
  (exists items, RootCauseAgent.report r = RootCauseAgent.JObj items)
  /\ (RootCauseAgent.investigation_steps r <= 3 * RootCauseAgent.max_iterations agent)%nat.
Proof.
  unfold RootCauseAgent.investigate.
  destruct (RootCauseAgent._build_initial_context incident_data) as [e | ctx];
    [discriminate |].
  cbv zeta.
  destruct (negb (RootCauseAgent.items_has _ "confidence")); [discriminate |].
  destruct (negb (RootCauseAgent.items_has _ "evidence")); [discriminate |].
  intros H. injection H as <- _.
  cbn [RootCauseAgent.report RootCauseAgent.investigation_steps].
  split; [eauto |]. apply (run_loop_bounded agent ctx).
Qed.

Lemma handler_report (tb : Tables) (now : Z)
    (incident_id incident_data : RootCauseAgent.json) :
  exists items,
    RootCauseAgent.report
      (RootCauseAgent.result
         (fst (RootCauseAgent.lambda_handler reasoner json_loads invoke_tool tb now
                 incident_id incident_data)))
    = RootCauseAgent.JObj items.
Proof.
  unfold RootCauseAgent.lambda_handler.
  destruct (negb (RootCauseAgent.json_truthy incident_id)
            || negb (RootCauseAgent.json_truthy incident_data)).
  - cbn. eauto.
  - destruct (RootCauseAgent.investigate reasoner json_loads invoke_tool
                RootCauseAgent.init tb now incident_id incident_data)
      as [[e | r] tb'] eqn:E.
    + cbn. eauto.
    + cbn. apply (investigate_report _ _ _ _ _ _ _ E).
Qed.

(** *** A reasoner whose output never parses *)

Hypothesis malformed :
  forall n, RootCauseAgent.parse_object json_loads
              (RootCauseAgent._call_bedrock reasoner n) = None.

Lemma malformed_body (st : RootCauseAgent.LoopState) :
  RootCauseAgent.conclusion_reached (body st) = RootCauseAgent.conclusion_reached st
  /\ RootCauseAgent.root_cause (body st) = RootCauseAgent.root_cause st
  /\ (only_fallback_actions (RootCauseAgent.investigation_log st) ->
      only_fallback_actions (RootCauseAgent.investigation_log (body st))).
Proof.
  unfold RootCauseAgent.loop_body, RootCauseAgent._parse_action. cbv zeta.
  rewrite malformed.
  cbn [RootCauseAgent.fallback_action RootCauseAgent.items_get String.eqb Ascii.eqb
       Bool.eqb RootCauseAgent.json_is_str andb].
  cbn [RootCauseAgent.conclusion_reached RootCauseAgent.root_cause
       RootCauseAgent.investigation_log].
  split; [reflexivity |]. split; [reflexivity |].
  intros H a Hin. apply in_app_or in Hin. destruct Hin as [Hin | [E | []]]; [| discriminate].
  apply in_app_or in Hin. destruct Hin as [Hin | [E | []]].
  - apply in_app_or in Hin. destruct Hin as [Hin | [E | []]]; [auto | discriminate].
  - now injection E as <-.
Qed.

Lemma malformed_loop (agent : RootCauseAgent.Agent) (fuel : nat)
    (st : RootCauseAgent.LoopState) :
  RootCauseAgent.conclusion_reached st = false ->
  (RootCauseAgent.iteration st <= RootCauseAgent.max_iterations agent)%nat ->
  (RootCauseAgent.max_iterations agent - RootCauseAgent.iteration st <= fuel)%nat ->
  only_fallback_actions (RootCauseAgent.investigation_log st) ->
  RootCauseAgent.iteration (loop agent fuel st) = RootCauseAgent.max_iterations agent
  /\ RootCauseAgent.conclusion_reached (loop agent fuel st) = false
  /\ RootCauseAgent.root_cause (loop agent fuel st) = RootCauseAgent.root_cause st
  /\ only_fallback_actions (RootCauseAgent.investigation_log (loop agent fuel st)).
Proof.
  revert st. induction fuel as [| fuel IH]; intros st Hc Hle Hfuel Hlog.
  - cbn [RootCauseAgent.while_loop]. repeat split; try assumption. lia.
  - cbn [RootCauseAgent.while_loop]. unfold RootCauseAgent.loop_guard. rewrite Hc.
    cbn [negb]. rewrite andb_true_r.
    destruct (Nat.ltb_spec (RootCauseAgent.iteration st)
                (RootCauseAgent.max_iterations agent)) as [Hlt | Hge].
    + destruct (malformed_body st) as (Hc' & Hr' & Hl').
      destruct (loop_body_iteration st) as (Hi & _).
      destruct (IH (body st)) as (H1 & H2 & H3 & H4);
        [congruence | lia | lia | auto |].
      repeat split; try assumption. congruence.
    + repeat split; try assumption. lia.
Qed.

Lemma malformed_investigate (agent : RootCauseAgent.Agent) (tb : Tables) (now : Z)
    (incident_id : RootCauseAgent.json) (items : list (string * RootCauseAgent.json)) :
  RootCauseAgent.join_ok (RootCauseAgent.items_lookup items "affected_services") = true ->
  exists r tb',
    RootCauseAgent.investigate reasoner json_loads invoke_tool agent tb now incident_id
      (RootCauseAgent.JObj items) = (inr r, tb')
    /\ RootCauseAgent.report r = RootCauseAgent.JObj RootCauseAgent.fallback_report
    /\ RootCauseAgent.inv_confidence r = RootCauseAgent.JStr "low"
    /\ RootCauseAgent.inv_root_cause r = RootCauseAgent.JNull.
Proof.
  intros Hjoin. unfold RootCauseAgent.investigate, RootCauseAgent._build_initial_context.
  unfold RootCauseAgent.join_ok in Hjoin.
  destruct (RootCauseAgent.join_error _); [discriminate |]. cbv zeta. unfold RootCauseAgent._parse_report. rewrite malformed.
  cbn [RootCauseAgent.items_has RootCauseAgent.fallback_report existsb fst String.eqb
       Ascii.eqb Bool.eqb andb orb negb].
  eexists _, _. split; [reflexivity |].
  cbn [RootCauseAgent.report RootCauseAgent.inv_confidence RootCauseAgent.inv_root_cause].
  split; [reflexivity |]. split; [reflexivity |].
  unfold RootCauseAgent.run_loop.
  destruct (malformed_loop agent (RootCauseAgent.max_iterations agent)
              (RootCauseAgent.initial_state (RootCauseAgent.mkContext
                                               (RootCauseAgent.JObj items) ∅)))
    as (_ & _ & H & _); cbn; try lia; try reflexivity.
  - intros a [].
  - exact H.
Qed.

End Investigation.

(** C8.  For every incident, every reasoner, every JSON parser and every
    tool endpoint, the loop of [investigate] runs its body at most
    [max_iterations] times (5 for the agent built by [__init__]) and then
    stops on its own guard, and [lambda_handler] always returns a result
    whose [report] is a dictionary.  When no reply of the reasoner parses,
    every action taken is the fallback health check, the loop runs exactly
    [max_iterations] times without concluding, and [investigate] returns
    the fallback report with confidence ['low']. *)
Theorem C8_investigation_bounded
    (reasoner : nat -> option string)
    (json_loads : string -> option (list (string * RootCauseAgent.json)))
    (invoke_tool :
       nat -> string -> RootCauseAgent.json -> (RootCauseAgent.json * string) + string)
    (agent : RootCauseAgent.Agent) (ctx : RootCauseAgent.Context)
    (tb : Tables) (now : Z) (incident_id incident_data : RootCauseAgent.json) :
  let st := RootCauseAgent.run_loop reasoner json_loads invoke_tool agent ctx in
  ((RootCauseAgent.iteration st <= RootCauseAgent.max_iterations agent)%nat
   /\ RootCauseAgent.loop_guard agent st = false
   /\ RootCauseAgent.model_calls st = (2 * RootCauseAgent.iteration st)%nat
   /\ (List.length (RootCauseAgent.investigation_log st)
       <= 3 * RootCauseAgent.max_iterations agent)%nat)
  /\ RootCauseAgent.max_iterations RootCauseAgent.init = 5%nat
  /\ (exists items,
        RootCauseAgent.report
          (RootCauseAgent.result
             (fst (RootCauseAgent.lambda_handler reasoner json_loads invoke_tool tb now
                     incident_id incident_data)))
        = RootCauseAgent.JObj items)
  /\ (forall r tb',
        RootCauseAgent.investigate reasoner json_loads invoke_tool agent tb now
          incident_id incident_data = (inr r, tb') ->
        (exists items, RootCauseAgent.report r = RootCauseAgent.JObj items)
        /\ (RootCauseAgent.investigation_steps r
            <= 3 * RootCauseAgent.max_iterations agent)%nat)
  /\ ((forall n, RootCauseAgent.parse_object json_loads
                   (RootCauseAgent._call_bedrock reasoner n) = None) ->
      RootCauseAgent.iteration st = RootCauseAgent.max_iterations agent
      /\ RootCauseAgent.conclusion_reached st = false
      /\ only_fallback_actions (RootCauseAgent.investigation_log st)
      /\ (forall items,
            incident_data = RootCauseAgent.JObj items ->
            RootCauseAgent.join_ok
              (RootCauseAgent.items_lookup items "affected_services") = true ->
            exists r tb',
              RootCauseAgent.investigate reasoner json_loads invoke_tool agent tb now
                incident_id incident_data = (inr r, tb')
              /\ RootCauseAgent.report r
                 = RootCauseAgent.JObj RootCauseAgent.fallback_report
              /\ RootCauseAgent.inv_confidence r = RootCauseAgent.JStr "low")).
Proof.
  cbv zeta. split; [apply run_loop_bounded |]. split; [reflexivity |].
  split; [apply handler_report |]. split; [apply investigate_report |].
  intros Hmal.
  destruct (malformed_loop reasoner json_loads invoke_tool Hmal agent
              (RootCauseAgent.max_iterations agent) (RootCauseAgent.initial_state ctx))
    as (H1 & H2 & _ & H4); cbn; try lia; try reflexivity.
  - intros a [].
  - split; [exact H1 |]. split; [exact H2 |]. split; [exact H4 |].
    intros items -> Hjoin.
    destruct (malformed_investigate reasoner json_loads invoke_tool Hmal agent tb now
                incident_id items Hjoin) as (r & tb' & He & Hr & Hc & _).
    exists r, tb'. auto.
Qed.

Lemma C8_investigation_bounded_witness :
  exists r tb',
    RootCauseAgent.investigate prose_reasoner rejecting_loads failing_tool
      RootCauseAgent.init sample_tables 1700000000 (RootCauseAgent.JStr "INC-1")
      sample_incident = (inr r, tb')
    /\ RootCauseAgent.report r = RootCauseAgent.JObj RootCauseAgent.fallback_report
    /\ RootCauseAgent.inv_confidence r = RootCauseAgent.JStr "low".
Proof.
  destruct (C8_investigation_bounded prose_reasoner rejecting_loads failing_tool
              RootCauseAgent.init (RootCauseAgent.mkContext sample_incident ∅)
              sample_tables 1700000000 (RootCauseAgent.JStr "INC-1") sample_incident)
    as (_ & _ & _ & _ & H).
  destruct (H (fun n => eq_refl)) as (_ & _ & _ & H').
  exact (H' _ eq_refl eq_refl).
Defined.

(** * Further properties of the code *)

(** ** Remediation executor: refusal, bookkeeping and writes *)

Lemma verify_approval_true (tb : Tables) (approval_id : string) :
  RemediationExecutor._verify_approval tb approval_id = true
  <-> exists a, approval_queue_table tb !! approval_id = Some a
                /\ apr_status a = Some "approved".
Proof.
  unfold RemediationExecutor._verify_approval.
  destruct (approval_queue_table tb !! approval_id) as [a |].
  - split.
    + intros H. exists a. split; [reflexivity |].
      destruct (apr_status a) as [s |]; simpl in H; [| discriminate].
      apply String.eqb_eq in H. now subst.
    + intros (a' & E & Hs). injection E as <-. now rewrite Hs.
  - split; [discriminate | intros (a & E & _); discriminate].
Qed.

Lemma determine_status_range (r : RemediationExecutor.Results) :
  In (RemediationExecutor.status (RemediationExecutor.determine_status r))
    ["success"; "partial_success"; "failed"].
Proof.
  rewrite determine_status_status. unfold status_by_count.
  destruct (Nat.eqb _ 0); [simpl; auto |]. destruct (Nat.ltb _ _); simpl; auto.
Qed.

Lemma immediate_loop_returned_status (l : list Action)
    (st st' : RemediationExecutor.Results * list Action) :
  RemediationExecutor.immediate_loop l st = RemediationExecutor.Returned st' ->
  RemediationExecutor.status (fst st') = "failed".
Proof.
  revert st. induction l as [| a l IH]; intros st; [discriminate |].
  cbn [RemediationExecutor.immediate_loop]. cbv zeta.
  destruct (negb _); [| apply IH].
  destruct (truthy _); [| apply IH].
  intros H. injection H as <-. reflexivity.
Qed.

(** The status of whatever [execute] returns once it is past the approval
    test. *)
Lemma execute_status_range (tb : Tables) (now : Z) (incident_id : string)
    (plan : RemediationPlan) (approval_id : option string) :
  gate_open tb approval_id ->
  In (RemediationExecutor.outcome_status
        (fst (fst (RemediationExecutor.execute tb now incident_id plan approval_id))))
    ["aborted"; "success"; "partial_success"; "failed"].
Proof.
  intros Hgate. unfold RemediationExecutor.execute. cbv zeta.
  rewrite (gate_open_not_blocked _ _ Hgate).
  destruct (negb (RemediationExecutor.safe _)); [simpl; auto |].
  destruct (RemediationExecutor.immediate_loop _ _) as [st | [r calls]] eqn:E.
  - destruct (RemediationExecutor.corrective_loop _ st) as [r calls].
    cbn [fst RemediationExecutor.outcome_status].
    assert (H := determine_status_range r).
    destruct (String.eqb _ "success" || String.eqb _ "partial_success");
      cbn [RemediationExecutor.with_verification RemediationExecutor.status];
      simpl in H; simpl; intuition.
  - cbn [fst RemediationExecutor.outcome_status].
    apply immediate_loop_returned_status in E. cbn [fst] in E. rewrite E. simpl. auto.
Qed.

(** X1.  A supplied approval id is re-checked against the approval queue:
    the check passes only for a stored approval whose status is exactly
    ['approved'].  For any other non-empty id -- unknown, pending or
    rejected -- [execute] returns ['blocked'] whatever the plan, runs no
    action and writes no table.  An absent or empty id skips the check, and
    the result is then never ['blocked']. *)
Theorem X1_blocked_unless_approved (tb : Tables) (now : Z) (incident_id : string)
    (plan : RemediationPlan) (approval_id : string) :
  (RemediationExecutor._verify_approval tb approval_id = true
   <-> exists a, approval_queue_table tb !! approval_id = Some a
                 /\ apr_status a = Some "approved")
  /\ (approval_id <> "" ->
      RemediationExecutor._verify_approval tb approval_id = false ->
      RemediationExecutor.execute tb now incident_id plan (Some approval_id)
      = (RemediationExecutor.Refused incident_id "blocked"
           "Approval not granted or expired" [], tb, []))
  /\ RemediationExecutor.outcome_status
       (fst (fst (RemediationExecutor.execute tb now incident_id plan None)))
     <> "blocked"
  /\ RemediationExecutor.execute tb now incident_id plan (Some "")
     = RemediationExecutor.execute tb now incident_id plan None.
Proof.
  split; [apply verify_approval_true |]. split; [| split].
  - intros Hne Hv. unfold RemediationExecutor.execute. cbv zeta.
    unfold RemediationExecutor.approval_supplied.
    destruct (String.eqb_spec approval_id ""); [contradiction |].
    now rewrite Hv.
  - intros H.
    assert (Hr := execute_status_range tb now incident_id plan None I).
    rewrite H in Hr. simpl in Hr.
    repeat (destruct Hr as [Hr | Hr]; [discriminate |]). exact Hr.
  - reflexivity.
Qed.

Lemma X1_blocked_unless_approved_witness :
  RemediationExecutor.execute sample_tables 1700000000 "INC-1"
    (plan_of [act_ok] []) (Some "APPR-1")
  = (RemediationExecutor.Refused "INC-1" "blocked" "Approval not granted or expired" [],
     sample_tables, []).
Proof.
  apply (X1_blocked_unless_approved sample_tables 1700000000 "INC-1"
           (plan_of [act_ok] []) "APPR-1").
  - discriminate.
  - reflexivity.
Defined.

Lemma failed_of_app (l1 l2 : list RemediationExecutor.ActionResult) :
  failed_of (l1 ++ l2) = failed_of l1 ++ failed_of l2.
Proof. apply List.filter_app. Qed.

Lemma failed_of_single (x : RemediationExecutor.ActionResult) :
  failed_of [x] = if RemediationExecutor.res_success x then [] else [x].
Proof. unfold failed_of. cbn. now destruct (RemediationExecutor.res_success x). Qed.

Lemma immediate_step_bookkeeping (a : Action)
    (st : RemediationExecutor.Results * list Action) :
  RemediationExecutor.corrective_actions_done (fst st) = [] ->
  bookkeeping st ->
  let result := RemediationExecutor._execute_action a "immediate" in
  let pushed := RemediationExecutor.push_immediate (fst st) result in
  bookkeeping (if negb (RemediationExecutor.res_success result)
               then RemediationExecutor.push_failed pushed result else pushed,
               snd st ++ [a])
  /\ RemediationExecutor.corrective_actions_done
       (if negb (RemediationExecutor.res_success result)
        then RemediationExecutor.push_failed pushed result else pushed) = [].
Proof.
  destruct st as [r calls]. cbn [fst snd]. intros Hc [Hf Hl]. cbv zeta.
  unfold bookkeeping. cbn [fst snd].
  destruct r as [i e s m imm corr failed rb v]. cbn in Hc, Hf, Hl. subst corr.
  rewrite app_nil_r in Hf, Hl.
  destruct (RemediationExecutor.res_success
              (RemediationExecutor._execute_action a "immediate")) eqn:E;
    cbn; rewrite ?app_nil_r, failed_of_app, failed_of_single, E, !List.length_app;
    cbn; rewrite ?app_nil_r; repeat split; unfold failed_of in *; congruence.
Qed.

Lemma immediate_loop_bookkeeping (l : list Action)
    (st : RemediationExecutor.Results * list Action) :
  RemediationExecutor.corrective_actions_done (fst st) = [] ->
  bookkeeping st ->
  match RemediationExecutor.immediate_loop l st with
  | RemediationExecutor.Fallthrough st' =>
      bookkeeping st' /\ RemediationExecutor.corrective_actions_done (fst st') = []
  | RemediationExecutor.Returned st' => bookkeeping st'
  end.
Proof.
  revert st. induction l as [| a l IH]; intros st Hc Hb; [now split |].
  destruct (immediate_step_bookkeeping a st Hc Hb) as [Hb' Hc'].
  cbn [RemediationExecutor.immediate_loop]. cbv zeta.
  destruct (negb (RemediationExecutor.res_success
                    (RemediationExecutor._execute_action a "immediate"))).
  - destruct (truthy (dict_get (critical a) (PyBool false))).
    + unfold bookkeeping in *. cbn [fst snd] in *.
      destruct Hb' as [Hf Hl]. split; [| exact Hl].
      destruct (RemediationExecutor.push_failed _ _); exact Hf.
    + now apply IH.
  - now apply IH.
Qed.

Lemma corrective_loop_bookkeeping (l : list Action)
    (st : RemediationExecutor.Results * list Action) :
  bookkeeping st -> bookkeeping (RemediationExecutor.corrective_loop l st).
Proof.
  revert st. induction l as [| a l IH]; intros st Hb; [exact Hb |].
  cbn [RemediationExecutor.corrective_loop]. cbv zeta.
  assert (Hstep :
            bookkeeping
              (if negb (RemediationExecutor.res_success
                          (RemediationExecutor._execute_action a "corrective"))
               then RemediationExecutor.push_failed
                      (RemediationExecutor.push_corrective (fst st)
                         (RemediationExecutor._execute_action a "corrective"))
                      (RemediationExecutor._execute_action a "corrective")
               else RemediationExecutor.push_corrective (fst st)
                      (RemediationExecutor._execute_action a "corrective"),
               snd st ++ [a])).
  { destruct st as [r calls]. destruct Hb as [Hf Hl]. cbn [fst snd] in *.
    unfold bookkeeping. cbn [fst snd].
    destruct r as [i e s m imm corr failed rb v]. cbn in Hf, Hl.
    destruct (RemediationExecutor.res_success
                (RemediationExecutor._execute_action a "corrective")) eqn:E;
      cbn; rewrite app_assoc, failed_of_app, failed_of_single, E, !List.length_app;
      cbn; rewrite ?app_nil_r; rewrite <- ?List.length_app; repeat split;
      unfold failed_of in *; congruence. }
  destruct (negb _); now apply IH.
Qed.

Lemma determine_status_bookkeeping (r : RemediationExecutor.Results)
    (calls : list Action) :
  bookkeeping (r, calls) -> bookkeeping (RemediationExecutor.determine_status r, calls).
Proof.
  unfold bookkeeping. cbn [fst snd].
  destruct (determine_status_lists r) as (-> & -> & ->). auto.
Qed.

(** X2.  Whatever [execute] returns, [failed_actions] holds exactly the
    returned action records whose [success] is false, in execution order --
    so it is always a sublist of the records in [immediate_actions] and
    [corrective_actions] -- and there is one record for each action that
    was executed. *)
Theorem X2_failed_actions_bookkeeping (tb : Tables) (now : Z) (incident_id : string)
    (plan : RemediationPlan) (approval_id : option string) :
  let out := RemediationExecutor.execute tb now incident_id plan approval_id in
  let o := fst (fst out) in
  RemediationExecutor.outcome_failed o = failed_of (RemediationExecutor.outcome_actions o)
  /\ (forall x, In x (RemediationExecutor.outcome_failed o) ->
        In x (RemediationExecutor.outcome_actions o)
        /\ RemediationExecutor.res_success x = false)
  /\ List.length (snd out) = List.length (RemediationExecutor.outcome_actions o).
Proof.
  cbv zeta.
  assert (H : bookkeeping
                (match fst (fst (RemediationExecutor.execute tb now incident_id plan
                                   approval_id)) with
                 | RemediationExecutor.Refused i _ _ _ => initial_results now i
                 | RemediationExecutor.Ran r => r
                 end,
                 snd (RemediationExecutor.execute tb now incident_id plan approval_id))
              /\ (forall i s m l,
                    fst (fst (RemediationExecutor.execute tb now incident_id plan
                                approval_id))
                    = RemediationExecutor.Refused i s m l -> l = [])).
  { unfold RemediationExecutor.execute. cbv zeta.
    destruct (match RemediationExecutor.approval_supplied approval_id with
              | Some id => negb (RemediationExecutor._verify_approval tb id)
              | None => false
              end).
    { cbn. split; [now split |]. intros i s m l E. now injection E as _ _ _ <-. }
    destruct (negb (RemediationExecutor.safe _)).
    { cbn. split; [now split |]. intros i s m l E. now injection E as _ _ _ <-. }
    assert (Hi := immediate_loop_bookkeeping (dict_get (immediate_actions plan) [])
                    (initial_results now incident_id, []) eq_refl
                    (conj eq_refl eq_refl)).
    fold (initial_results now incident_id).
    destruct (RemediationExecutor.immediate_loop _ _) as [st | [r calls]].
    - destruct Hi as [Hb _].
      assert (Hc := corrective_loop_bookkeeping (dict_get (corrective_actions plan) [])
                      st Hb).
      destruct (RemediationExecutor.corrective_loop _ st) as [r calls].
      apply determine_status_bookkeeping in Hc. cbn [fst snd].
      split; [| discriminate].
      destruct (String.eqb _ "success" || String.eqb _ "partial_success");
        [| exact Hc].
      unfold bookkeeping in *. cbn [fst snd] in *.
      destruct (RemediationExecutor.determine_status r); exact Hc.
    - cbn [fst snd]. split; [exact Hi | discriminate]. }
  destruct H as [[Hf Hl] Hr]. cbn [fst snd] in Hf, Hl.
  destruct (fst (fst (RemediationExecutor.execute tb now incident_id plan approval_id)))
    as [i s m l | r] eqn:E.
  - rewrite (Hr i s m l eq_refl). cbn. repeat split; try contradiction.
    cbn in Hl. exact Hl.
  - cbn [RemediationExecutor.outcome_failed RemediationExecutor.outcome_actions].
    split; [exact Hf |]. split; [| exact Hl].
    intros x Hx. rewrite Hf in Hx. unfold failed_of in Hx.
    apply List.filter_In in Hx. destruct Hx as [Hin Hs].
    split; [exact Hin |]. now apply negb_true_iff in Hs.
Qed.

Lemma executor_update_frame (tb : Tables) (now : Z) (incident_id : string)
    (r : RemediationExecutor.Results) :
  approval_queue_table (RemediationExecutor._update_incident tb now incident_id r)
  = approval_queue_table tb
  /\ remediation_log_table (RemediationExecutor._update_incident tb now incident_id r)
     = remediation_log_table tb
  /\ (forall other, other <> incident_id ->
        incidents_table (RemediationExecutor._update_incident tb now incident_id r)
        !! other = incidents_table tb !! other).
Proof.
  unfold RemediationExecutor._update_incident.
  destruct (incidents_table tb !! incident_id); [| now repeat split].
  cbn. repeat split. intros other Hne. now rewrite lookup_insert_ne.
Qed.

(** X3.  [execute] never writes the approval queue and never touches an
    incident other than the one it is called for, so an approval that let
    one call through lets the next one through as well.  A refused plan
    and a run stopped by a critical failure write nothing at all; a run
    that completes both phases appends exactly one log item, carrying the
    overall status and the numbers of executed and of failed actions. *)
Theorem X3_execute_writes (tb : Tables) (now : Z) (incident_id : string)
    (plan : RemediationPlan) (approval_id : option string) :
  let out := RemediationExecutor.execute tb now incident_id plan approval_id in
  let o := fst (fst out) in
  let tb' := snd (fst out) in
  approval_queue_table tb' = approval_queue_table tb
  /\ (gate_open tb approval_id -> gate_open tb' approval_id)
  /\ (forall other, other <> incident_id ->
        incidents_table tb' !! other = incidents_table tb !! other)
  /\ (tb' = tb
      \/ exists item,
           remediation_log_table tb' = remediation_log_table tb ++ [item]
           /\ log_incident_id item = incident_id
           /\ log_status item = RemediationExecutor.outcome_status o
           /\ log_actions_executed item
              = List.length (RemediationExecutor.outcome_actions o)
           /\ log_actions_failed item
              = List.length (RemediationExecutor.outcome_failed o))
  /\ ((exists i s m l, o = RemediationExecutor.Refused i s m l) -> tb' = tb)
  /\ ((forall x, In x (dict_get (immediate_actions plan) []) ->
         action_fails x && is_critical x = false) ->
      gate_open tb approval_id ->
      RemediationExecutor.safe (RemediationExecutor._pre_execution_safety_check plan)
      = true ->
      List.length (remediation_log_table tb')
      = S (List.length (remediation_log_table tb))).
Proof.
  cbv zeta.
  assert (Hmain :
            approval_queue_table
              (snd (fst (RemediationExecutor.execute tb now incident_id plan approval_id)))
            = approval_queue_table tb
            /\ (forall other, other <> incident_id ->
                  incidents_table
                    (snd (fst (RemediationExecutor.execute tb now incident_id plan
                                 approval_id))) !! other
                  = incidents_table tb !! other)
            /\ (snd (fst (RemediationExecutor.execute tb now incident_id plan approval_id))
                = tb
                \/ exists item,
                     remediation_log_table
                       (snd (fst (RemediationExecutor.execute tb now incident_id plan
                                    approval_id)))
                     = remediation_log_table tb ++ [item]
                     /\ log_incident_id item = incident_id
                     /\ log_status item
                        = RemediationExecutor.outcome_status
                            (fst (fst (RemediationExecutor.execute tb now incident_id plan
                                         approval_id)))
                     /\ log_actions_executed item
                        = List.length
                            (RemediationExecutor.outcome_actions
                               (fst (fst (RemediationExecutor.execute tb now incident_id
                                            plan approval_id))))
                     /\ log_actions_failed item
                        = List.length
                            (RemediationExecutor.outcome_failed
                               (fst (fst (RemediationExecutor.execute tb now incident_id
                                            plan approval_id)))))
            /\ ((exists i s m l,
                   fst (fst (RemediationExecutor.execute tb now incident_id plan
                               approval_id))
                   = RemediationExecutor.Refused i s m l) ->
                snd (fst (RemediationExecutor.execute tb now incident_id plan approval_id))
                = tb)).
  { unfold RemediationExecutor.execute. cbv zeta.
    destruct (match RemediationExecutor.approval_supplied approval_id with
              | Some id => negb (RemediationExecutor._verify_approval tb id)
              | None => false
              end); [cbn; auto |].
    destruct (negb (RemediationExecutor.safe _)); [cbn; auto |].
    destruct (RemediationExecutor.immediate_loop _ _) as [st | [r calls]].
    - destruct (RemediationExecutor.corrective_loop _ st) as [r calls].
      cbn [fst snd].
      set (R := RemediationExecutor.determine_status r).
      destruct (executor_update_frame
                  (RemediationExecutor._log_execution tb incident_id R) now incident_id R)
        as (Ha & Hl & Hi).
      split; [now rewrite Ha |]. split; [intros other Hne; now rewrite Hi |].
      split; [| intros (i & s & m & l & E); discriminate].
      right. eexists. split; [rewrite Hl; reflexivity |].
      clearbody R.
      destruct (String.eqb _ "success" || String.eqb _ "partial_success");
        unfold RemediationExecutor.with_verification; cbn;
        rewrite List.length_app; auto.
    - cbn. repeat split; auto. }
  destruct Hmain as (Ha & Hi & Hlog & Href).
  split; [exact Ha |]. split.
  { unfold gate_open. destruct (RemediationExecutor.approval_supplied approval_id);
      [| auto].
    unfold RemediationExecutor._verify_approval. now rewrite Ha. }
  split; [exact Hi |]. split; [exact Hlog |]. split; [exact Href |].
  intros Hnc Hgate Hsafe.
  destruct (execute_completed tb now incident_id plan approval_id Hgate Hsafe Hnc)
    as (r & He & _).
  rewrite He. cbn [fst snd].
  destruct (executor_update_frame
              (RemediationExecutor._log_execution tb incident_id
                 (RemediationExecutor.determine_status
                    (fold_left (record_action "corrective")
                       (dict_get (corrective_actions plan) [])
                       (fold_left (record_action "immediate")
                          (dict_get (immediate_actions plan) [])
                          (initial_results now incident_id)))))
              now incident_id
              (RemediationExecutor.determine_status
                 (fold_left (record_action "corrective")
                    (dict_get (corrective_actions plan) [])
                    (fold_left (record_action "immediate")
                       (dict_get (immediate_actions plan) [])
                       (initial_results now incident_id)))))
    as (_ & Hl & _).
  rewrite Hl. cbn. rewrite List.length_app. cbn. lia.
Qed.

Lemma X3_execute_writes_witness :
  List.length
    (remediation_log_table
       (snd (fst (RemediationExecutor.execute sample_tables 1700000000 "INC-1"
                    (plan_of [act_ok; act_bad] []) None))))
  = S (List.length (remediation_log_table sample_tables)).
Proof.
  refine (proj2 (proj2 (proj2 (proj2 (proj2
            (X3_execute_writes sample_tables 1700000000 "INC-1"
               (plan_of [act_ok; act_bad] []) None))))) _ I eq_refl).
  intros x [<- | [<- | []]]; reflexivity.
Defined.

(** X4.  The executor's [lambda_handler] answers 400 exactly when the
    event's incident id is missing or empty or its plan is missing or an
    empty dictionary; it then reports status ['error'], executes nothing
    and writes nothing.  Every other event is answered 200 with what
    [execute] returns. *)
Theorem X4_executor_handler_validation (tb : Tables) (now : Z)
    (event : ExecutorHandler.Event) :
  let out := ExecutorHandler.lambda_handler tb now event in
  (ExecutorHandler.statusCode (fst (fst out)) = 400
   <-> ExecutorHandler.str_truthy (ExecutorHandler.ev_incident_id event) = false
       \/ plan_truthy (ExecutorHandler.ev_remediation_plan event) = false)
  /\ (ExecutorHandler.statusCode (fst (fst out)) = 400 ->
      snd (fst out) = tb /\ snd out = []
      /\ exists i, ExecutorHandler.result (fst (fst out))
                   = ExecutorHandler.ErrorBody i "error"
                       "Missing incident_id or remediation_plan")
  /\ (ExecutorHandler.statusCode (fst (fst out)) <> 400 ->
      exists incident_id plan,
        ExecutorHandler.ev_incident_id event = Some incident_id
        /\ ExecutorHandler.ev_remediation_plan event = Some plan
        /\ ExecutorHandler.statusCode (fst (fst out)) = 200
        /\ ExecutorHandler.result (fst (fst out))
           = ExecutorHandler.OutcomeBody
               (fst (fst (RemediationExecutor.execute tb now incident_id plan
                            (ExecutorHandler.ev_approval_id event))))
        /\ snd (fst out)
           = snd (fst (RemediationExecutor.execute tb now incident_id plan
                         (ExecutorHandler.ev_approval_id event)))
        /\ snd out
           = snd (RemediationExecutor.execute tb now incident_id plan
                    (ExecutorHandler.ev_approval_id event))).
Proof.
  cbv zeta. unfold ExecutorHandler.lambda_handler.
  destruct event as [[i |] [p |] appr]; cbn [ExecutorHandler.ev_incident_id
    ExecutorHandler.ev_remediation_plan ExecutorHandler.ev_approval_id].
  - destruct (ExecutorHandler.str_truthy (Some i)) eqn:Ei;
      destruct (plan_truthy (Some p)) eqn:Ep; cbn [negb orb].
    + destruct (RemediationExecutor.execute tb now i p appr) as [[o tb'] calls] eqn:E.
      cbn. split; [split; [discriminate | intros [H | H]; discriminate] |].
      split; [discriminate |]. intros _. exists i, p. rewrite E. cbn. auto 10.
    + cbn. split; [split; auto |]. split; [eauto |]. intros H. now contradiction H.
    + cbn. split; [split; auto |]. split; [eauto |]. intros H. now contradiction H.
    + cbn. split; [split; auto |]. split; [eauto |]. intros H. now contradiction H.
  - destruct (ExecutorHandler.str_truthy (Some i)); cbn;
      (split; [split; auto |]); (split; [eauto |]); intros H; now contradiction H.
  - cbn. split; [split; auto |]. split; [eauto |]. intros H. now contradiction H.
  - cbn. split; [split; auto |]. split; [eauto |]. intros H. now contradiction H.
Qed.

Lemma X4_executor_handler_validation_witness :
  snd (fst (ExecutorHandler.lambda_handler sample_tables 1700000000
              (ExecutorHandler.mkEvent (Some "INC-1") (Some (mkPlan None None None []))
                 None)))
  = sample_tables
  /\ snd (ExecutorHandler.lambda_handler sample_tables 1700000000
            (ExecutorHandler.mkEvent (Some "INC-1") (Some (mkPlan None None None []))
               None)) = []
  /\ exists i,
       ExecutorHandler.result
         (fst (fst (ExecutorHandler.lambda_handler sample_tables 1700000000
                      (ExecutorHandler.mkEvent (Some "INC-1")
                         (Some (mkPlan None None None [])) None))))
       = ExecutorHandler.ErrorBody i "error" "Missing incident_id or remediation_plan".
Proof.
  apply (X4_executor_handler_validation sample_tables 1700000000
           (ExecutorHandler.mkEvent (Some "INC-1") (Some (mkPlan None None None [])) None)).
  reflexivity.
Defined.

(** X5.  A plan without any action that reaches execution is reported
    ['success']: nothing is executed, the log records zero actions, a
    verification with [verified] true is attached, and the incident is set
    to ['resolved']. *)
Theorem X5_empty_plan_succeeds (tb : Tables) (now : Z) (incident_id : string)
    (plan : RemediationPlan) (approval_id : option string) (inc : Incident) :
  all_actions plan = [] ->
  gate_open tb approval_id ->
  incidents_table tb !! incident_id = Some inc ->
  exists r tb',
    RemediationExecutor.execute tb now incident_id plan approval_id
    = (RemediationExecutor.Ran r, tb', [])
    /\ RemediationExecutor.status r = "success"
    /\ RemediationExecutor.immediate_actions_done r = []
    /\ RemediationExecutor.corrective_actions_done r = []
    /\ (exists v, RemediationExecutor.verification r = Some v
                  /\ RemediationExecutor.verified v = true)
    /\ inc_status <$> (incidents_table tb' !! incident_id) = Some "resolved".
Proof.
  intros Hall Hgate Hinc.
  assert (Hi : dict_get (immediate_actions plan) [] = []
               /\ dict_get (corrective_actions plan) [] = []).
  { unfold all_actions in Hall. now apply app_eq_nil in Hall. }
  destruct Hi as [Hi Hc].
  assert (Hsafe : RemediationExecutor.safe
                    (RemediationExecutor._pre_execution_safety_check plan) = true).
  { unfold RemediationExecutor._pre_execution_safety_check. now rewrite Hall. }
  rewrite (execute_started _ _ _ _ _ Hgate Hsafe), Hi, Hc. cbn.
  eexists _, _. split; [reflexivity |]. cbn.
  repeat split; [eauto |]. unfold RemediationExecutor._update_incident.
  cbn. rewrite Hinc. cbn. now rewrite lookup_insert_eq.
Qed.

Lemma X5_empty_plan_succeeds_witness :
  exists r tb',
    RemediationExecutor.execute sample_tables 1700000000 "INC-1"
      (mkPlan None None (Some ["Issue resolved"]) []) None
    = (RemediationExecutor.Ran r, tb', [])
    /\ RemediationExecutor.status r = "success"
    /\ RemediationExecutor.immediate_actions_done r = []
    /\ RemediationExecutor.corrective_actions_done r = []
    /\ (exists v, RemediationExecutor.verification r = Some v
                  /\ RemediationExecutor.verified v = true)
    /\ inc_status <$> (incidents_table tb' !! "INC-1") = Some "resolved".
Proof.
  apply (X5_empty_plan_succeeds sample_tables 1700000000 "INC-1"
           (mkPlan None None (Some ["Issue resolved"]) []) None
           (mkIncident 1699999000 "executing" (Some []) None));
    [reflexivity | exact I | reflexivity].
Defined.

(** ** Remediation agent: plan parsing and the approval round trip *)

Lemma fallback_plan_high :
  RemediationAgent._assess_risk RemediationAgentHandler.fallback_plan = "high".
Proof. reflexivity. Qed.

Lemma parse_plan_fallback (json_loads : string -> option RemediationPlan)
    (response : string) :
  RootCauseAgent.find "{"%char response = -1
  \/ RootCauseAgent.rfind "}"%char response = -1
  \/ json_loads (RootCauseAgent.slice response (RootCauseAgent.find "{"%char response)
                   (RootCauseAgent.rfind "}"%char response + 1)) = None ->
  RemediationAgentHandler._parse_plan json_loads response
  = RemediationAgentHandler.fallback_plan.
Proof.
  unfold RemediationAgentHandler._parse_plan. cbv zeta.
  intros [H | [H | H]]; rewrite H; try reflexivity.
  - cbn. now rewrite andb_false_r.
  - destruct (_ && _); reflexivity.
Qed.

(** X6.  When the model's reply has no brace pair or does not parse,
    [_parse_plan] falls back to a single high-risk irreversible action.
    The plan is therefore assessed ['high'] and [lambda_handler] queues it
    for approval: the answer is 200 with status ['pending_approval'],
    nothing is executed, no incident is written and the queue holds the
    pending approval with a 24-hour expiry. *)
Theorem X6_unparseable_plan_is_queued (text : string)
    (json_loads : string -> option RemediationPlan)
    (tb : Tables) (now : Z) (uuid8 : string) (incident_id : string)
    (items : list (string * RootCauseAgent.json)) :
  (RootCauseAgent.find "{"%char text = -1
   \/ RootCauseAgent.rfind "}"%char text = -1
   \/ json_loads (RootCauseAgent.slice text (RootCauseAgent.find "{"%char text)
                    (RootCauseAgent.rfind "}"%char text + 1)) = None) ->
  incident_id <> "" ->
  items <> [] ->
  RootCauseAgent.join_error (RootCauseAgent.items_lookup items "affected_services") = None ->
  exists tb',
    RemediationAgentHandler.lambda_handler (Some text) json_loads tb now uuid8
      (Some incident_id) (RootCauseAgent.JObj items)
    = (RemediationAgentHandler.mkResponse 200
         (RemediationAgentHandler.ResultBody
            (RemediationAgent.PendingApproval incident_id ("APPR-" +:+ uuid8) "high"
               RemediationAgentHandler.fallback_plan)),
       tb', [])
    /\ incidents_table tb' = incidents_table tb
    /\ approval_queue_table tb' !! ("APPR-" +:+ uuid8)
       = Some (pending_item now incident_id RemediationAgentHandler.fallback_plan "high").
Proof.
  intros Hparse Hid Hitems Hjoin. unfold RemediationAgentHandler.lambda_handler.
  destruct (String.eqb_spec incident_id ""); [contradiction |].
  assert (Ht : RootCauseAgent.json_truthy (RootCauseAgent.JObj items) = true)
    by (destruct items; [contradiction | reflexivity]).
  rewrite Ht. cbn [negb orb].
  unfold RemediationAgentHandler._generate_plan. rewrite Hjoin.
  unfold RemediationAgentHandler._call_bedrock.
  rewrite (parse_plan_fallback json_loads text Hparse).
  unfold RemediationAgent.remediate. cbv zeta. rewrite fallback_plan_high.
  cbn [String.eqb Ascii.eqb Bool.eqb orb andb].
  unfold RemediationAgent._queue_for_approval. cbv zeta.
  eexists. split; [reflexivity |]. split; [reflexivity |].
  cbn [set_approvals approval_queue_table]. now rewrite lookup_insert_eq.
Qed.

Lemma X6_unparseable_plan_is_queued_witness :
  exists tb',
    RemediationAgentHandler.lambda_handler (Some "I cannot produce a plan")
      loads_empty_object sample_tables 1700000000 "1A2B3C4D" (Some "INC-1") sample_incident
    = (RemediationAgentHandler.mkResponse 200
         (RemediationAgentHandler.ResultBody
            (RemediationAgent.PendingApproval "INC-1" ("APPR-" +:+ "1A2B3C4D") "high"
               RemediationAgentHandler.fallback_plan)),
       tb', [])
    /\ incidents_table tb' = incidents_table sample_tables
    /\ approval_queue_table tb' !! ("APPR-" +:+ "1A2B3C4D")
       = Some (pending_item 1700000000 "INC-1" RemediationAgentHandler.fallback_plan "high").
Proof.
  apply (X6_unparseable_plan_is_queued "I cannot produce a plan" loads_empty_object
           sample_tables 1700000000 "1A2B3C4D" "INC-1").
  - left. reflexivity.
  - discriminate.
  - discriminate.
  - reflexivity.
Defined.

(** X7.  When the call to the model itself fails, [_call_bedrock] returns
    the text of an empty object, which parses to a plan without actions.
    That plan is assessed ['low'] and auto-executed: nothing runs, the
    execution is reported ['completed'] with zero actions, no approval is
    queued, and an incident that has a timeline is set to ['resolved']. *)
Theorem X7_model_failure_resolves_incident
    (json_loads : string -> option RemediationPlan)
    (tb : Tables) (now : Z) (uuid8 : string) (incident_id : string)
    (items : list (string * RootCauseAgent.json)) (inc : Incident)
    (tl : list TimelineEvent) :
  json_loads "{}" = Some empty_plan ->
  incident_id <> "" ->
  items <> [] ->
  RootCauseAgent.join_error (RootCauseAgent.items_lookup items "affected_services") = None ->
  incidents_table tb !! incident_id = Some inc ->
  inc_timeline inc = Some tl ->
  exists tb',
    RemediationAgentHandler.lambda_handler None json_loads tb now uuid8
      (Some incident_id) (RootCauseAgent.JObj items)
    = (RemediationAgentHandler.mkResponse 200
         (RemediationAgentHandler.ResultBody
            (RemediationAgent.Executed incident_id "low" empty_plan
               (RemediationAgent.mkExecutionResult 0 [] "completed"))),
       tb', [])
    /\ approval_queue_table tb' = approval_queue_table tb
    /\ incidents_table tb' !! incident_id
       = Some (mkIncident (inc_created_at inc) "resolved"
                 (Some (tl ++ [mkEvent now "remediation_executed" "remediation_agent"]))
                 (inc_verification_result inc)).
Proof.
  intros Hloads Hid Hitems Hjoin Hinc Htl.
  unfold RemediationAgentHandler.lambda_handler.
  destruct (String.eqb_spec incident_id ""); [contradiction |].
  assert (Ht : RootCauseAgent.json_truthy (RootCauseAgent.JObj items) = true)
    by (destruct items; [contradiction | reflexivity]).
  rewrite Ht. cbn [negb orb].
  unfold RemediationAgentHandler._generate_plan. rewrite Hjoin.
  unfold RemediationAgentHandler._call_bedrock, RemediationAgentHandler._parse_plan.
  cbv zeta.
  change (RootCauseAgent.find "{"%char "{}") with 0.
  change (RootCauseAgent.rfind "}"%char "{}" + 1) with 2.
  change (RootCauseAgent.slice "{}" 0 2) with "{}".
  cbn [Z.eqb negb andb Z.ltb Z.compare]. rewrite Hloads.
  unfold RemediationAgent.remediate. cbv zeta.
  change (RemediationAgent._assess_risk empty_plan) with "low".
  cbn [String.eqb Ascii.eqb Bool.eqb orb andb].
  change (RemediationAgent._execute_plan empty_plan)
    with (RemediationAgent.mkExecutionResult 0 [] "completed", @nil Action).
  cbv iota beta.
  eexists. split; [reflexivity |].
  unfold RemediationAgent._update_incident. rewrite Hinc, Htl.
  cbn [RemediationAgent.status String.eqb Ascii.eqb Bool.eqb andb].
  cbn [set_incidents approval_queue_table incidents_table].
  split; [reflexivity |]. now rewrite lookup_insert_eq.
Qed.

Lemma X7_model_failure_resolves_incident_witness :
  exists tb',
    RemediationAgentHandler.lambda_handler None loads_empty_object sample_tables
      1700000000 "1A2B3C4D" (Some "INC-1") sample_incident
    = (RemediationAgentHandler.mkResponse 200
         (RemediationAgentHandler.ResultBody
            (RemediationAgent.Executed "INC-1" "low" empty_plan
               (RemediationAgent.mkExecutionResult 0 [] "completed"))),
       tb', [])
    /\ approval_queue_table tb' = approval_queue_table sample_tables
    /\ incidents_table tb' !! "INC-1"
       = Some (mkIncident 1699999000 "resolved"
                 (Some ([] ++ [mkEvent 1700000000 "remediation_executed"
                                 "remediation_agent"]))
                 None).
Proof.
  apply (X7_model_failure_resolves_incident loads_empty_object sample_tables 1700000000
           "1A2B3C4D" "INC-1" _ (mkIncident 1699999000 "executing" (Some []) None) []);
    try reflexivity; discriminate.
Defined.

(** ** The approval queue across its readers and writers *)


Lemma appr_id_nonempty (uuid8 : string) : "APPR-" +:+ uuid8 <> "".
Proof. discriminate. Qed.


(** X9.  The approval checker and the executor's own re-verification agree
    on every non-empty approval id: both accept exactly a stored approval
    whose status is ['approved'].  The checker answers 404 for an unknown
    id and 400 for a missing or empty one, never reporting approval
    there. *)
Theorem X9_checker_agrees_with_executor (tb : Tables) (approval_id : string) :
  approval_id <> "" ->
  ApprovalChecker.approved (ApprovalChecker.lambda_handler tb (Some approval_id))
  = RemediationExecutor._verify_approval tb approval_id
  /\ (ApprovalChecker.statusCode (ApprovalChecker.lambda_handler tb (Some approval_id)) = 404
      <-> approval_queue_table tb !! approval_id = None)
  /\ (ApprovalChecker.statusCode (ApprovalChecker.lambda_handler tb (Some approval_id)) = 200
      <-> exists a, approval_queue_table tb !! approval_id = Some a)
  /\ ApprovalChecker.lambda_handler tb (Some "") = ApprovalChecker.lambda_handler tb None
  /\ ApprovalChecker.statusCode (ApprovalChecker.lambda_handler tb None) = 400
  /\ ApprovalChecker.approved (ApprovalChecker.lambda_handler tb None) = false.
Proof.
  intros Hne. unfold ApprovalChecker.lambda_handler,
    RemediationExecutor._verify_approval.
  destruct (String.eqb_spec approval_id ""); [contradiction |].
  destruct (approval_queue_table tb !! approval_id) as [a |]; cbn;
    repeat split; try discriminate; eauto.
  intros (a & E). discriminate.
Qed.

Lemma X9_checker_agrees_with_executor_witness :
  ApprovalChecker.approved (ApprovalChecker.lambda_handler sample_tables (Some "APPR-1"))
  = RemediationExecutor._verify_approval sample_tables "APPR-1".
Proof.
  apply (X9_checker_agrees_with_executor sample_tables "APPR-1"). discriminate.
Defined.

(** X10.  The API handler's [update_approval] does not test the stored
    status: on any stored approval, decided or not, a request with status
    ['approved'] or ['rejected'] overwrites the status and the comments and
    leaves approver and decision time as they were.  In particular an
    approval that [process_approval] will no longer change can still be
    turned into an approved one, which the executor then accepts. *)
Theorem X10_api_update_overwrites_decision (tb : Tables) (now : Z)
    (approval_id : string) (old : Approval) (status : string)
    (comments : option string) :
  approval_queue_table tb !! approval_id = Some old ->
  status = "approved" \/ status = "rejected" ->
  exists tb' stored,
    ApiHandler.update_approval tb now approval_id (Some status) comments
    = (ApiHandler.Updated ("Approval " +:+ status) approval_id, tb')
    /\ approval_queue_table tb' !! approval_id = Some stored
    /\ apr_status stored = Some status
    /\ apr_comments stored = Some (dict_get comments "")
    /\ apr_approver stored = apr_approver old
    /\ apr_approved_at stored = apr_approved_at old
    /\ apr_plan stored = apr_plan old
    /\ incidents_table tb' = incidents_table tb
    /\ (RemediationExecutor._verify_approval tb' approval_id = true
        <-> status = "approved")
    /\ (dict_get (apr_status old) "pending" <> "pending" ->
        forall now' approver c,
          snd (ApprovalProcessor.process_approval tb now' approval_id "approve" approver c)
          = tb).
Proof.
  intros Hl Hs.
  assert (Hlast : dict_get (apr_status old) "pending" <> "pending" ->
                  forall now' approver c,
                    snd (ApprovalProcessor.process_approval tb now' approval_id "approve"
                           approver c) = tb).
  { intros Hdec now' approver c.
    now rewrite (process_already_processed tb now' approval_id "approve" approver c old
                   (or_introl eq_refl) Hl Hdec). }
  unfold ApiHandler.update_approval.
  assert (Hb : String.eqb status "approved" || String.eqb status "rejected" = true)
    by (destruct Hs as [-> | ->]; reflexivity).
  rewrite Hb, Hl. eexists _, _. split; [reflexivity |].
  split; [cbn [set_approvals approval_queue_table]; apply lookup_insert_eq |].
  cbn [apr_status apr_comments apr_approver apr_approved_at apr_plan set_approvals
       incidents_table].
  repeat (split; [reflexivity |]). split; [| exact Hlast].
  unfold RemediationExecutor._verify_approval.
  cbn [set_approvals approval_queue_table]. rewrite lookup_insert_eq.
  cbn [apr_status dict_get].
  destruct Hs as [-> | ->]; split; try reflexivity; discriminate.
Qed.

Lemma X10_api_update_overwrites_decision_witness :
  exists tb' stored,
    ApiHandler.update_approval rejected_tables 1700000200 "APPR-1" (Some "approved") None
    = (ApiHandler.Updated ("Approval " +:+ "approved") "APPR-1", tb')
    /\ approval_queue_table tb' !! "APPR-1" = Some stored
    /\ apr_status stored = Some "approved"
    /\ RemediationExecutor._verify_approval tb' "APPR-1" = true.
Proof.
  destruct (X10_api_update_overwrites_decision rejected_tables 1700000200 "APPR-1"
              (mkApproval 1699999500 (Some "INC-1") (Some "rejected") (Some "high")
                 (Some (plan_of [act_danger] [])) (Some "remediation-agent")
                 (Some 1700085900) (Some "ops") (Some 1700000100) None)
              "approved" None eq_refl (or_introl eq_refl))
    as (tb' & stored & He & Hl & Hs & _ & _ & _ & _ & _ & Hv & _).
  exists tb', stored. repeat (split; [assumption |]). now apply Hv.
Defined.

(** X11.  A valid decision on a pending approval rewrites that approval
    only: status, approver and decision time are set, comments are replaced
    when non-empty comments are given, and plan, incident, risk level,
    creation time and expiry are kept.  Other approvals and the execution
    log are untouched.  The approval's incident, when stored, gains exactly
    one timeline event named after the decision, with the approver as
    actor, and keeps its status. *)
Theorem X11_decision_effects (tb : Tables) (now : Z)
    (approval_id action approver : string) (comments : option string) (old : Approval) :
  action = "approve" \/ action = "reject" ->
  approval_queue_table tb !! approval_id = Some old ->
  dict_get (apr_status old) "pending" = "pending" ->
  let out := ApprovalProcessor.process_approval tb now approval_id action approver
               comments in
  ApprovalProcessor.success (fst out) = true
  /\ approval_queue_table (snd out)
     = <[approval_id := decided_item old (decided_status action) approver now comments]>
         (approval_queue_table tb)
  /\ (forall other, other <> approval_id ->
        approval_queue_table (snd out) !! other = approval_queue_table tb !! other)
  /\ remediation_log_table (snd out) = remediation_log_table tb
  /\ (forall id inc,
        apr_incident_id old = Some id ->
        incidents_table tb !! id = Some inc ->
        incidents_table (snd out) !! id
        = Some (mkIncident (inc_created_at inc) (inc_status inc)
                  (Some (dict_get (inc_timeline inc) []
                         ++ [mkEvent now ("approval_" +:+ decided_status action) approver]))
                  (inc_verification_result inc)))
  /\ (forall id, apr_incident_id old <> Some id ->
        incidents_table (snd out) !! id = incidents_table tb !! id).
Proof.
  intros Hact Hl Hst. cbv zeta. unfold ApprovalProcessor.process_approval.
  rewrite (valid_action_passes _ Hact). unfold ApprovalProcessor._get_approval.
  rewrite Hl. cbv zeta. rewrite Hst. cbn [String.eqb Ascii.eqb Bool.eqb andb negb].
  unfold ApprovalProcessor._update_approval_status, ApprovalProcessor._get_approval,
    ApprovalProcessor._get_created_at, ApprovalProcessor._get_approval.
  cbv zeta. rewrite Hl. cbn [negb].
  fold (decided_status action).
  fold (decided_item old (decided_status action) approver now comments).
  set (tb1 := set_approvals tb _).
  assert (Hframe :
            approval_queue_table
              (ApprovalProcessor._update_incident_timeline tb1 now (apr_incident_id old)
                 approval_id (decided_status action) approver)
            = approval_queue_table tb1
            /\ remediation_log_table
                 (ApprovalProcessor._update_incident_timeline tb1 now (apr_incident_id old)
                    approval_id (decided_status action) approver)
               = remediation_log_table tb
            /\ (forall id inc,
                  apr_incident_id old = Some id ->
                  incidents_table tb !! id = Some inc ->
                  incidents_table
                    (ApprovalProcessor._update_incident_timeline tb1 now
                       (apr_incident_id old) approval_id (decided_status action) approver)
                  !! id
                  = Some (mkIncident (inc_created_at inc) (inc_status inc)
                            (Some (dict_get (inc_timeline inc) []
                                   ++ [mkEvent now ("approval_" +:+ decided_status action)
                                         approver]))
                            (inc_verification_result inc)))
            /\ (forall id, apr_incident_id old <> Some id ->
                  incidents_table
                    (ApprovalProcessor._update_incident_timeline tb1 now
                       (apr_incident_id old) approval_id (decided_status action) approver)
                  !! id = incidents_table tb !! id)).
  { unfold ApprovalProcessor._update_incident_timeline.
    destruct (apr_incident_id old) as [iid |].
    - change (incidents_table tb1) with (incidents_table tb).
      destruct (incidents_table tb !! iid) as [i0 |] eqn:Ei.
      + cbn [set_incidents approval_queue_table remediation_log_table incidents_table].
        repeat split.
        * intros id inc E Hi. injection E as <-. rewrite Ei in Hi. injection Hi as <-.
          apply lookup_insert_eq.
        * intros id Hne. apply lookup_insert_ne. congruence.
      + repeat split. intros id inc E Hi. injection E as <-. congruence.
    - repeat split. intros id inc E. discriminate. }
  destruct Hframe as (Ha & Hlog & Hinc & Hother).
  destruct (String.eqb action "approve"); cbn [fst snd ApprovalProcessor.success];
    (split; [reflexivity |]); rewrite Ha;
    (split; [reflexivity |]);
    (split; [intros other Hne; unfold tb1; cbn [set_approvals approval_queue_table];
             now apply lookup_insert_ne |]);
    auto.
Qed.

Lemma X11_decision_effects_witness :
  approval_queue_table
    (snd (ApprovalProcessor.process_approval sample_tables 1700000100 "APPR-1" "reject"
            "ops" None))
  = <["APPR-1" :=
        decided_item
          (mkApproval 1699999500 (Some "INC-1") (Some "pending") (Some "high")
             (Some (plan_of [act_danger] [])) (Some "remediation-agent")
             (Some 1700085900) None None None)
          (decided_status "reject") "ops" 1700000100 None]>
      (approval_queue_table sample_tables).
Proof.
  apply (X11_decision_effects sample_tables 1700000100 "APPR-1" "reject" "ops" None
           (mkApproval 1699999500 (Some "INC-1") (Some "pending") (Some "high")
              (Some (plan_of [act_danger] [])) (Some "remediation-agent")
              (Some 1700085900) None None None));
    [right; reflexivity | reflexivity | reflexivity].
Defined.

Lemma process_approval_outcomes (tb : Tables) (now : Z)
    (approval_id action approver : string) (comments : option string) :
  let out := ApprovalProcessor.process_approval tb now approval_id action approver
               comments in
  (ApprovalProcessor.success (fst out) = true
   <-> (action = "approve" \/ action = "reject")
       /\ exists a, approval_queue_table tb !! approval_id = Some a
                    /\ dict_get (apr_status a) "pending" = "pending")
  /\ (ApprovalProcessor.success (fst out) = false -> snd out = tb).
Proof.
  cbv zeta.
  destruct (String.eqb_spec action "approve") as [Ea | Ea];
    [| destruct (String.eqb_spec action "reject") as [Er | Er]].
  - destruct (approval_queue_table tb !! approval_id) as [a |] eqn:El.
    + destruct (String.eqb_spec (dict_get (apr_status a) "pending") "pending") as [Ep | Ep].
      * destruct (process_pending tb now approval_id action approver comments a
                    (or_introl Ea) El Ep) as (r & tb1 & d & E & Hs & _).
        rewrite E. cbn [fst snd]. rewrite Hs. split; [| discriminate].
        split; [intros _; split; [now left | eauto] | reflexivity].
      * rewrite (process_already_processed tb now approval_id action approver comments a
                   (or_introl Ea) El Ep). cbn. split; [| reflexivity].
        split; [discriminate |]. intros (_ & a' & E & Hp). congruence.
    + unfold ApprovalProcessor.process_approval.
      rewrite (valid_action_passes _ (or_introl Ea)).
      unfold ApprovalProcessor._get_approval. rewrite El. cbn.
      split; [| reflexivity]. split; [discriminate |]. intros (_ & a' & E & _). discriminate.
  - destruct (approval_queue_table tb !! approval_id) as [a |] eqn:El.
    + destruct (String.eqb_spec (dict_get (apr_status a) "pending") "pending") as [Ep | Ep].
      * destruct (process_pending tb now approval_id action approver comments a
                    (or_intror Er) El Ep) as (r & tb1 & d & E & Hs & _).
        rewrite E. cbn [fst snd]. rewrite Hs. split; [| discriminate].
        split; [intros _; split; [now right | eauto] | reflexivity].
      * rewrite (process_already_processed tb now approval_id action approver comments a
                   (or_intror Er) El Ep). cbn. split; [| reflexivity].
        split; [discriminate |]. intros (_ & a' & E & Hp). congruence.
    + unfold ApprovalProcessor.process_approval.
      rewrite (valid_action_passes _ (or_intror Er)).
      unfold ApprovalProcessor._get_approval. rewrite El. cbn.
      split; [| reflexivity]. split; [discriminate |]. intros (_ & a' & E & _). discriminate.
  - unfold ApprovalProcessor.process_approval.
    destruct (String.eqb_spec action "approve"); [contradiction |].
    destruct (String.eqb_spec action "reject"); [contradiction |].
    cbn. split; [| reflexivity]. split; [discriminate |]. intros ([H | H] & _); contradiction.
Qed.

(** X12.  The direct ['process'] entry point answers 200 exactly when the
    event carries a non-empty approval id and a decision that is
    ['approve'] or ['reject'] and the approval is stored and still pending.
    In every other case -- a field missing or empty, another decision
    word, an unknown id, an approval already decided -- it answers 400 and
    writes nothing. *)
Theorem X12_direct_process_status
    (scan : Tables -> pyval -> list (string * Approval) + string)
    (tb : Tables) (now : Z) (approval_id decision approver comments : option string)
    (limit : option pyval) :
  let event := ApprovalApi.mkDirectEvent (Some "process") approval_id decision approver
                 comments limit in
  let out := ApprovalApi.handle_direct scan tb now event in
  (ApprovalApi.statusCode (fst out) = 200
   <-> exists id d a,
         approval_id = Some id /\ id <> ""
         /\ decision = Some d /\ (d = "approve" \/ d = "reject")
         /\ approval_queue_table tb !! id = Some a
         /\ dict_get (apr_status a) "pending" = "pending")
  /\ (ApprovalApi.statusCode (fst out) <> 200 ->
      ApprovalApi.statusCode (fst out) = 400 /\ snd out = tb).
Proof.
  cbv zeta. unfold ApprovalApi.handle_direct.
  cbn [ApprovalApi.ev_action ApprovalApi.ev_approval_id ApprovalApi.ev_decision
       ApprovalApi.ev_approver ApprovalApi.ev_comments].
  destruct approval_id as [id |]; cbn [ExecutorHandler.str_truthy negb orb].
  2:{ cbn. split; [split; [discriminate | intros (i & d & a & E & _); discriminate] |].
      auto. }
  destruct (String.eqb_spec id "") as [-> | Hid]; cbn [negb orb].
  { cbn. split; [split; [discriminate | intros (i & d & a & E & Hn & _)] |]; auto.
    injection E as <-. now contradiction Hn. }
  destruct decision as [d |]; cbn [ExecutorHandler.str_truthy negb orb].
  2:{ cbn. split; [split; [discriminate | intros (i & d & a & _ & _ & E & _); discriminate] |].
      auto. }
  destruct (String.eqb_spec d "") as [-> | Hd]; cbn [negb].
  { cbn. split; [split; [discriminate |] |]; auto.
    intros (i & d & a & _ & _ & E & [H | H] & _); injection E as <-; discriminate. }
  cbn [dict_get].
  destruct (process_approval_outcomes tb now id d (dict_get approver "unknown") comments)
    as [Hiff Hfail].
  destruct (ApprovalProcessor.process_approval tb now id d (dict_get approver "unknown")
              comments) as [r tb'] eqn:E.
  cbn [fst snd] in *.
  destruct (ApprovalProcessor.success r) eqn:Es.
  - split; [| intros H; now contradiction H].
    split; [intros _ | reflexivity].
    destruct (proj1 Hiff eq_refl) as (Hact & a & Hl & Hp).
    exists id, d, a. auto 10.
  - split.
    + split; [discriminate |]. intros (i & d' & a & Ei & _ & Ed & Hact & Hl & Hp).
      injection Ei as <-. injection Ed as <-.
      assert (false = true) by (apply Hiff; eauto). discriminate.
    + intros _. split; [reflexivity | now apply Hfail].
Qed.



(** ** Writers of the incident table *)

(** X14.  The executor, the approval processor, the root-cause agent and
    the remediation agent each append exactly one event to the timeline of
    a stored incident, keeping the earlier events in order and the creation
    time; none of them creates an incident that is not stored.  The
    approval processor and the root-cause agent keep the status.  The
    remediation agent, whose update has no [if_not_exists], writes nothing
    when the item has no timeline attribute.  The resolution verifier
    stores nothing at all: its update is refused for the float it carries,
    and a verification run returns the tables as it found them. *)
Theorem X14_timeline_append_only (tb : Tables) (now : Z) (id : string) :
  (forall r,
     match incidents_table tb !! id with
     | Some inc =>
         exists inc',
           incidents_table (RemediationExecutor._update_incident tb now id r) !! id
           = Some inc' /\ appended_one inc inc'
     | None => RemediationExecutor._update_incident tb now id r = tb
     end)
  /\ (forall v incident_data remediation_plan,
        ResolutionVerifier._update_incident tb now id v = tb
        /\ snd (ResolutionVerifier.verify_resolution tb now id incident_data
                  remediation_plan) = tb)
  /\ (forall approval_id status approver,
        match incidents_table tb !! id with
        | Some inc =>
            exists inc',
              incidents_table
                (ApprovalProcessor._update_incident_timeline tb now (Some id) approval_id
                   status approver) !! id = Some inc'
              /\ appended_one inc inc' /\ inc_status inc' = inc_status inc
        | None =>
            ApprovalProcessor._update_incident_timeline tb now (Some id) approval_id
              status approver = tb
        end)
  /\ match incidents_table tb !! id with
     | Some inc =>
         exists inc',
           incidents_table
             (RootCauseAgent._update_incident tb now (RootCauseAgent.JStr id)) !! id
           = Some inc'
           /\ appended_one inc inc' /\ inc_status inc' = inc_status inc
     | None => RootCauseAgent._update_incident tb now (RootCauseAgent.JStr id) = tb
     end
  /\ (forall er,
        match incidents_table tb !! id with
        | Some inc =>
            match inc_timeline inc with
            | Some _ =>
                exists inc',
                  incidents_table (RemediationAgent._update_incident tb now id er) !! id
                  = Some inc' /\ appended_one inc inc'
            | None => RemediationAgent._update_incident tb now id er = tb
            end
        | None => RemediationAgent._update_incident tb now id er = tb
        end).
Proof.
  unfold appended_one.
  split; [| split; [| split; [| split]]].
  - intros r. unfold RemediationExecutor._update_incident.
    destruct (incidents_table tb !! id) as [inc |]; [| reflexivity].
    cbn [set_incidents incidents_table]. rewrite lookup_insert_eq.
    eexists. split; [reflexivity |]. cbn. eauto.
  - intros v incident_data remediation_plan.
    assert (H : forall v', ResolutionVerifier._update_incident tb now id v' = tb).
    { intros v'. unfold ResolutionVerifier._update_incident.
      now destruct (incidents_table tb !! id). }
    split; [apply H |]. unfold ResolutionVerifier.verify_resolution. cbv zeta.
    cbn [snd]. apply H.
  - intros approval_id status approver.
    unfold ApprovalProcessor._update_incident_timeline.
    destruct (incidents_table tb !! id) as [inc |]; [| reflexivity].
    cbn [set_incidents incidents_table]. rewrite lookup_insert_eq.
    eexists. split; [reflexivity |]. cbn. eauto.
  - unfold RootCauseAgent._update_incident.
    destruct (incidents_table tb !! id) as [inc |]; [| reflexivity].
    cbn [set_incidents incidents_table]. rewrite lookup_insert_eq.
    eexists. split; [reflexivity |]. cbn. eauto.
  - intros er. unfold RemediationAgent._update_incident.
    destruct (incidents_table tb !! id) as [inc |]; [| reflexivity].
    destruct (inc_timeline inc) as [tl |] eqn:E; [| reflexivity].
    cbn [set_incidents incidents_table]. rewrite lookup_insert_eq.
    eexists. split; [reflexivity |]. cbn. eauto.
Qed.

(** ** Verification with the simulated checks *)







(** * Further properties: the root-cause agent *)

(** ** The text handed to [json.loads] *)

Lemma string_app_nil (t : string) : "" +:+ t = t.
Proof. reflexivity. Qed.

Lemma string_app_cons (d : ascii) (s t : string) :
  String d s +:+ t = String d (s +:+ t).
Proof. reflexivity. Qed.

Ltac push_app := rewrite ?string_app_cons, ?string_app_nil.

Lemma find_from_none (c : ascii) (s : string) (i : Z) :
  occurs c s = false -> RootCauseAgent.find_from c s i = -1.
Proof.
  revert i. induction s as [| d s IH]; intros i H; cbn in *; [reflexivity |].
  apply orb_false_iff in H. destruct H as [Hd Hs]. rewrite Hd. now apply IH.
Qed.

Lemma find_from_split (c : ascii) (pre post : string) (i : Z) :
  occurs c pre = false ->
  RootCauseAgent.find_from c (pre +:+ String c post) i
  = i + Z.of_nat (String.length pre).
Proof.
  revert i. induction pre as [| d pre IH]; intros i H;
    push_app; cbn [RootCauseAgent.find_from String.length occurs] in *.
  - rewrite Ascii.eqb_refl. lia.
  - apply orb_false_iff in H. destruct H as [Hd Hs]. rewrite Hd.
    rewrite IH by assumption. lia.
Qed.

Lemma rfind_from_none (c : ascii) (s : string) (i last : Z) :
  occurs c s = false -> RootCauseAgent.rfind_from c s i last = last.
Proof.
  revert i last. induction s as [| d s IH]; intros i last H; cbn in *; [reflexivity |].
  apply orb_false_iff in H. destruct H as [Hd Hs]. rewrite Hd. now apply IH.
Qed.

Lemma rfind_from_split (c : ascii) (pre post : string) (i last : Z) :
  occurs c post = false ->
  RootCauseAgent.rfind_from c (pre +:+ String c post) i last
  = i + Z.of_nat (String.length pre).
Proof.
  intros H. revert i last. induction pre as [| d pre IH]; intros i last;
    push_app; cbn [RootCauseAgent.rfind_from String.length].
  - rewrite Ascii.eqb_refl, rfind_from_none by assumption. lia.
  - rewrite IH. lia.
Qed.

Lemma rfind_from_app_none (c : ascii) (s rest : string) (i last : Z) :
  occurs c rest = false ->
  RootCauseAgent.rfind_from c (s +:+ rest) i last = RootCauseAgent.rfind_from c s i last.
Proof.
  intros H. revert i last. induction s as [| d s IH]; intros i last; push_app.
  - now apply rfind_from_none.
  - cbn [RootCauseAgent.rfind_from]. apply IH.
Qed.

Lemma rfind_from_bounds (c : ascii) (s : string) (i last : Z) :
  occurs c s = true ->
  i <= RootCauseAgent.rfind_from c s i last < i + Z.of_nat (String.length s).
Proof.
  revert i last. induction s as [| d s IH]; intros i last H; cbn in H; [discriminate |].
  cbn [RootCauseAgent.rfind_from String.length].
  destruct (occurs c s) eqn:Hs.
  - specialize (IH (i + 1) (if Ascii.eqb d c then i else last) eq_refl). lia.
  - rewrite orb_false_r in H. rewrite H, rfind_from_none by assumption. lia.
Qed.

Lemma occurs_app (c : ascii) (s t : string) :
  occurs c (s +:+ t) = occurs c s || occurs c t.
Proof.
  induction s as [| d s IH]; push_app; cbn [occurs]; [reflexivity |].
  now rewrite IH, orb_assoc.
Qed.

Lemma string_app_assoc (s t u : string) : (s +:+ t) +:+ u = s +:+ (t +:+ u).
Proof. induction s as [| d s IH]; push_app; [reflexivity |]. now rewrite IH. Qed.

Lemma string_length_app (s t : string) :
  String.length (s +:+ t) = (String.length s + String.length t)%nat.
Proof.
  induction s as [| d s IH]; push_app; cbn [String.length Nat.add]; [reflexivity |].
  now rewrite IH.
Qed.

Lemma substring_skip (pre rest : string) (n : nat) :
  String.substring (String.length pre) n (pre +:+ rest) = String.substring 0 n rest.
Proof.
  induction pre as [| d pre IH]; push_app; cbn [String.length String.substring];
    [reflexivity | exact IH].
Qed.

Lemma substring_prefix (s rest : string) :
  String.substring 0 (String.length s) (s +:+ rest) = s.
Proof.
  induction s as [| d s IH]; push_app; cbn [String.length String.substring].
  - now destruct rest.
  - now rewrite IH.
Qed.

(** The guard of the parsers fails exactly on a text without an opening or
    without a closing brace. *)
Lemma parse_object_guard (response : string) :
  negb (Z.eqb (RootCauseAgent.find "{" response) (-1))
  && (0 <? RootCauseAgent.rfind "}" response + 1)
  = occurs "{" response && occurs "}" response.
Proof.
  unfold RootCauseAgent.find, RootCauseAgent.rfind.
  assert (Hf : negb (Z.eqb (RootCauseAgent.find_from "{" response 0) (-1))
               = occurs "{" response).
  { destruct (occurs "{" response) eqn:H.
    - assert (exists pre post, response = pre +:+ String "{" post
                               /\ occurs "{" pre = false) as (pre & post & -> & Hp).
      { clear -H. induction response as [| d s IH]; cbn in H; [discriminate |].
        destruct (Ascii.eqb d "{") eqn:Hd.
        - apply Ascii.eqb_eq in Hd. subst d. now exists "", s.
        - destruct (IH H) as (pre & post & -> & Hp).
          exists (String d pre), post. push_app. cbn [occurs]. now rewrite Hd, Hp. }
      rewrite find_from_split by assumption.
      destruct (Z.eqb_spec (0 + Z.of_nat (String.length pre)) (-1)); [lia | reflexivity].
    - now rewrite find_from_none. }
  rewrite Hf. f_equal.
  destruct (occurs "}" response) eqn:H.
  - pose proof (rfind_from_bounds "}" response 0 (-1) H). apply Z.ltb_lt. lia.
  - now rewrite rfind_from_none.
Qed.

(** X16.  [_parse_action] and [_parse_report] hand [json.loads] the text
    from the first opening brace to the last closing brace of the reply,
    both included.  A reply without an opening or without a closing brace
    is never parsed: the fallback is returned.  When the last closing brace
    comes before the first opening brace the text handed over is empty. *)
Theorem X16_parsed_text_is_brace_span
    (json_loads : string -> option (list (string * RootCauseAgent.json)))
    (response : string) :
  (occurs "{" response && occurs "}" response = false ->
   RootCauseAgent.parse_object json_loads response = None
   /\ RootCauseAgent._parse_action json_loads response = RootCauseAgent.fallback_action
   /\ RootCauseAgent._parse_report json_loads response = RootCauseAgent.fallback_report)
  /\ (forall pre mid post,
        response = pre +:+ "{" +:+ mid +:+ "}" +:+ post ->
        occurs "{" pre = false -> occurs "}" post = false ->
        RootCauseAgent.parse_object json_loads response
        = json_loads ("{" +:+ mid +:+ "}"))
  /\ (forall pre post,
        response = pre +:+ "{" +:+ post ->
        occurs "{" pre = false -> occurs "}" pre = true -> occurs "}" post = false ->
        RootCauseAgent.parse_object json_loads response = json_loads "").
Proof.
  split; [| split].
  - intros H.
    assert (Hp : RootCauseAgent.parse_object json_loads response = None).
    { unfold RootCauseAgent.parse_object. cbv zeta.
      now rewrite parse_object_guard, H. }
    unfold RootCauseAgent._parse_action, RootCauseAgent._parse_report.
    now rewrite Hp.
  - intros pre mid post -> Hpre Hpost.
    unfold RootCauseAgent.parse_object. cbv zeta.
    rewrite parse_object_guard.
    unfold RootCauseAgent.find, RootCauseAgent.rfind.
    change ("{" +:+ mid +:+ "}" +:+ post) with (String "{" (mid +:+ String "}" post)).
    change ("{" +:+ mid +:+ "}") with (String "{" (mid +:+ String "}" "")).
    rewrite find_from_split by assumption.
    assert (Hr : RootCauseAgent.rfind_from "}"
                   (pre +:+ String "{" (mid +:+ String "}" post)) 0 (-1)
                 = 0 + Z.of_nat (String.length (pre +:+ String "{" mid))).
    { rewrite <- (rfind_from_split "}" (pre +:+ String "{" mid) post 0 (-1))
        by assumption.
      now rewrite string_app_assoc. }
    rewrite Hr.
    rewrite !occurs_app. cbn [occurs]. rewrite !occurs_app. cbn [occurs].
    rewrite Ascii.eqb_refl, !orb_true_r. cbn [andb orb].
    rewrite string_length_app. cbn [String.length].
    unfold RootCauseAgent.slice.
    destruct (Z.ltb_spec (0 + Z.of_nat (String.length pre))
                (0 + Z.of_nat (String.length pre + S (String.length mid)) + 1));
      [| lia].
    f_equal.
    replace (Z.to_nat (0 + Z.of_nat (String.length pre))) with (String.length pre) by lia.
    replace (Z.to_nat _)
      with (String.length (String "{" (mid +:+ String "}" "")))
      by (cbn [String.length]; rewrite string_length_app; cbn [String.length]; lia).
    rewrite substring_skip.
    replace (String "{" (mid +:+ String "}" post))
      with (String "{" (mid +:+ String "}" "") +:+ post)
      by (push_app; now rewrite string_app_assoc).
    apply substring_prefix.
  - intros pre post -> Hpre Hclose Hpost.
    unfold RootCauseAgent.parse_object. cbv zeta.
    rewrite parse_object_guard.
    unfold RootCauseAgent.find, RootCauseAgent.rfind.
    change ("{" +:+ post) with (String "{" post).
    rewrite find_from_split by assumption.
    rewrite rfind_from_app_none by (cbn [occurs]; now rewrite Hpost).
    rewrite !occurs_app. cbn [occurs]. rewrite Ascii.eqb_refl, Hclose, orb_true_r.
    cbn [andb orb].
    pose proof (rfind_from_bounds "}" pre 0 (-1) Hclose) as Hb.
    unfold RootCauseAgent.slice.
    destruct (Z.ltb_spec (0 + Z.of_nat (String.length pre))
                (RootCauseAgent.rfind_from "}" pre 0 (-1) + 1)); [lia | reflexivity].
Qed.

Lemma X16_parsed_text_is_brace_span_witness :
  RootCauseAgent.parse_object loads_conclude "Decision: {conclude} as the logs show"
  = Some conclude_action
  /\ RootCauseAgent.parse_object loads_conclude "done } then { open" = None
  /\ RootCauseAgent._parse_action loads_conclude "no braces here"
     = RootCauseAgent.fallback_action.
Proof.
  split; [| split].
  - exact (proj1 (proj2 (X16_parsed_text_is_brace_span loads_conclude
                           "Decision: {conclude} as the logs show"))
             "Decision: " "conclude" " as the logs show" eq_refl eq_refl eq_refl).
  - exact (proj2 (proj2 (X16_parsed_text_is_brace_span loads_conclude
                           "done } then { open"))
             "done } then " " open" eq_refl eq_refl eq_refl eq_refl).
  - exact (proj1 (proj2 (proj1 (X16_parsed_text_is_brace_span loads_conclude
                                  "no braces here") eq_refl))).
Defined.

(** ** Invariants of the investigation loop *)

Section LoopInvariants.

Variable reasoner : nat -> option string.
Variable json_loads : string -> option (list (string * RootCauseAgent.json)).
Variable invoke_tool :
  nat -> string -> RootCauseAgent.json -> (RootCauseAgent.json * string) + string.

Local Abbreviation body := (RootCauseAgent.loop_body reasoner json_loads invoke_tool).
Local Abbreviation loop := (RootCauseAgent.while_loop reasoner json_loads invoke_tool).

(** A property the body keeps while the guard holds is kept by the loop. *)
Lemma while_loop_invariant (P : RootCauseAgent.LoopState -> Prop)
    (agent : RootCauseAgent.Agent) :
  (forall st, RootCauseAgent.loop_guard agent st = true -> P st -> P (body st)) ->
  forall fuel st, P st -> P (loop agent fuel st).
Proof.
  intros Hstep fuel. induction fuel as [| fuel IH]; intros st H;
    cbn [RootCauseAgent.while_loop]; [exact H |].
  destruct (RootCauseAgent.loop_guard agent st) eqn:G; [| exact H].
  apply IH. now apply Hstep.
Qed.

Lemma last_result_snoc (tool : string) (l : list RootCauseAgent.LogEntry)
    (e : RootCauseAgent.LogEntry) :
  last_result tool (l ++ [e])
  = match result_for tool e with
    | Some d => Some d
    | None => last_result tool l
    end.
Proof. unfold last_result. now rewrite fold_left_app. Qed.

Lemma update_context_lookup (ctx : RootCauseAgent.Context)
    (o : RootCauseAgent.Observation) (tool : string) :
  RootCauseAgent.ctx_incident (RootCauseAgent._update_context ctx o)
  = RootCauseAgent.ctx_incident ctx
  /\ RootCauseAgent.gathered_data (RootCauseAgent._update_context ctx o) !! tool
     = match result_for tool (RootCauseAgent.ObservationEntry o) with
       | Some d => Some d
       | None => RootCauseAgent.gathered_data ctx !! tool
       end.
Proof.
  unfold RootCauseAgent._update_context, result_for.
  destruct (String.eqb (RootCauseAgent.obs_type o) "tool_result"); [| now split].
  destruct (RootCauseAgent.obs_tool o) as [t |]; [| now split].
  cbn [RootCauseAgent.ctx_incident RootCauseAgent.gathered_data]. split; [reflexivity |].
  destruct (String.eqb_spec t tool) as [-> | Hne].
  - now rewrite lookup_insert_eq.
  - now rewrite lookup_insert_ne.
Qed.

(** An observation of type ['tool_result'] names one of the four tools. *)
Lemma execute_action_tool (n : nat) (action : list (string * RootCauseAgent.json))
    (tool : string) (d : RootCauseAgent.json) :
  result_for tool
    (RootCauseAgent.ObservationEntry
       (RootCauseAgent._execute_action invoke_tool n action)) = Some d ->
  In tool RootCauseAgent.tool_menu.
Proof.
  unfold RootCauseAgent._execute_action. cbv zeta.
  destruct (RootCauseAgent.json_is_str _ "conclude"); [discriminate |].
  destruct (RootCauseAgent.items_get action "type") as [| b | z | name | l | items];
    try discriminate.
  destruct (existsb (String.eqb name) RootCauseAgent.tool_menu) eqn:E; [| discriminate].
  destruct (invoke_tool n name _) as [[r s] | e]; [| discriminate].
  cbn [result_for RootCauseAgent.obs_type RootCauseAgent.obs_tool String.eqb Ascii.eqb
       Bool.eqb andb].
  destruct (String.eqb_spec name tool) as [<- | Hne]; [| discriminate].
  intros _. apply existsb_exists in E. destruct E as (x & Hin & Hx).
  apply String.eqb_eq in Hx. now subst x.
Qed.

(** What one pass adds to the log. *)
Lemma loop_body_log (st : RootCauseAgent.LoopState) :
  exists thought action,
    (RootCauseAgent.json_is_str (RootCauseAgent.items_get action "type") "conclude" = true
     /\ RootCauseAgent.investigation_log (body st)
        = RootCauseAgent.investigation_log st
          ++ [RootCauseAgent.Thought thought; RootCauseAgent.ActionEntry action]
     /\ RootCauseAgent.conclusion_reached (body st) = true
     /\ RootCauseAgent.root_cause (body st) = RootCauseAgent.items_get action "conclusion"
     /\ RootCauseAgent.context (body st) = RootCauseAgent.context st)
    \/ (RootCauseAgent.json_is_str (RootCauseAgent.items_get action "type") "conclude"
        = false
        /\ let o := RootCauseAgent._execute_action invoke_tool
                      (S (RootCauseAgent.iteration st)) action in
           RootCauseAgent.investigation_log (body st)
           = RootCauseAgent.investigation_log st
             ++ [RootCauseAgent.Thought thought; RootCauseAgent.ActionEntry action;
                 RootCauseAgent.ObservationEntry o]
           /\ RootCauseAgent.conclusion_reached (body st)
              = RootCauseAgent.conclusion_reached st
           /\ RootCauseAgent.root_cause (body st) = RootCauseAgent.root_cause st
           /\ RootCauseAgent.context (body st)
              = RootCauseAgent._update_context (RootCauseAgent.context st) o).
Proof.
  exists (RootCauseAgent.strip
            (RootCauseAgent._call_bedrock reasoner (RootCauseAgent.model_calls st))),
    (RootCauseAgent._parse_action json_loads
       (RootCauseAgent._call_bedrock reasoner (S (RootCauseAgent.model_calls st)))).
  unfold RootCauseAgent.loop_body. cbv zeta.
  destruct (RootCauseAgent.json_is_str _ "conclude") eqn:E; [left | right];
    (split; [reflexivity |]);
    cbn [RootCauseAgent.investigation_log RootCauseAgent.conclusion_reached
         RootCauseAgent.root_cause RootCauseAgent.context];
    rewrite <- ?app_assoc; cbn [app]; repeat split; reflexivity.
Qed.

Lemma no_conclude_app (l1 l2 : list RootCauseAgent.LogEntry) :
  no_conclude (l1 ++ l2) = no_conclude l1 && no_conclude l2.
Proof. unfold no_conclude. apply forallb_app. Qed.

End LoopInvariants.

(** X17.  At the end of the investigation loop the context still holds the
    incident it started from, and [gathered_data] holds, for every tool,
    the data of the last ['tool_result'] observation the log records for
    that tool (an earlier result of the same tool is overwritten, entries
    the context started with are kept for tools never called).  Only the
    four tools of the agent's own list ever get an entry. *)
Theorem X17_gathered_data_tracks_log
    (reasoner : nat -> option string)
    (json_loads : string -> option (list (string * RootCauseAgent.json)))
    (invoke_tool :
       nat -> string -> RootCauseAgent.json -> (RootCauseAgent.json * string) + string)
    (agent : RootCauseAgent.Agent) (ctx : RootCauseAgent.Context) :
  let st := RootCauseAgent.run_loop reasoner json_loads invoke_tool agent ctx in
  RootCauseAgent.ctx_incident (RootCauseAgent.context st)
  = RootCauseAgent.ctx_incident ctx
  /\ (forall tool,
        RootCauseAgent.gathered_data (RootCauseAgent.context st) !! tool
        = match last_result tool (RootCauseAgent.investigation_log st) with
          | Some d => Some d
          | None => RootCauseAgent.gathered_data ctx !! tool
          end)
  /\ (forall tool d,
        last_result tool (RootCauseAgent.investigation_log st) = Some d ->
        In tool RootCauseAgent.tool_menu).
Proof.
  cbv zeta. unfold RootCauseAgent.run_loop.
  apply (while_loop_invariant reasoner json_loads invoke_tool
           (fun st =>
              RootCauseAgent.ctx_incident (RootCauseAgent.context st)
              = RootCauseAgent.ctx_incident ctx
              /\ (forall tool,
                    RootCauseAgent.gathered_data (RootCauseAgent.context st) !! tool
                    = match last_result tool (RootCauseAgent.investigation_log st) with
                      | Some d => Some d
                      | None => RootCauseAgent.gathered_data ctx !! tool
                      end)
              /\ (forall tool d,
                    last_result tool (RootCauseAgent.investigation_log st) = Some d ->
                    In tool RootCauseAgent.tool_menu))).
  - intros st _ (Hi & Hg & Hm).
    destruct (loop_body_log reasoner json_loads invoke_tool st)
      as (thought & action & [(_ & Hl & _ & _ & Hc) | (_ & Hl & _ & _ & Hc)]).
    + rewrite Hl, Hc.
      change [RootCauseAgent.Thought thought; RootCauseAgent.ActionEntry action]
        with ([RootCauseAgent.Thought thought] ++ [RootCauseAgent.ActionEntry action]).
      rewrite app_assoc.
      split; [exact Hi |]. split.
      * intros tool. rewrite !last_result_snoc. cbn [result_for]. apply Hg.
      * intros tool d. rewrite !last_result_snoc. cbn [result_for]. apply Hm.
    + cbv zeta in Hl. rewrite Hl, Hc.
      change [RootCauseAgent.Thought thought; RootCauseAgent.ActionEntry action;
              RootCauseAgent.ObservationEntry ?o]
        with (([RootCauseAgent.Thought thought] ++ [RootCauseAgent.ActionEntry action])
              ++ [RootCauseAgent.ObservationEntry o]).
      rewrite !app_assoc.
      set (o := RootCauseAgent._execute_action invoke_tool _ action).
      destruct (update_context_lookup (RootCauseAgent.context st) o "") as [Hu _].
      split; [now rewrite Hu |]. split.
      * intros tool.
        destruct (update_context_lookup (RootCauseAgent.context st) o tool) as [_ ->].
        rewrite !last_result_snoc.
        destruct (result_for tool (RootCauseAgent.ObservationEntry o)); [reflexivity |].
        cbn [result_for]. apply Hg.
      * intros tool d. rewrite !last_result_snoc.
        destruct (result_for tool (RootCauseAgent.ObservationEntry o)) eqn:E.
        -- intros _. subst o. now apply execute_action_tool in E.
        -- cbn [result_for]. apply Hm.
  - cbn. split; [reflexivity |]. split; [reflexivity | discriminate].
Qed.

(** X18.  The loop ends in one of two ways.  Either the model concluded:
    then the last log entry is the one action of type ['conclude'], no
    observation follows it, [root_cause] is that action's ['conclusion']
    entry ([None] when it has none) and the log has [3k - 1] entries after
    [k] iterations.  Or it never concluded: then all [max_iterations]
    iterations ran, [root_cause] is [None] and the log has exactly
    [3 * max_iterations] entries. *)
Theorem X18_conclusion_ends_investigation
    (reasoner : nat -> option string)
    (json_loads : string -> option (list (string * RootCauseAgent.json)))
    (invoke_tool :
       nat -> string -> RootCauseAgent.json -> (RootCauseAgent.json * string) + string)
    (agent : RootCauseAgent.Agent) (ctx : RootCauseAgent.Context) :
  let st := RootCauseAgent.run_loop reasoner json_loads invoke_tool agent ctx in
  let log := RootCauseAgent.investigation_log st in
  (RootCauseAgent.conclusion_reached st = true ->
   exists l a,
     log = l ++ [RootCauseAgent.ActionEntry a]
     /\ RootCauseAgent.json_is_str (RootCauseAgent.items_get a "type") "conclude" = true
     /\ RootCauseAgent.root_cause st = RootCauseAgent.items_get a "conclusion"
     /\ no_conclude l = true
     /\ (1 <= RootCauseAgent.iteration st <= RootCauseAgent.max_iterations agent)%nat
     /\ S (List.length log) = (3 * RootCauseAgent.iteration st)%nat)
  /\ (RootCauseAgent.conclusion_reached st = false ->
      RootCauseAgent.iteration st = RootCauseAgent.max_iterations agent
      /\ RootCauseAgent.root_cause st = RootCauseAgent.JNull
      /\ no_conclude log = true
      /\ List.length log = (3 * RootCauseAgent.max_iterations agent)%nat).
Proof.
  cbv zeta.
  destruct (run_loop_bounded reasoner json_loads invoke_tool agent ctx)
    as (Hle & Hguard & _ & _).
  assert (Inv :
    let st := RootCauseAgent.run_loop reasoner json_loads invoke_tool agent ctx in
    (RootCauseAgent.conclusion_reached st = false
     /\ RootCauseAgent.root_cause st = RootCauseAgent.JNull
     /\ no_conclude (RootCauseAgent.investigation_log st) = true
     /\ List.length (RootCauseAgent.investigation_log st)
        = (3 * RootCauseAgent.iteration st)%nat)
    \/ (RootCauseAgent.conclusion_reached st = true
        /\ exists l a,
             RootCauseAgent.investigation_log st = l ++ [RootCauseAgent.ActionEntry a]
             /\ RootCauseAgent.json_is_str (RootCauseAgent.items_get a "type") "conclude"
                = true
             /\ RootCauseAgent.root_cause st = RootCauseAgent.items_get a "conclusion"
             /\ no_conclude l = true
             /\ (1 <= RootCauseAgent.iteration st)%nat
             /\ S (List.length (RootCauseAgent.investigation_log st))
                = (3 * RootCauseAgent.iteration st)%nat)).
  { cbv zeta. unfold RootCauseAgent.run_loop.
    apply (while_loop_invariant reasoner json_loads invoke_tool
             (fun st =>
                (RootCauseAgent.conclusion_reached st = false
                 /\ RootCauseAgent.root_cause st = RootCauseAgent.JNull
                 /\ no_conclude (RootCauseAgent.investigation_log st) = true
                 /\ List.length (RootCauseAgent.investigation_log st)
                    = (3 * RootCauseAgent.iteration st)%nat)
                \/ (RootCauseAgent.conclusion_reached st = true
                    /\ exists l a,
                         RootCauseAgent.investigation_log st
                         = l ++ [RootCauseAgent.ActionEntry a]
                         /\ RootCauseAgent.json_is_str
                              (RootCauseAgent.items_get a "type") "conclude" = true
                         /\ RootCauseAgent.root_cause st
                            = RootCauseAgent.items_get a "conclusion"
                         /\ no_conclude l = true
                         /\ (1 <= RootCauseAgent.iteration st)%nat
                         /\ S (List.length (RootCauseAgent.investigation_log st))
                            = (3 * RootCauseAgent.iteration st)%nat))).
    - intros st G Hst.
      unfold RootCauseAgent.loop_guard in G. apply andb_true_iff in G.
      destruct G as [_ G]. apply negb_true_iff in G.
      destruct Hst as [(_ & Hr & Hn & Hlen) | (Hc & _)]; [| congruence].
      destruct (loop_body_iteration reasoner json_loads invoke_tool st) as (Hi & _).
      destruct (loop_body_log reasoner json_loads invoke_tool st)
        as (thought & action & [(Ha & Hl & Hc & Hrc & _) | (Ha & Hl & Hc & Hrc & _)]).
      + right. split; [exact Hc |].
        exists (RootCauseAgent.investigation_log st ++ [RootCauseAgent.Thought thought]),
          action.
        split; [rewrite Hl, <- app_assoc; reflexivity |].
        split; [exact Ha |]. split; [exact Hrc |].
        split; [rewrite no_conclude_app, Hn; reflexivity |].
        split; [lia |].
        rewrite Hl, List.length_app, Hlen, Hi. cbn [List.length]. lia.
      + left. cbv zeta in Hl. split; [congruence |]. split; [congruence |].
        split.
        * rewrite Hl, no_conclude_app, Hn. cbn. now rewrite Ha.
        * rewrite Hl, List.length_app, Hlen, Hi. cbn [List.length]. lia.
    - left. cbn. repeat split. }
  cbv zeta in Inv. split.
  - intros Hc. destruct Inv as [(Hc' & _) | (_ & l & a & H1 & H2 & H3 & H4 & H5 & H6)];
      [congruence |].
    exists l, a. repeat split; assumption.
  - intros Hc. destruct Inv as [(_ & Hr & Hn & Hlen) | (Hc' & _)]; [| congruence].
    unfold RootCauseAgent.loop_guard in Hguard. rewrite Hc in Hguard.
    cbn [negb] in Hguard. rewrite andb_true_r in Hguard.
    apply Nat.ltb_ge in Hguard.
    assert (RootCauseAgent.iteration
              (RootCauseAgent.run_loop reasoner json_loads invoke_tool agent ctx)
            = RootCauseAgent.max_iterations agent) as Heq by lia.
    repeat split; try assumption. now rewrite Hlen, Heq.
Qed.

Lemma X18_conclusion_ends_investigation_witness :
  let st := RootCauseAgent.run_loop concluding_reasoner loads_conclude failing_tool
              RootCauseAgent.init (RootCauseAgent.mkContext sample_incident ∅) in
  exists l a,
    RootCauseAgent.investigation_log st = l ++ [RootCauseAgent.ActionEntry a]
    /\ RootCauseAgent.json_is_str (RootCauseAgent.items_get a "type") "conclude" = true
    /\ RootCauseAgent.root_cause st = RootCauseAgent.items_get a "conclusion"
    /\ no_conclude l = true
    /\ (1 <= RootCauseAgent.iteration st <= RootCauseAgent.max_iterations RootCauseAgent.init)%nat
    /\ S (List.length (RootCauseAgent.investigation_log st))
       = (3 * RootCauseAgent.iteration st)%nat.
Proof.
  exact (proj1 (X18_conclusion_ends_investigation concluding_reasoner loads_conclude
                  failing_tool RootCauseAgent.init
                  (RootCauseAgent.mkContext sample_incident ∅)) eq_refl).
Defined.

(** ** The handler's answers *)

(** X19.  The handler of the root-cause agent answers 400, writing nothing,
    exactly when the incident id or the incident is missing or falsy.
    Otherwise: an incident that is not a dictionary, or whose
    [affected_services] cannot be joined, gives 500 before anything is
    written; in every other case the incident's timeline is updated first,
    and the answer is 200 when the parsed report has both a ['confidence']
    and an ['evidence'] entry and 500 when one is missing, the timeline
    event having been stored all the same. *)
Theorem X19_rootcause_handler_status
    (reasoner : nat -> option string)
    (json_loads : string -> option (list (string * RootCauseAgent.json)))
    (invoke_tool :
       nat -> string -> RootCauseAgent.json -> (RootCauseAgent.json * string) + string)
    (tb : Tables) (now : Z) (incident_id incident_data : RootCauseAgent.json) :
  let resp := RootCauseAgent.lambda_handler reasoner json_loads invoke_tool tb now
                incident_id incident_data in
  (RootCauseAgent.json_truthy incident_id && RootCauseAgent.json_truthy incident_data
   = false ->
   RootCauseAgent.statusCode (fst resp) = 400 /\ snd resp = tb)
  /\ (RootCauseAgent.json_truthy incident_id && RootCauseAgent.json_truthy incident_data
      = true ->
      ((forall items, incident_data <> RootCauseAgent.JObj items)
       \/ (exists items,
             incident_data = RootCauseAgent.JObj items
             /\ RootCauseAgent.join_ok
                  (RootCauseAgent.items_lookup items "affected_services") = false) ->
       RootCauseAgent.statusCode (fst resp) = 500 /\ snd resp = tb)
      /\ (forall items,
            incident_data = RootCauseAgent.JObj items ->
            RootCauseAgent.join_ok
              (RootCauseAgent.items_lookup items "affected_services") = true ->
            let st := RootCauseAgent.run_loop reasoner json_loads invoke_tool
                        RootCauseAgent.init
                        (RootCauseAgent.mkContext incident_data ∅) in
            let report := RootCauseAgent._parse_report json_loads
                            (RootCauseAgent._call_bedrock reasoner
                               (RootCauseAgent.model_calls st)) in
            RootCauseAgent.statusCode (fst resp)
            = (if RootCauseAgent.items_has report "confidence"
                  && RootCauseAgent.items_has report "evidence"
               then 200 else 500)
            /\ snd resp = RootCauseAgent._update_incident tb now incident_id
            /\ (forall id inc,
                  incident_id = RootCauseAgent.JStr id ->
                  incidents_table tb !! id = Some inc ->
                  incidents_table (snd resp) !! id
                  = Some (mkIncident (inc_created_at inc) (inc_status inc)
                            (Some (dict_get (inc_timeline inc) []
                                   ++ [mkEvent now "root_cause_analysis_completed"
                                         "rootcause_agent"]))
                            (inc_verification_result inc))))).
Proof.
  cbv zeta. unfold RootCauseAgent.lambda_handler. split.
  - intros H. apply andb_false_iff in H.
    destruct H as [-> | ->]; cbn [negb orb]; rewrite ?orb_true_r; now split.
  - intros H. apply andb_true_iff in H. destruct H as [-> ->]. cbn [negb orb].
    unfold RootCauseAgent.investigate, RootCauseAgent._build_initial_context.
    split.
    + intros [Hno | (items & -> & Hjoin)].
      * destruct incident_data as [| b | z | s | l | items]; try (now split).
        now destruct (Hno items).
      * unfold RootCauseAgent.join_ok in Hjoin.
        destruct (RootCauseAgent.join_error _); [now split | discriminate].
    + intros items -> Hjoin. unfold RootCauseAgent.join_ok in Hjoin.
      destruct (RootCauseAgent.join_error _); [discriminate |]. cbv zeta.
      set (report := RootCauseAgent._parse_report json_loads _).
      assert (Hup : forall id inc,
                 incident_id = RootCauseAgent.JStr id ->
                 incidents_table tb !! id = Some inc ->
                 incidents_table (RootCauseAgent._update_incident tb now incident_id)
                   !! id
                 = Some (mkIncident (inc_created_at inc) (inc_status inc)
                           (Some (dict_get (inc_timeline inc) []
                                  ++ [mkEvent now "root_cause_analysis_completed"
                                        "rootcause_agent"]))
                           (inc_verification_result inc))).
      { intros id inc -> Hin. unfold RootCauseAgent._update_incident. rewrite Hin.
        cbn. now rewrite lookup_insert_eq. }
      destruct (RootCauseAgent.items_has report "confidence");
        destruct (RootCauseAgent.items_has report "evidence");
        cbn [negb andb fst snd RootCauseAgent.statusCode];
        (split; [reflexivity |]); (split; [reflexivity | exact Hup]).
Qed.

Lemma X19_rootcause_handler_status_witness :
  let resp := RootCauseAgent.lambda_handler repeating_reasoner loads_conclude
                failing_tool sample_tables 1700000000 (RootCauseAgent.JStr "INC-1")
                sample_incident in
  RootCauseAgent.statusCode (fst resp) = 500
  /\ incidents_table (snd resp) !! "INC-1"
     = Some (mkIncident 1699999000 "executing"
               (Some [mkEvent 1700000000 "root_cause_analysis_completed"
                        "rootcause_agent"]) None).
Proof.
  destruct (proj2 (proj2 (X19_rootcause_handler_status repeating_reasoner
                            loads_conclude failing_tool sample_tables 1700000000
                            (RootCauseAgent.JStr "INC-1") sample_incident) eq_refl)
              _ eq_refl eq_refl) as (Hs & _ & Hup).
  split; [exact Hs | exact (Hup "INC-1" _ eq_refl eq_refl)].
Defined.

(** * Further properties: the monitoring tools *)

Lemma is_open_cases (cb : CircuitBreaker.Breaker) (tbl : gmap string CircuitBreaker.Item)
    (now : Q) :
  CircuitBreaker.is_open cb tbl now
  = if breaker_raises cb tbl
    then CircuitBreaker.Raises CircuitBreaker.float_minus_decimal
    else CircuitBreaker.Returns
           (String.eqb (CircuitBreaker.state (CircuitBreaker.get_state cb tbl)) "OPEN"
            && negb (CircuitBreaker.Qgt_bool (now - inject_Z 0)
                       (inject_Z (CircuitBreaker.timeout cb)))).
Proof.
  unfold CircuitBreaker.is_open, breaker_raises. cbv zeta.
  destruct (String.eqb _ "OPEN"); [| reflexivity].
  destruct (CircuitBreaker.last_failure_time _); cbn [has_key andb]; [reflexivity |].
  now destruct (CircuitBreaker.Qgt_bool _ _).
Qed.

Lemma breaker_raises_not_open (cb : CircuitBreaker.Breaker)
    (tbl : gmap string CircuitBreaker.Item) :
  CircuitBreaker.state (CircuitBreaker.get_state cb tbl) <> "OPEN" ->
  breaker_raises cb tbl = false.
Proof.
  intros H. unfold breaker_raises.
  destruct (String.eqb_spec (CircuitBreaker.state (CircuitBreaker.get_state cb tbl)) "OPEN");
    [contradiction | reflexivity].
Qed.

Lemma record_failure_frame (cb : CircuitBreaker.Breaker)
    (tbl : gmap string CircuitBreaker.Item) (now : Q) (k : string) :
  k <> CircuitBreaker.service_name cb ->
  CircuitBreaker.record_failure cb tbl now !! k = tbl !! k.
Proof.
  intros H. unfold CircuitBreaker.record_failure. cbv zeta.
  now rewrite lookup_insert_ne.
Qed.

Lemma record_success_frame (cb : CircuitBreaker.Breaker)
    (tbl : gmap string CircuitBreaker.Item) (now : Q) (k : string) :
  k <> CircuitBreaker.service_name cb ->
  CircuitBreaker.record_success cb tbl now !! k = tbl !! k.
Proof.
  intros H. unfold CircuitBreaker.record_success. now rewrite lookup_insert_ne.
Qed.

Section MonitoringTools.

Variable float_add : Q -> Q -> Q.
Variable float_div : Q -> Z -> Q.
Variable query_statistics :
  string -> string -> string -> pyval -> pyval -> list MCPTools.Datapoint + string.
Variable query_events :
  pyval -> pyval -> pyval -> option (list MCPTools.LogEvent) + string.

Local Abbreviation cw := (MCPTools.cloudwatch_breaker MCPTools.init).
Local Abbreviation lg := (MCPTools.logs_breaker MCPTools.init).
Local Abbreviation cpu :=
  (MCPTools.get_cpu_metrics float_add float_div query_statistics MCPTools.init).
Local Abbreviation logs := (MCPTools.get_error_logs query_events MCPTools.init).

Lemma get_cpu_metrics_raises (tbl : gmap string CircuitBreaker.Item)
    (checked recorded : Q) (params : MCPTools.Params) :
  breaker_raises cw tbl = true ->
  cpu tbl checked recorded params
  = CircuitBreaker.Raises CircuitBreaker.float_minus_decimal.
Proof.
  intros H. unfold MCPTools.get_cpu_metrics. now rewrite is_open_cases, H.
Qed.

Lemma get_cpu_metrics_attempted (tbl : gmap string CircuitBreaker.Item)
    (checked recorded : Q) (params : MCPTools.Params) :
  CircuitBreaker.is_open cw tbl checked = CircuitBreaker.Returns false ->
  exists r,
    cpu tbl checked recorded params
    = CircuitBreaker.Returns
        (r, if cpu_call_fails query_statistics params
            then CircuitBreaker.record_failure cw tbl recorded
            else CircuitBreaker.record_success cw tbl recorded)
    /\ is_error r = cpu_call_fails query_statistics params
    /\ (is_error r = true -> exists e, r = MCPTools.ErrorResult e None).
Proof.
  intros H. unfold MCPTools.get_cpu_metrics, cpu_call_fails. rewrite H. cbv zeta.
  destruct (MCPTools.hours_type_error _) as [e |];
    [eexists; split; [reflexivity |]; split; [reflexivity | eauto] |].
  destruct (query_statistics _ _ _ _ _) as [dps | e];
    eexists; (split; [reflexivity |]); (split; [reflexivity |]);
    [discriminate | eauto].
Qed.

Lemma get_error_logs_raises (tbl : gmap string CircuitBreaker.Item)
    (checked recorded : Q) (params : MCPTools.Params) :
  breaker_raises lg tbl = true ->
  logs tbl checked recorded params
  = CircuitBreaker.Raises CircuitBreaker.float_minus_decimal.
Proof.
  intros H. unfold MCPTools.get_error_logs. now rewrite is_open_cases, H.
Qed.

Lemma get_error_logs_attempted (tbl : gmap string CircuitBreaker.Item)
    (checked recorded : Q) (params : MCPTools.Params) :
  CircuitBreaker.is_open lg tbl checked = CircuitBreaker.Returns false ->
  exists r,
    logs tbl checked recorded params
    = CircuitBreaker.Returns
        (r, if logs_call_fails query_events params
            then CircuitBreaker.record_failure lg tbl recorded
            else CircuitBreaker.record_success lg tbl recorded)
    /\ is_error r = logs_call_fails query_events params
    /\ (is_error r = true -> exists e, r = MCPTools.ErrorResult e None).
Proof.
  intros H. unfold MCPTools.get_error_logs, logs_call_fails. rewrite H. cbv zeta.
  destruct (MCPTools.hours_type_error _) as [e |];
    [eexists; split; [reflexivity |]; split; [reflexivity | eauto] |].
  destruct (query_events _ _ _) as [evs | e];
    eexists; (split; [reflexivity |]); (split; [reflexivity |]);
    [discriminate | eauto].
Qed.

(** A call that returns leaves every other entry of the table alone. *)
Lemma get_cpu_metrics_frame (tbl tbl' : gmap string CircuitBreaker.Item)
    (checked recorded : Q) (params : MCPTools.Params) (r : MCPTools.ToolResult)
    (k : string) :
  cpu tbl checked recorded params = CircuitBreaker.Returns (r, tbl') ->
  k <> "cloudwatch" -> tbl' !! k = tbl !! k.
Proof.
  intros H Hk.
  destruct (CircuitBreaker.is_open cw tbl checked) as [e | [|]] eqn:E.
  - unfold MCPTools.get_cpu_metrics in H. rewrite E in H. discriminate.
  - unfold MCPTools.get_cpu_metrics in H. rewrite E in H. now injection H as _ <-.
  - destruct (get_cpu_metrics_attempted tbl checked recorded params E) as (r' & He & _).
    rewrite He in H. injection H as _ <-.
    destruct (cpu_call_fails _ _);
      [apply record_failure_frame | apply record_success_frame]; exact Hk.
Qed.

Lemma get_error_logs_frame (tbl tbl' : gmap string CircuitBreaker.Item)
    (checked recorded : Q) (params : MCPTools.Params) (r : MCPTools.ToolResult)
    (k : string) :
  logs tbl checked recorded params = CircuitBreaker.Returns (r, tbl') ->
  k <> "cloudwatch_logs" -> tbl' !! k = tbl !! k.
Proof.
  intros H Hk.
  destruct (CircuitBreaker.is_open lg tbl checked) as [e | [|]] eqn:E.
  - unfold MCPTools.get_error_logs in H. rewrite E in H. discriminate.
  - unfold MCPTools.get_error_logs in H. rewrite E in H. now injection H as _ <-.
  - destruct (get_error_logs_attempted tbl checked recorded params E) as (r' & He & _).
    rewrite He in H. injection H as _ <-.
    destruct (logs_call_fails _ _);
      [apply record_failure_frame | apply record_success_frame]; exact Hk.
Qed.

(** The refusal of the breaker is given only for an ['OPEN'] item that has
    no [last_failure_time]. *)
Lemma get_cpu_metrics_refusal (tbl tbl' : gmap string CircuitBreaker.Item)
    (checked recorded : Q) (params : MCPTools.Params) :
  cpu tbl checked recorded params = CircuitBreaker.Returns (refused_cloudwatch, tbl') ->
  CircuitBreaker.state (CircuitBreaker.get_state cw tbl) = "OPEN"
  /\ CircuitBreaker.last_failure_time (CircuitBreaker.get_state cw tbl) = None
  /\ tbl' = tbl.
Proof.
  intros H.
  destruct (CircuitBreaker.is_open cw tbl checked) as [e | [|]] eqn:E.
  - unfold MCPTools.get_cpu_metrics in H. rewrite E in H. discriminate.
  - unfold MCPTools.get_cpu_metrics in H. rewrite E in H. injection H as <-.
    unfold CircuitBreaker.is_open in E. cbv zeta in E.
    destruct (String.eqb_spec
                (CircuitBreaker.state (CircuitBreaker.get_state cw tbl)) "OPEN")
      as [Hs | Hs]; [| discriminate].
    destruct (CircuitBreaker.last_failure_time _); [discriminate |]. now repeat split.
  - destruct (get_cpu_metrics_attempted tbl checked recorded params E)
      as (r' & He & _ & Herr).
    rewrite He in H. injection H as -> _.
    destruct (Herr eq_refl) as [e He']. discriminate He'.
Qed.

Lemma get_error_logs_refusal (tbl tbl' : gmap string CircuitBreaker.Item)
    (checked recorded : Q) (params : MCPTools.Params) :
  logs tbl checked recorded params = CircuitBreaker.Returns (refused_logs, tbl') ->
  CircuitBreaker.state (CircuitBreaker.get_state lg tbl) = "OPEN"
  /\ CircuitBreaker.last_failure_time (CircuitBreaker.get_state lg tbl) = None
  /\ tbl' = tbl.
Proof.
  intros H.
  destruct (CircuitBreaker.is_open lg tbl checked) as [e | [|]] eqn:E.
  - unfold MCPTools.get_error_logs in H. rewrite E in H. discriminate.
  - unfold MCPTools.get_error_logs in H. rewrite E in H. injection H as <-.
    unfold CircuitBreaker.is_open in E. cbv zeta in E.
    destruct (String.eqb_spec
                (CircuitBreaker.state (CircuitBreaker.get_state lg tbl)) "OPEN")
      as [Hs | Hs]; [| discriminate].
    destruct (CircuitBreaker.last_failure_time _); [discriminate |]. now repeat split.
  - destruct (get_error_logs_attempted tbl checked recorded params E)
      as (r' & He & _ & Herr).
    rewrite He in H. injection H as -> _.
    destruct (Herr eq_refl) as [e He']. discriminate He'.
Qed.

End MonitoringTools.

(** X20.  A tool call on a breaker whose stored item is ['OPEN'] with a
    [last_failure_time], which is what an opening failure stores, is not
    refused with the breaker error: [is_open] raises [TypeError] before the
    [try], at every clock reading and whatever the parameters, so the
    service is not called and the breaker table is not written.  A call on
    a breaker that is not ['OPEN'] is always attempted and records its
    outcome, a failure when the result is an error and a success otherwise.
    The breaker error with [retry_after] is returned only for an ['OPEN']
    item without [last_failure_time].  No call touches the entry of another
    breaker. *)
Theorem X20_stored_open_breaker_raises
    (float_add : Q -> Q -> Q) (float_div : Q -> Z -> Q)
    (query_statistics :
       string -> string -> string -> pyval -> pyval -> list MCPTools.Datapoint + string)
    (query_events : pyval -> pyval -> pyval -> option (list MCPTools.LogEvent) + string)
    (tbl : gmap string CircuitBreaker.Item) (checked recorded : Q)
    (params : MCPTools.Params) :
  let cpu := MCPTools.get_cpu_metrics float_add float_div query_statistics MCPTools.init
               tbl checked recorded params in
  let logs := MCPTools.get_error_logs query_events MCPTools.init tbl checked recorded
                params in
  let cw := MCPTools.cloudwatch_breaker MCPTools.init in
  let lg := MCPTools.logs_breaker MCPTools.init in
  ((breaker_raises cw tbl = true ->
    cpu = CircuitBreaker.Raises CircuitBreaker.float_minus_decimal)
   /\ (CircuitBreaker.state (CircuitBreaker.get_state cw tbl) <> "OPEN" ->
       exists r,
         cpu = CircuitBreaker.Returns
                 (r, if is_error r
                     then CircuitBreaker.record_failure cw tbl recorded
                     else CircuitBreaker.record_success cw tbl recorded)
         /\ r <> refused_cloudwatch)
   /\ (forall tbl',
         cpu = CircuitBreaker.Returns (refused_cloudwatch, tbl') ->
         CircuitBreaker.state (CircuitBreaker.get_state cw tbl) = "OPEN"
         /\ CircuitBreaker.last_failure_time (CircuitBreaker.get_state cw tbl) = None
         /\ tbl' = tbl)
   /\ (forall r tbl' k,
         cpu = CircuitBreaker.Returns (r, tbl') -> k <> "cloudwatch" ->
         tbl' !! k = tbl !! k))
  /\ ((breaker_raises lg tbl = true ->
       logs = CircuitBreaker.Raises CircuitBreaker.float_minus_decimal)
      /\ (CircuitBreaker.state (CircuitBreaker.get_state lg tbl) <> "OPEN" ->
          exists r,
            logs = CircuitBreaker.Returns
                     (r, if is_error r
                         then CircuitBreaker.record_failure lg tbl recorded
                         else CircuitBreaker.record_success lg tbl recorded)
            /\ r <> refused_logs)
      /\ (forall tbl',
            logs = CircuitBreaker.Returns (refused_logs, tbl') ->
            CircuitBreaker.state (CircuitBreaker.get_state lg tbl) = "OPEN"
            /\ CircuitBreaker.last_failure_time (CircuitBreaker.get_state lg tbl) = None
            /\ tbl' = tbl)
      /\ (forall r tbl' k,
            logs = CircuitBreaker.Returns (r, tbl') -> k <> "cloudwatch_logs" ->
            tbl' !! k = tbl !! k)).
Proof.
  cbv zeta. split.
  - split; [apply get_cpu_metrics_raises |]. split; [| split].
    + intros Hs.
      destruct (get_cpu_metrics_attempted float_add float_div query_statistics tbl
                  checked recorded params (is_open_not_open _ _ _ Hs))
        as (r & He & Hr & Herr).
      exists r. rewrite Hr. split; [exact He |].
      intros ->. destruct (cpu_call_fails _ _); [| discriminate].
      destruct (Herr Hr) as [e He']. discriminate He'.
    + intros tbl' H. eapply get_cpu_metrics_refusal. exact H.
    + intros r tbl' k H Hk. eapply get_cpu_metrics_frame; [exact H | exact Hk].
  - split; [apply get_error_logs_raises |]. split; [| split].
    + intros Hs.
      destruct (get_error_logs_attempted query_events tbl checked recorded params
                  (is_open_not_open _ _ _ Hs)) as (r & He & Hr & Herr).
      exists r. rewrite Hr. split; [exact He |].
      intros ->. destruct (logs_call_fails _ _); [| discriminate].
      destruct (Herr Hr) as [e He']. discriminate He'.
    + intros tbl' H. eapply get_error_logs_refusal. exact H.
    + intros r tbl' k H Hk. eapply get_error_logs_frame; [exact H | exact Hk].
Qed.

Lemma X20_stored_open_breaker_raises_witness :
  MCPTools.get_cpu_metrics exact_add exact_div cloudwatch_up MCPTools.init five_failures
    1050 1051 MCPTools.no_params
  = CircuitBreaker.Raises CircuitBreaker.float_minus_decimal
  /\ MCPTools.get_cpu_metrics exact_add exact_div cloudwatch_up MCPTools.init
       five_failures 1070 1071 MCPTools.no_params
     = CircuitBreaker.Raises CircuitBreaker.float_minus_decimal.
Proof.
  split.
  - exact (proj1 (proj1 (X20_stored_open_breaker_raises exact_add exact_div
                           cloudwatch_up logs_down five_failures 1050 1051
                           MCPTools.no_params)) eq_refl).
  - exact (proj1 (proj1 (X20_stored_open_breaker_raises exact_add exact_div
                           cloudwatch_up logs_down five_failures 1070 1071
                           MCPTools.no_params)) eq_refl).
Defined.

(** ** Failing calls open the breaker, and nothing closes it *)

(** While fewer than the threshold of failures are on record, failing
    calls are all attempted, and each one is recorded. *)
Lemma cpu_calls_all_fail (float_add : Q -> Q -> Q) (float_div : Q -> Z -> Q)
    (query_statistics :
       string -> string -> string -> pyval -> pyval -> list MCPTools.Datapoint + string)
    (calls : list (Q * Q * MCPTools.Params)) (tbl : gmap string CircuitBreaker.Item) :
  let cw := MCPTools.cloudwatch_breaker MCPTools.init in
  CircuitBreaker.state (CircuitBreaker.get_state cw tbl) = "CLOSED" ->
  CircuitBreaker.failure_count (CircuitBreaker.get_state cw tbl)
  + Z.of_nat (List.length calls) <= 5 ->
  Forall (fun c => cpu_call_fails query_statistics (snd c) = true) calls ->
  let out := cpu_calls float_add float_div query_statistics tbl calls in
  Forall (fun r => exists e, r = CircuitBreaker.Returns (MCPTools.ErrorResult e None))
    (fst out)
  /\ List.length (fst out) = List.length calls
  /\ snd out = CircuitBreaker.record_failures cw tbl (List.map (fun c => snd (fst c)) calls).
Proof.
  cbv zeta. revert tbl.
  induction calls as [| [[checked recorded] params] calls IH]; intros tbl Hst Hcount Hall.
  - cbn. repeat split. constructor.
  - cbn [cpu_calls List.map CircuitBreaker.record_failures fst snd List.length] in *.
    inversion Hall as [| c cs Hc Hcs]; subst. cbn [snd] in Hc.
    assert (Hopen : CircuitBreaker.is_open (MCPTools.cloudwatch_breaker MCPTools.init)
                      tbl checked = CircuitBreaker.Returns false).
    { apply is_open_not_open. rewrite Hst. discriminate. }
    destruct (get_cpu_metrics_attempted float_add float_div query_statistics tbl checked
                recorded params Hopen) as (r & He & Hr & Herr).
    rewrite He, Hc. rewrite Hc in Hr. destruct (Herr Hr) as [e ->].
    destruct (Z.eq_dec (Z.of_nat (List.length calls)) 0) as [Hz | Hnz].
    + destruct calls; [| cbn in Hz; lia].
      cbn. repeat split. constructor; [now exists e | constructor].
    + specialize (IH (CircuitBreaker.record_failure
                        (MCPTools.cloudwatch_breaker MCPTools.init) tbl recorded)).
      rewrite get_state_record_failure in IH.
      cbn [CircuitBreaker.state CircuitBreaker.failure_count
           CircuitBreaker.failure_threshold MCPTools.cloudwatch_breaker MCPTools.init
           CircuitBreaker.init] in IH.
      destruct (Z.leb_spec 5
                  (CircuitBreaker.failure_count
                     (CircuitBreaker.get_state (CircuitBreaker.init "cloudwatch") tbl) + 1))
        as [Hle | Hlt].
      * cbn [MCPTools.cloudwatch_breaker MCPTools.init] in Hcount. lia.
      * destruct IH as (H1 & H2 & H3);
          [reflexivity
          | cbn [MCPTools.cloudwatch_breaker MCPTools.init] in Hcount; lia
          | exact Hcs |].
        destruct (cpu_calls float_add float_div query_statistics _ calls) as [rs tbl2].
        cbn [fst snd] in *. split; [constructor; [now exists e | exact H1] |].
        split; [cbn [List.length]; now f_equal | exact H3].
Qed.

(** Calls on a breaker that raises leave the table as it is. *)
Lemma cpu_calls_all_raise (float_add : Q -> Q -> Q) (float_div : Q -> Z -> Q)
    (query_statistics :
       string -> string -> string -> pyval -> pyval -> list MCPTools.Datapoint + string)
    (calls : list (Q * Q * MCPTools.Params)) (tbl : gmap string CircuitBreaker.Item) :
  breaker_raises (MCPTools.cloudwatch_breaker MCPTools.init) tbl = true ->
  cpu_calls float_add float_div query_statistics tbl calls
  = (List.map (fun _ => CircuitBreaker.Raises CircuitBreaker.float_minus_decimal) calls,
     tbl).
Proof.
  intros H. induction calls as [| [[checked recorded] params] calls IH];
    [reflexivity |].
  cbn [cpu_calls List.map].
  rewrite (get_cpu_metrics_raises float_add float_div query_statistics tbl checked
             recorded params H), IH.
  reflexivity.
Qed.

(** X21.  On a table without an entry for CloudWatch, five failing calls
    of [get_cpu_metrics] in a row are all attempted and leave the breaker
    ['OPEN'] with count 5.  A call fails also when its own [hours] entry is
    a text or null, whatever CloudWatch would answer.  From then on the
    breaker stays as it is: every later call, at any clock reading and with
    any parameters, raises [TypeError] in [is_open], reaches neither
    CloudWatch nor the table, and is answered 500 by the handler; no
    timeout lets a call through and no success can be recorded. *)
Theorem X21_opened_breaker_stays_open
    (float_add : Q -> Q -> Q) (float_div : Q -> Z -> Q)
    (query_statistics :
       string -> string -> string -> pyval -> pyval -> list MCPTools.Datapoint + string)
    (tbl : gmap string CircuitBreaker.Item)
    (calls : list (Q * Q * MCPTools.Params)) (checked5 recorded5 : Q)
    (params5 : MCPTools.Params) :
  tbl !! "cloudwatch" = None ->
  List.length calls = 4%nat ->
  Forall (fun c => cpu_call_fails query_statistics (snd c) = true)
    (calls ++ [(checked5, recorded5, params5)]) ->
  let cw := MCPTools.cloudwatch_breaker MCPTools.init in
  let out := cpu_calls float_add float_div query_statistics tbl
               (calls ++ [(checked5, recorded5, params5)]) in
  let opened := snd out in
  (Forall (fun r => exists e, r = CircuitBreaker.Returns (MCPTools.ErrorResult e None))
     (fst out)
   /\ List.length (fst out) = 5%nat)
  /\ CircuitBreaker.get_state cw opened
     = CircuitBreaker.mkItem "OPEN" 5 (Some (CircuitBreaker.py_int recorded5)) None
         (Some (CircuitBreaker.py_int recorded5 + 60))
  /\ (forall oracle params,
        (exists s, MCPTools.hours params = Some (PyStr s))
        \/ MCPTools.hours params = Some PyNone ->
        cpu_call_fails oracle params = true)
  /\ (forall add div oracle checked recorded params,
        MCPTools.get_cpu_metrics add div oracle MCPTools.init opened checked recorded
          params
        = CircuitBreaker.Raises CircuitBreaker.float_minus_decimal)
  /\ (forall add div oracle later,
        cpu_calls add div oracle opened later
        = (List.map (fun _ => CircuitBreaker.Raises CircuitBreaker.float_minus_decimal)
             later, opened))
  /\ (forall add div oracle events clock parameters,
        MCPTools.lambda_handler add div oracle events opened clock
          (MCPTools.mkEvent (Some (PyStr "execute")) (Some (PyStr "get_cpu_metrics"))
             parameters)
        = (MCPTools.mkResponse 500
             (MCPTools.ErrorBody CircuitBreaker.float_minus_decimal), opened)).
Proof.
  intros Hfresh Hlen Hall. cbv zeta.
  assert (Hst0 : CircuitBreaker.get_state (MCPTools.cloudwatch_breaker MCPTools.init) tbl
                 = CircuitBreaker.mkItem "CLOSED" 0 (Some 0) None None).
  { unfold CircuitBreaker.get_state.
    cbn [MCPTools.cloudwatch_breaker MCPTools.init CircuitBreaker.init
         CircuitBreaker.service_name].
    now rewrite Hfresh. }
  destruct (cpu_calls_all_fail float_add float_div query_statistics
              (calls ++ [(checked5, recorded5, params5)]) tbl) as (H1 & H2 & H3).
  { now rewrite Hst0. }
  { rewrite Hst0, List.length_app, Hlen. cbn. lia. }
  { exact Hall. }
  assert (Hopened :
    CircuitBreaker.get_state (MCPTools.cloudwatch_breaker MCPTools.init)
      (snd (cpu_calls float_add float_div query_statistics tbl
              (calls ++ [(checked5, recorded5, params5)])))
    = CircuitBreaker.mkItem "OPEN" 5 (Some (CircuitBreaker.py_int recorded5)) None
        (Some (CircuitBreaker.py_int recorded5 + 60))).
  { rewrite H3, List.map_app. cbn [List.map fst snd].
    rewrite record_failures_last, Hst0, List.length_map, Hlen. reflexivity. }
  assert (Hraises :
    breaker_raises (MCPTools.cloudwatch_breaker MCPTools.init)
      (snd (cpu_calls float_add float_div query_statistics tbl
              (calls ++ [(checked5, recorded5, params5)]))) = true).
  { unfold breaker_raises. now rewrite Hopened. }
  split; [split; [exact H1 | rewrite H2, List.length_app, Hlen; reflexivity] |].
  split; [exact Hopened |]. split; [| split; [| split]].
  - intros oracle params [[s Hs] | Hn]; unfold cpu_call_fails; cbv zeta;
      [rewrite Hs | rewrite Hn]; reflexivity.
  - intros add div oracle checked recorded params.
    now apply get_cpu_metrics_raises.
  - intros add div oracle later. now apply cpu_calls_all_raise.
  - intros add div oracle events clock parameters.
    unfold MCPTools.lambda_handler. cbv zeta.
    cbn [MCPTools.ev_action MCPTools.ev_tool_name dict_get dict_get_none eq_str
         String.eqb Ascii.eqb Bool.eqb andb].
    now rewrite (get_cpu_metrics_raises add div oracle _ _ _ _ Hraises).
Qed.

Lemma X21_opened_breaker_stays_open_witness :
  let calls := [(1000, 1000, text_hours); (1001, 1001, text_hours);
                (1002, 1002, text_hours); (1003, 1003, text_hours)]%Q in
  let opened := snd (cpu_calls exact_add exact_div cloudwatch_up ∅
                       (calls ++ [(1004, 1004, text_hours)]%Q)) in
  MCPTools.get_cpu_metrics exact_add exact_div cloudwatch_up MCPTools.init opened
    1100 1101 MCPTools.no_params
  = CircuitBreaker.Raises CircuitBreaker.float_minus_decimal.
Proof.
  cbv zeta.
  refine (proj1 (proj2 (proj2 (proj2
            (X21_opened_breaker_stays_open exact_add exact_div cloudwatch_up ∅
               [(1000, 1000, text_hours); (1001, 1001, text_hours);
                (1002, 1002, text_hours); (1003, 1003, text_hours)]%Q
               1004 1004 text_hours eq_refl eq_refl _))))
            exact_add exact_div cloudwatch_up 1100%Q 1101%Q MCPTools.no_params).
  repeat constructor.
Defined.

(** ** Service health *)

Lemma Qgt_bool_true (a b : Q) : CircuitBreaker.Qgt_bool a b = true <-> (b < a)%Q.
Proof.
  unfold CircuitBreaker.Qgt_bool. rewrite negb_true_iff.
  destruct (Qle_bool a b) eqn:E.
  - apply Qle_bool_iff in E. split; [discriminate |].
    intros H. exfalso. exact (Qlt_not_le _ _ H E).
  - split; [intros _ | reflexivity]. apply Qnot_le_lt. intros H.
    apply Qle_bool_iff in H. congruence.
Qed.

Lemma Qgt_bool_false (a b : Q) : CircuitBreaker.Qgt_bool a b = false <-> (a <= b)%Q.
Proof.
  unfold CircuitBreaker.Qgt_bool. rewrite negb_false_iff. apply Qle_bool_iff.
Qed.

Lemma get_state_frame (cb : CircuitBreaker.Breaker)
    (tbl tbl' : gmap string CircuitBreaker.Item) :
  tbl' !! CircuitBreaker.service_name cb = tbl !! CircuitBreaker.service_name cb ->
  CircuitBreaker.get_state cb tbl' = CircuitBreaker.get_state cb tbl.
Proof. intros H. unfold CircuitBreaker.get_state. now rewrite H. Qed.

Lemma breaker_raises_frame (cb : CircuitBreaker.Breaker)
    (tbl tbl' : gmap string CircuitBreaker.Item) :
  tbl' !! CircuitBreaker.service_name cb = tbl !! CircuitBreaker.service_name cb ->
  breaker_raises cb tbl' = breaker_raises cb tbl.
Proof. intros H. unfold breaker_raises. now rewrite (get_state_frame cb tbl tbl' H). Qed.

(** A call on a breaker that does not raise returns. *)
Lemma get_error_logs_returns
    (query_events : pyval -> pyval -> pyval -> option (list MCPTools.LogEvent) + string)
    (tbl : gmap string CircuitBreaker.Item) (checked recorded : Q)
    (params : MCPTools.Params) :
  breaker_raises (MCPTools.logs_breaker MCPTools.init) tbl = false ->
  exists r tbl',
    MCPTools.get_error_logs query_events MCPTools.init tbl checked recorded params
    = CircuitBreaker.Returns (r, tbl').
Proof.
  intros H. unfold MCPTools.get_error_logs. rewrite is_open_cases, H. cbv zeta.
  destruct (_ && _); [eauto |].
  destruct (MCPTools.hours_type_error _); [eauto |].
  destruct (query_events _ _ _); eauto.
Qed.

Lemma get_cpu_metrics_returns (float_add : Q -> Q -> Q) (float_div : Q -> Z -> Q)
    (query_statistics :
       string -> string -> string -> pyval -> pyval -> list MCPTools.Datapoint + string)
    (tbl : gmap string CircuitBreaker.Item) (checked recorded : Q)
    (params : MCPTools.Params) :
  breaker_raises (MCPTools.cloudwatch_breaker MCPTools.init) tbl = false ->
  exists r tbl',
    MCPTools.get_cpu_metrics float_add float_div query_statistics MCPTools.init tbl
      checked recorded params
    = CircuitBreaker.Returns (r, tbl').
Proof.
  intros H. unfold MCPTools.get_cpu_metrics. rewrite is_open_cases, H. cbv zeta.
  destruct (_ && _); [eauto |].
  destruct (MCPTools.hours_type_error _); [eauto |].
  destruct (query_statistics _ _ _ _ _); eauto.
Qed.

(** X22.  [check_service_health] reads a failed lookup as no finding.
    When neither breaker is ['OPEN'] and both of its lookups fail, the
    service is reported ['healthy'] with zero errors, zero latency, no
    issue and the recommendation to continue monitoring, and one failure
    is recorded for each of the two breakers.  The report is the same for
    any two error dictionaries in place of the lookups' results. *)
Theorem X22_health_with_services_down
    (float_add : Q -> Q -> Q) (float_div : Q -> Z -> Q)
    (query_statistics :
       string -> string -> string -> pyval -> pyval -> list MCPTools.Datapoint + string)
    (query_events : pyval -> pyval -> pyval -> option (list MCPTools.LogEvent) + string)
    (tbl : gmap string CircuitBreaker.Item) (clock : MCPTools.Clock)
    (params : MCPTools.Params) :
  let service := dict_get (MCPTools.service_name params) (PyStr "") in
  let cw := MCPTools.cloudwatch_breaker MCPTools.init in
  let lg := MCPTools.logs_breaker MCPTools.init in
  CircuitBreaker.state (CircuitBreaker.get_state lg tbl) <> "OPEN" ->
  CircuitBreaker.state (CircuitBreaker.get_state cw tbl) <> "OPEN" ->
  logs_call_fails query_events (health_logs_params service) = true ->
  cpu_call_fails query_statistics (health_cpu_params service) = true ->
  MCPTools.check_service_health float_add float_div query_statistics query_events
    MCPTools.init tbl clock params
  = (MCPTools.Health (healthy_report service),
     CircuitBreaker.record_failure cw
       (CircuitBreaker.record_failure lg tbl (MCPTools.logs_recorded clock))
       (MCPTools.cloudwatch_recorded clock))
  /\ forall e1 retry1 e2 retry2,
       MCPTools.health_report service (MCPTools.ErrorResult e1 retry1)
         (MCPTools.ErrorResult e2 retry2)
       = healthy_report service.
Proof.
  cbv zeta. intros Hlg Hcw Hlogs Hcpu. split; [| reflexivity].
  unfold MCPTools.check_service_health. cbv zeta.
  fold (health_logs_params (dict_get (MCPTools.service_name params) (PyStr ""))).
  fold (health_cpu_params (dict_get (MCPTools.service_name params) (PyStr ""))).
  destruct (get_error_logs_attempted query_events tbl (MCPTools.logs_checked clock)
              (MCPTools.logs_recorded clock)
              (health_logs_params (dict_get (MCPTools.service_name params) (PyStr "")))
              (is_open_not_open _ _ _ Hlg)) as (r1 & He1 & Hr1 & Herr1).
  rewrite He1, Hlogs. rewrite Hlogs in Hr1. destruct (Herr1 Hr1) as [e1 ->].
  assert (Hcw' :
    CircuitBreaker.state
      (CircuitBreaker.get_state (MCPTools.cloudwatch_breaker MCPTools.init)
         (CircuitBreaker.record_failure (MCPTools.logs_breaker MCPTools.init) tbl
            (MCPTools.logs_recorded clock))) <> "OPEN").
  { rewrite (get_state_frame _ tbl); [exact Hcw |].
    apply record_failure_frame. discriminate. }
  destruct (get_cpu_metrics_attempted float_add float_div query_statistics _
              (MCPTools.cloudwatch_checked clock) (MCPTools.cloudwatch_recorded clock)
              (health_cpu_params (dict_get (MCPTools.service_name params) (PyStr "")))
              (is_open_not_open _ _ _ Hcw')) as (r2 & He2 & Hr2 & Herr2).
  rewrite He2, Hcpu. rewrite Hcpu in Hr2. destruct (Herr2 Hr2) as [e2 ->].
  reflexivity.
Qed.

Lemma X22_health_with_services_down_witness :
  MCPTools.check_service_health exact_add exact_div cloudwatch_down logs_down
    MCPTools.init ∅ sample_clock checkout_service
  = (MCPTools.Health (healthy_report (PyStr "checkout")),
     CircuitBreaker.record_failure (MCPTools.cloudwatch_breaker MCPTools.init)
       (CircuitBreaker.record_failure (MCPTools.logs_breaker MCPTools.init) ∅ 1011)
       1013).
Proof.
  refine (proj1 (X22_health_with_services_down exact_add exact_div cloudwatch_down
                   logs_down ∅ sample_clock checkout_service _ _ eq_refl eq_refl));
    discriminate.
Defined.

Ltac health_case :=
  repeat split; intros;
  repeat match goal with
         | H : _ /\ _ |- _ => destruct H
         | H : _ \/ _ |- _ => destruct H
         end;
  try discriminate; try reflexivity; try lia;
  try (exfalso; eapply Qlt_not_le; eassumption);
  auto.

(** The status of a report is decided by three thresholds. *)
Lemma health_report_classified (service : pyval) (error_logs cpu_metrics : MCPTools.ToolResult) :
  let report := MCPTools.health_report service error_logs cpu_metrics in
  let n := MCPTools.error_count report in
  let a := MCPTools.avg_duration_ms report in
  let m := MCPTools.max_duration_ms report in
  (MCPTools.health_status report = "unhealthy" <-> 10 < n)
  /\ (MCPTools.health_status report = "degraded"
      <-> n <= 10 /\ (5 < n \/ (5000 < a)%Q \/ (10000 < m)%Q))
  /\ (MCPTools.health_status report = "healthy"
      <-> n <= 5 /\ (a <= 5000)%Q /\ (m <= 10000)%Q)
  /\ (MCPTools.issues report = [] <-> MCPTools.health_status report = "healthy")
  /\ (List.length (MCPTools.issues report) <= 3)%nat
  /\ MCPTools.recommendation report
     = MCPTools._get_health_recommendation (MCPTools.health_status report) n a.
Proof.
  cbv zeta. unfold MCPTools.health_report. cbv zeta.
  set (n := match error_logs with
            | MCPTools.Logs _ _ event_count _ => event_count | _ => 0 end).
  set (a := match cpu_metrics with
            | MCPTools.Metrics _ _ _ _ s => MCPTools.avg s | _ => 0%Q end).
  set (m := match cpu_metrics with
            | MCPTools.Metrics _ _ _ _ s => MCPTools.max s | _ => 0%Q end).
  clearbody n a m.
  destruct (Z.ltb_spec 10 n) as [Hn10 | Hn10];
    [| destruct (Z.ltb_spec 5 n) as [Hn5 | Hn5]];
    destruct (CircuitBreaker.Qgt_bool a 5000) eqn:Ha;
    destruct (CircuitBreaker.Qgt_bool m 10000) eqn:Hm;
    (apply Qgt_bool_true in Ha || apply Qgt_bool_false in Ha);
    (apply Qgt_bool_true in Hm || apply Qgt_bool_false in Hm);
    cbn [MCPTools.health_status MCPTools.error_count MCPTools.avg_duration_ms
         MCPTools.max_duration_ms MCPTools.issues MCPTools.recommendation
         MCPTools.degrade String.eqb Ascii.eqb Bool.eqb app List.length];
    health_case.
Qed.

(** X23.  [check_service_health] returns a health report exactly when
    neither breaker makes [is_open] raise; when one does, it returns the
    error dictionary of that [TypeError] and no report.  The status of a
    report is decided by three thresholds: ['unhealthy'] exactly when more
    than 10 error events were found; ['degraded'] exactly when there are at
    most 10 and either more than 5 events, an average above 5000 or a
    maximum above 10000; ['healthy'] otherwise.  Latency alone never makes
    a service unhealthy.  The list of issues is empty exactly for a healthy
    service and never has more than three entries. *)
Theorem X23_health_report_or_error
    (float_add : Q -> Q -> Q) (float_div : Q -> Z -> Q)
    (query_statistics :
       string -> string -> string -> pyval -> pyval -> list MCPTools.Datapoint + string)
    (query_events : pyval -> pyval -> pyval -> option (list MCPTools.LogEvent) + string)
    (tbl : gmap string CircuitBreaker.Item) (clock : MCPTools.Clock)
    (params : MCPTools.Params) :
  let check := MCPTools.check_service_health float_add float_div query_statistics
                 query_events MCPTools.init tbl clock params in
  let cw := MCPTools.cloudwatch_breaker MCPTools.init in
  let lg := MCPTools.logs_breaker MCPTools.init in
  (breaker_raises lg tbl = true -> check = (breaker_error, tbl))
  /\ (breaker_raises lg tbl = true \/ breaker_raises cw tbl = true ->
      fst check = breaker_error)
  /\ (breaker_raises lg tbl = false -> breaker_raises cw tbl = false ->
      exists report,
        fst check = MCPTools.Health report
        /\ let n := MCPTools.error_count report in
           let a := MCPTools.avg_duration_ms report in
           let m := MCPTools.max_duration_ms report in
           (MCPTools.health_status report = "unhealthy" <-> 10 < n)
           /\ (MCPTools.health_status report = "degraded"
               <-> n <= 10 /\ (5 < n \/ (5000 < a)%Q \/ (10000 < m)%Q))
           /\ (MCPTools.health_status report = "healthy"
               <-> n <= 5 /\ (a <= 5000)%Q /\ (m <= 10000)%Q)
           /\ (MCPTools.issues report = [] <-> MCPTools.health_status report = "healthy")
           /\ (List.length (MCPTools.issues report) <= 3)%nat
           /\ MCPTools.recommendation report
              = MCPTools._get_health_recommendation (MCPTools.health_status report) n a).
Proof.
  cbv zeta.
  assert (Hfirst :
    breaker_raises (MCPTools.logs_breaker MCPTools.init) tbl = true ->
    MCPTools.check_service_health float_add float_div query_statistics query_events
      MCPTools.init tbl clock params = (breaker_error, tbl)).
  { intros H. unfold MCPTools.check_service_health. cbv zeta.
    now rewrite (get_error_logs_raises query_events _ _ _ _ H). }
  assert (Hcw : forall r tbl1 checked recorded p,
    MCPTools.get_error_logs query_events MCPTools.init tbl checked recorded p
    = CircuitBreaker.Returns (r, tbl1) ->
    breaker_raises (MCPTools.cloudwatch_breaker MCPTools.init) tbl1
    = breaker_raises (MCPTools.cloudwatch_breaker MCPTools.init) tbl).
  { intros r tbl1 checked recorded p H. apply breaker_raises_frame.
    eapply get_error_logs_frame; [exact H | discriminate]. }
  split; [exact Hfirst |]. split.
  - intros [H | H]; [now rewrite (Hfirst H) |].
    destruct (breaker_raises (MCPTools.logs_breaker MCPTools.init) tbl) eqn:Hlg;
      [now rewrite (Hfirst eq_refl) |].
    unfold MCPTools.check_service_health. cbv zeta.
    destruct (get_error_logs_returns query_events tbl (MCPTools.logs_checked clock)
                (MCPTools.logs_recorded clock)
                (MCPTools.mkParams None None (Some (PyInt 1))
                   (Some (PyStr ("/aws/lambda/"
                                 +:+ py_str (dict_get (MCPTools.service_name params)
                                               (PyStr "")))))
                   (Some (PyStr "ERROR")) None) Hlg) as (r1 & tbl1 & He1).
    rewrite He1.
    rewrite (get_cpu_metrics_raises float_add float_div query_statistics tbl1);
      [reflexivity |].
    now rewrite (Hcw _ _ _ _ _ He1).
  - intros Hlg Hc.
    unfold MCPTools.check_service_health. cbv zeta.
    destruct (get_error_logs_returns query_events tbl (MCPTools.logs_checked clock)
                (MCPTools.logs_recorded clock)
                (MCPTools.mkParams None None (Some (PyInt 1))
                   (Some (PyStr ("/aws/lambda/"
                                 +:+ py_str (dict_get (MCPTools.service_name params)
                                               (PyStr "")))))
                   (Some (PyStr "ERROR")) None) Hlg) as (r1 & tbl1 & He1).
    rewrite He1.
    assert (Hc1 : breaker_raises (MCPTools.cloudwatch_breaker MCPTools.init) tbl1 = false)
      by now rewrite (Hcw _ _ _ _ _ He1).
    destruct (get_cpu_metrics_returns float_add float_div query_statistics tbl1
                (MCPTools.cloudwatch_checked clock) (MCPTools.cloudwatch_recorded clock)
                (MCPTools.mkParams
                   (Some (dict_get (MCPTools.service_name params) (PyStr "")))
                   (Some (PyStr "Lambda")) (Some (PyInt 1)) None None None) Hc1)
      as (r2 & tbl2 & He2).
    rewrite He2. cbn [fst]. eexists. split; [reflexivity |].
    apply health_report_classified.
Qed.

Lemma X23_health_report_or_error_witness :
  MCPTools.check_service_health exact_add exact_div cloudwatch_up logs_up MCPTools.init
    five_failures sample_clock checkout_service
  = (MCPTools.ErrorResult CircuitBreaker.float_minus_decimal None,
     CircuitBreaker.record_success (MCPTools.logs_breaker MCPTools.init) five_failures
       1011)
  /\ fst (MCPTools.check_service_health exact_add exact_div cloudwatch_up logs_up
            MCPTools.init five_failures sample_clock checkout_service)
     = breaker_error.
Proof.
  split; [vm_compute; reflexivity |].
  exact (proj1 (proj2 (X23_health_report_or_error exact_add exact_div cloudwatch_up
                         logs_up five_failures sample_clock checkout_service))
           (or_intror eq_refl)).
Defined.

(** ** What the two lookups return *)

Lemma substring_0_length (m : nat) (s : string) :
  String.length (String.substring 0 m s) = Nat.min m (String.length s).
Proof.
  revert s. induction m as [| m IH]; intros s.
  - now destruct s.
  - destruct s as [| c s]; cbn [String.substring String.length Nat.min]; [reflexivity |].
    now rewrite IH.
Qed.

Lemma substring_0_prefix (m : nat) (s : string) :
  String.prefix (String.substring 0 m s) s = true.
Proof.
  revert s. induction m as [| m IH]; intros s.
  - now destruct s.
  - destruct s as [| c s]; cbn [String.substring String.prefix]; [reflexivity |].
    destruct (ascii_dec c c) as [_ | Hne]; [apply IH | now destruct Hne].
Qed.

(** X24.  A successful [get_error_logs] reports in [event_count] the
    number of all events found, but returns only the first 20 of them, in
    the order found, each with its message cut to its first 500
    characters; the defaults of the lookup are the log group
    ['/aws/lambda/*'], one hour and the pattern ['ERROR']. *)
Theorem X24_error_logs_truncated
    (query_events : pyval -> pyval -> pyval -> option (list MCPTools.LogEvent) + string)
    (tbl tbl' : gmap string CircuitBreaker.Item) (checked recorded : Q)
    (params : MCPTools.Params) (group pat : pyval) (n : Z)
    (events : list MCPTools.LogEvent) :
  MCPTools.get_error_logs query_events MCPTools.init tbl checked recorded params
  = CircuitBreaker.Returns (MCPTools.Logs group pat n events, tbl') ->
  group = dict_get (MCPTools.log_group params) (PyStr "/aws/lambda/*")
  /\ pat = dict_get (MCPTools.pattern params) (PyStr "ERROR")
  /\ exists response,
       query_events group (dict_get (MCPTools.hours params) (PyInt 1)) pat
       = inl response
       /\ let found := dict_get response [] in
          n = Z.of_nat (List.length found)
          /\ List.length events = Nat.min 20 (List.length found)
          /\ forall i e,
               nth_error events i = Some e ->
               exists e0,
                 nth_error found i = Some e0
                 /\ MCPTools.timestamp e = MCPTools.timestamp e0
                 /\ MCPTools.message e = String.substring 0 500 (MCPTools.message e0)
                 /\ String.length (MCPTools.message e)
                    = Nat.min 500 (String.length (MCPTools.message e0))
                 /\ String.prefix (MCPTools.message e) (MCPTools.message e0) = true.
Proof.
  unfold MCPTools.get_error_logs.
  destruct (CircuitBreaker.is_open _ _ _) as [e | [|]]; [discriminate.. |]. cbv zeta.
  destruct (MCPTools.hours_type_error _); [discriminate |].
  destruct (query_events _ _ _) as [response | e] eqn:E; [| discriminate].
  intros H. injection H as <- <- <- <- _.
  split; [reflexivity |]. split; [reflexivity |].
  exists response. split; [exact E |]. cbv zeta.
  split; [reflexivity |].
  split; [now rewrite List.length_map, length_firstn |].
  intros i e Hi. rewrite nth_error_map, nth_error_firstn in Hi.
  destruct (Nat.ltb i 20); [| discriminate].
  destruct (nth_error (dict_get response []) i) as [e0 |]; [| discriminate].
  cbn [option_map] in Hi. injection Hi as <-.
  exists e0. cbn [MCPTools.truncate MCPTools.timestamp MCPTools.message].
  split; [reflexivity |]. split; [reflexivity |]. split; [reflexivity |].
  split; [apply substring_0_length | apply substring_0_prefix].
Qed.

Lemma X24_error_logs_truncated_witness :
  exists response,
    logs_up (PyStr "/aws/lambda/*") (PyInt 1) (PyStr "ERROR") = inl response
    /\ 25 = Z.of_nat (List.length (dict_get response []))
    /\ List.length
         (List.map MCPTools.truncate
            (firstn 20
               (repeat (MCPTools.mkLogEvent 1700000000000 "ERROR connection timed out")
                  25)))
       = Nat.min 20 (List.length (dict_get response [])).
Proof.
  assert (H : MCPTools.get_error_logs logs_up MCPTools.init ∅ 1000 1001 MCPTools.no_params
              = CircuitBreaker.Returns
                  (MCPTools.Logs (PyStr "/aws/lambda/*") (PyStr "ERROR") 25
                     (List.map MCPTools.truncate
                        (firstn 20
                           (repeat
                              (MCPTools.mkLogEvent 1700000000000
                                 "ERROR connection timed out") 25))),
                   CircuitBreaker.record_success (MCPTools.logs_breaker MCPTools.init) ∅
                     1001))
    by (vm_compute; reflexivity).
  destruct (X24_error_logs_truncated logs_up _ _ _ _ _ _ _ _ _ H)
    as (_ & _ & response & Hr & Hn & Hl & _).
  exists response. split; [exact Hr |]. split; [exact Hn | exact Hl].
Defined.

(** *** Sorting and summarising datapoints *)

Lemma insert_by_timestamp_perm (d : MCPTools.Datapoint) (l : list MCPTools.Datapoint) :
  Permutation (MCPTools.insert_by_timestamp d l) (d :: l).
Proof.
  induction l as [| x l IH]; cbn [MCPTools.insert_by_timestamp]; [reflexivity |].
  destruct (MCPTools.Timestamp x <=? MCPTools.Timestamp d); [| reflexivity].
  rewrite IH. apply perm_swap.
Qed.

Lemma sorted_by_timestamp_perm (l : list MCPTools.Datapoint) :
  Permutation (MCPTools.sorted_by_timestamp l) l.
Proof.
  unfold MCPTools.sorted_by_timestamp.
  assert (H : forall acc,
             Permutation
               (fold_left (fun acc d => MCPTools.insert_by_timestamp d acc) l acc)
               (l ++ acc)).
  { induction l as [| d l IH]; intros acc; cbn [fold_left app]; [reflexivity |].
    rewrite IH, insert_by_timestamp_perm. symmetry. apply Permutation_middle. }
  rewrite (H []). now rewrite app_nil_r.
Qed.

Lemma insert_by_timestamp_ascending (d : MCPTools.Datapoint)
    (l : list MCPTools.Datapoint) :
  ascending l = true -> ascending (MCPTools.insert_by_timestamp d l) = true.
Proof.
  induction l as [| x l IH]; intros H; [reflexivity |].
  cbn [MCPTools.insert_by_timestamp].
  destruct (Z.leb_spec (MCPTools.Timestamp x) (MCPTools.Timestamp d)) as [Hle | Hgt].
  - destruct l as [| y l].
    + cbn. apply andb_true_iff. split; [now apply Z.leb_le | reflexivity].
    + cbn [ascending] in H. apply andb_true_iff in H. destruct H as [Hxy Hl].
      specialize (IH Hl). cbn [MCPTools.insert_by_timestamp] in IH |- *.
      destruct (MCPTools.Timestamp y <=? MCPTools.Timestamp d).
      * cbn [ascending] in IH |- *. now rewrite Hxy, IH.
      * cbn [ascending] in IH |- *. rewrite IH.
        apply andb_true_iff. split; [now apply Z.leb_le | reflexivity].
  - change (ascending (d :: x :: l)) with
      ((MCPTools.Timestamp d <=? MCPTools.Timestamp x) && ascending (x :: l)).
    rewrite H. apply andb_true_iff. split; [apply Z.leb_le; lia | reflexivity].
Qed.

Lemma sorted_by_timestamp_ascending (l : list MCPTools.Datapoint) :
  ascending (MCPTools.sorted_by_timestamp l) = true.
Proof.
  unfold MCPTools.sorted_by_timestamp.
  assert (H : forall acc,
             ascending acc = true ->
             ascending (fold_left (fun acc d => MCPTools.insert_by_timestamp d acc) l acc)
             = true).
  { induction l as [| d l IH]; intros acc Hacc; cbn [fold_left]; [exact Hacc |].
    apply IH. now apply insert_by_timestamp_ascending. }
  now apply H.
Qed.

Lemma max_fold_spec (rest : list MCPTools.Datapoint) (m0 : Q) :
  let m := fold_left (fun m x => if CircuitBreaker.Qgt_bool (MCPTools.Maximum x) m
                                 then MCPTools.Maximum x else m) rest m0 in
  (m0 <= m)%Q
  /\ (forall x, In x rest -> (MCPTools.Maximum x <= m)%Q)
  /\ (m = m0 \/ exists x, In x rest /\ m = MCPTools.Maximum x).
Proof.
  cbv zeta. revert m0. induction rest as [| x rest IH]; intros m0; cbn [fold_left].
  - split; [apply Qle_refl |]. split; [intros x [] | now left].
  - destruct (IH (if CircuitBreaker.Qgt_bool (MCPTools.Maximum x) m0
                  then MCPTools.Maximum x else m0)) as (H1 & H2 & H3).
    destruct (CircuitBreaker.Qgt_bool (MCPTools.Maximum x) m0) eqn:E.
    + apply Qgt_bool_true in E. split; [| split].
      * eapply Qle_trans; [apply Qlt_le_weak; exact E | exact H1].
      * intros y [<- | Hy]; [exact H1 | now apply H2].
      * right. destruct H3 as [-> | (y & Hy & ->)].
        -- exists x. split; [now left | reflexivity].
        -- exists y. split; [now right | reflexivity].
    + apply Qgt_bool_false in E. split; [exact H1 |]. split.
      * intros y [<- | Hy]; [eapply Qle_trans; [exact E | exact H1] | now apply H2].
      * destruct H3 as [-> | (y & Hy & ->)]; [now left |].
        right. exists y. split; [now right | reflexivity].
Qed.

Lemma max_maximum_spec (l : list MCPTools.Datapoint) :
  (forall x, In x l -> (MCPTools.Maximum x <= MCPTools.max_maximum l)%Q)
  /\ (l <> [] -> exists x, In x l /\ MCPTools.max_maximum l = MCPTools.Maximum x).
Proof.
  destruct l as [| d rest]; [split; [intros x [] | now intros []] |].
  unfold MCPTools.max_maximum.
  destruct (max_fold_spec rest (MCPTools.Maximum d)) as (H1 & H2 & H3). split.
  - intros x [<- | Hx]; [exact H1 | now apply H2].
  - intros _. destruct H3 as [-> | (x & Hx & ->)].
    + exists d. split; [now left | reflexivity].
    + exists x. split; [now right | reflexivity].
Qed.

(** X25.  A [get_cpu_metrics] that returns metrics returns the datapoints
    CloudWatch gave, rearranged in ascending order of their timestamps,
    none lost or added.  The metric is ['Duration'] for the resource type
    ['Lambda'] and ['CPUUtilization'] for any other.  In the summary,
    [count] is the number of datapoints, [max] is the largest [Maximum],
    and [avg] is the float sum of the [Average] values, added up in the
    order of the timestamps, divided by their number; without datapoints
    both are 0. *)
Theorem X25_cpu_metrics_summary
    (float_add : Q -> Q -> Q) (float_div : Q -> Z -> Q)
    (query_statistics :
       string -> string -> string -> pyval -> pyval -> list MCPTools.Datapoint + string)
    (tbl tbl' : gmap string CircuitBreaker.Item) (checked recorded : Q)
    (params : MCPTools.Params) (rid rtype : pyval) (metric : string)
    (datapoints : list MCPTools.Datapoint) (summary : MCPTools.Summary) :
  MCPTools.get_cpu_metrics float_add float_div query_statistics MCPTools.init tbl checked
    recorded params
  = CircuitBreaker.Returns (MCPTools.Metrics rid rtype metric datapoints summary, tbl') ->
  rtype = dict_get (MCPTools.resource_type params) (PyStr "Lambda")
  /\ metric = (if eq_str rtype "Lambda" then "Duration" else "CPUUtilization")
  /\ exists response,
       query_statistics
         (if eq_str rtype "Lambda" then "AWS/Lambda" else "AWS/EC2") metric
         (if eq_str rtype "Lambda" then "FunctionName" else "InstanceId") rid
         (dict_get (MCPTools.hours params) (PyInt 1)) = inl response
       /\ Permutation datapoints response
       /\ ascending datapoints = true
       /\ MCPTools.count summary = Z.of_nat (List.length response)
       /\ (response = [] -> MCPTools.avg summary = 0%Q /\ MCPTools.max summary = 0%Q)
       /\ (forall d, In d response -> (MCPTools.Maximum d <= MCPTools.max summary)%Q)
       /\ (response <> [] ->
           exists d, In d response /\ MCPTools.max summary = MCPTools.Maximum d)
       /\ (response <> [] ->
           MCPTools.avg summary
           = float_div
               (fold_left (fun acc d => float_add acc (MCPTools.Average d)) datapoints
                  0%Q)
               (Z.of_nat (List.length response))).
Proof.
  unfold MCPTools.get_cpu_metrics.
  destruct (CircuitBreaker.is_open _ _ _) as [e | [|]]; [discriminate.. |]. cbv zeta.
  destruct (MCPTools.hours_type_error _); [discriminate |].
  destruct (query_statistics _ _ _ _ _) as [response | e] eqn:E; [| discriminate].
  intros H. injection H as <- <- <- <- <- _.
  split; [reflexivity |]. split; [reflexivity |].
  exists response. split; [exact E |].
  pose proof (sorted_by_timestamp_perm response) as Hperm.
  set (dps := MCPTools.sorted_by_timestamp response) in *.
  split; [exact Hperm |].
  split; [apply sorted_by_timestamp_ascending |].
  unfold MCPTools.summary_of. cbn [MCPTools.count MCPTools.avg MCPTools.max].
  split; [now rewrite (Permutation_length Hperm) |].
  destruct (max_maximum_spec dps) as [Hmax Hwit].
  assert (Hnil : response = [] -> dps = []).
  { intros Hr. apply Permutation_nil. rewrite <- Hr. now symmetry. }
  split; [intros Hr; rewrite (Hnil Hr); split; reflexivity |].
  split; [intros d Hd; apply Hmax; now apply (Permutation_in _ (Permutation_sym Hperm)) |].
  split.
  - intros Hne. destruct Hwit as (d & Hd & Hm).
    + intros Hd. rewrite Hd in Hperm. apply Permutation_nil in Hperm.
      contradiction.
    + exists d. split; [now apply (Permutation_in _ Hperm) | exact Hm].
  - intros Hne. rewrite <- (Permutation_length Hperm).
    destruct dps as [| d0 rest] eqn:Hdps; [| reflexivity].
    apply Permutation_nil in Hperm. contradiction.
Qed.

Lemma X25_cpu_metrics_summary_witness :
  exists response,
    cloudwatch_up "AWS/Lambda" "Duration" "FunctionName" (PyStr "") (PyInt 1)
    = inl response
    /\ Permutation
         [MCPTools.mkDatapoint 1700000000 (100 # 1) (400 # 1);
          MCPTools.mkDatapoint 1700000300 (300 # 1) (900 # 1)] response
    /\ forall d, In d response -> (MCPTools.Maximum d <= 900 # 1)%Q.
Proof.
  assert (H : MCPTools.get_cpu_metrics exact_add exact_div cloudwatch_up MCPTools.init ∅
                1000 1001 MCPTools.no_params
              = CircuitBreaker.Returns
                  (MCPTools.Metrics (PyStr "") (PyStr "Lambda") "Duration"
                     [MCPTools.mkDatapoint 1700000000 (100 # 1) (400 # 1);
                      MCPTools.mkDatapoint 1700000300 (300 # 1) (900 # 1)]
                     (MCPTools.mkSummary (400 # 2) (900 # 1) 2),
                   CircuitBreaker.record_success
                     (MCPTools.cloudwatch_breaker MCPTools.init) ∅ 1001))
    by (vm_compute; reflexivity).
  destruct (X25_cpu_metrics_summary exact_add exact_div cloudwatch_up _ _ _ _ _ _ _ _ _
              _ H)
    as (_ & _ & response & Hr & Hp & _ & _ & _ & Hm & _).
  exists response. split; [exact Hr |]. split; [exact Hp | exact Hm].
Defined.

(** ** The handler *)

(** X26.  The monitoring handler lists three tools.  [execute], which is
    also the action of an event without one, runs the tool named.
    [get_cpu_metrics] and [get_error_logs] are answered 200 with the tool's
    result, also when the lookup failed, unless the stored item of their
    breaker makes [is_open] raise: then the answer is 500 with the text of
    the [TypeError] and the breaker table is left as it was.
    [check_service_health] is always answered 200.  Any other tool name is
    answered 400 ['Unknown tool'] and any other action 400
    ['Unknown action'], the breaker table untouched.  Of the four tools the
    root-cause agent dispatches, [get_memory_metrics] is the one the
    handler does not know. *)
Theorem X26_monitoring_handler_dispatch
    (float_add : Q -> Q -> Q) (float_div : Q -> Z -> Q)
    (query_statistics :
       string -> string -> string -> pyval -> pyval -> list MCPTools.Datapoint + string)
    (query_events : pyval -> pyval -> pyval -> option (list MCPTools.LogEvent) + string)
    (tbl : gmap string CircuitBreaker.Item) (clock : MCPTools.Clock)
    (event : MCPTools.Event) :
  let resp := MCPTools.lambda_handler float_add float_div query_statistics query_events
                tbl clock event in
  let action := dict_get (MCPTools.ev_action event) (PyStr "execute") in
  let tool_name := dict_get_none (MCPTools.ev_tool_name event) in
  let cw := MCPTools.cloudwatch_breaker MCPTools.init in
  let lg := MCPTools.logs_breaker MCPTools.init in
  let failed :=
    (MCPTools.mkResponse 500 (MCPTools.ErrorBody CircuitBreaker.float_minus_decimal),
     tbl) in
  (action = PyStr "list_tools" ->
   resp = (MCPTools.mkResponse 200 (MCPTools.ToolsBody MCPTools.advertised), tbl))
  /\ (action = PyStr "execute" ->
      (tool_name = PyStr "get_cpu_metrics" ->
       if breaker_raises cw tbl then resp = failed
       else exists r, fst resp = MCPTools.mkResponse 200 (MCPTools.ResultBody r))
      /\ (tool_name = PyStr "get_error_logs" ->
          if breaker_raises lg tbl then resp = failed
          else exists r, fst resp = MCPTools.mkResponse 200 (MCPTools.ResultBody r))
      /\ (tool_name = PyStr "check_service_health" ->
          exists r, fst resp = MCPTools.mkResponse 200 (MCPTools.ResultBody r))
      /\ (MCPTools.statusCode (fst resp) = 400
          <-> ~ exists s, tool_name = PyStr s /\ In s MCPTools.advertised)
      /\ (MCPTools.statusCode (fst resp) = 400 ->
          resp = (MCPTools.mkResponse 400
                    (MCPTools.ErrorBody ("Unknown tool: " +:+ py_str tool_name)), tbl)))
  /\ (action <> PyStr "list_tools" -> action <> PyStr "execute" ->
      resp = (MCPTools.mkResponse 400
                (MCPTools.ErrorBody ("Unknown action: " +:+ py_str action)), tbl))
  /\ (forall s, In s RootCauseAgent.tool_menu ->
        In s MCPTools.advertised <-> s <> "get_memory_metrics").
Proof.
  cbv zeta. unfold MCPTools.lambda_handler. cbv zeta.
  split; [intros ->; reflexivity |]. split; [| split].
  - intros ->. cbn [eq_str String.eqb Ascii.eqb Bool.eqb andb].
    destruct (eq_str (dict_get_none (MCPTools.ev_tool_name event)) "get_cpu_metrics")
      eqn:E1.
    { apply eq_str_true in E1. rewrite E1.
      assert (Hin : exists s, PyStr "get_cpu_metrics" = PyStr s
                              /\ In s MCPTools.advertised)
        by (exists "get_cpu_metrics"; split; [reflexivity | now left]).
      destruct (breaker_raises (MCPTools.cloudwatch_breaker MCPTools.init) tbl) eqn:Hb.
      - rewrite (get_cpu_metrics_raises float_add float_div query_statistics _ _ _ _ Hb).
        cbn [fst MCPTools.statusCode].
        split; [reflexivity |]. split; [discriminate |]. split; [discriminate |].
        split; [split; [discriminate | intros H; now destruct H] | discriminate].
      - destruct (get_cpu_metrics_returns float_add float_div query_statistics tbl
                    (MCPTools.cloudwatch_checked clock)
                    (MCPTools.cloudwatch_recorded clock)
                    (dict_get (MCPTools.ev_parameters event) MCPTools.no_params) Hb)
          as (r & tbl1 & He).
        rewrite He. cbn [fst MCPTools.statusCode].
        split; [intros _; now exists r |]. split; [discriminate |].
        split; [discriminate |].
        split; [split; [discriminate | intros H; now destruct H] | discriminate]. }
    destruct (eq_str (dict_get_none (MCPTools.ev_tool_name event)) "get_error_logs")
      eqn:E2.
    { apply eq_str_true in E2. rewrite E2.
      assert (Hin : exists s, PyStr "get_error_logs" = PyStr s
                              /\ In s MCPTools.advertised)
        by (exists "get_error_logs"; split; [reflexivity | right; now left]).
      destruct (breaker_raises (MCPTools.logs_breaker MCPTools.init) tbl) eqn:Hb.
      - rewrite (get_error_logs_raises query_events _ _ _ _ Hb).
        cbn [fst MCPTools.statusCode].
        split; [discriminate |]. split; [reflexivity |]. split; [discriminate |].
        split; [split; [discriminate | intros H; now destruct H] | discriminate].
      - destruct (get_error_logs_returns query_events tbl
                    (MCPTools.logs_checked clock) (MCPTools.logs_recorded clock)
                    (dict_get (MCPTools.ev_parameters event) MCPTools.no_params) Hb)
          as (r & tbl1 & He).
        rewrite He. cbn [fst MCPTools.statusCode].
        split; [discriminate |]. split; [intros _; now exists r |].
        split; [discriminate |].
        split; [split; [discriminate | intros H; now destruct H] | discriminate]. }
    destruct (eq_str (dict_get_none (MCPTools.ev_tool_name event)) "check_service_health")
      eqn:E3.
    { apply eq_str_true in E3. rewrite E3.
      assert (Hin : exists s, PyStr "check_service_health" = PyStr s
                              /\ In s MCPTools.advertised)
        by (exists "check_service_health"; split; [reflexivity | right; right; now left]).
      destruct (MCPTools.check_service_health _ _ _ _ _ _ _ _) as [r tbl1].
      cbn [fst MCPTools.statusCode].
      split; [discriminate |]. split; [discriminate |].
      split; [intros _; now exists r |].
      split; [split; [discriminate | intros H; now destruct H] | discriminate]. }
    cbn [fst MCPTools.statusCode].
    split; [intros H; rewrite H in E1; discriminate E1 |].
    split; [intros H; rewrite H in E2; discriminate E2 |].
    split; [intros H; rewrite H in E3; discriminate E3 |].
    split; [| reflexivity].
    split; [| reflexivity].
    intros _ (s & Hs & Hin). rewrite Hs in E1, E2, E3. cbn [eq_str] in E1, E2, E3.
    destruct Hin as [<- | [<- | [<- | []]]]; discriminate.
  - intros H1 H2.
    destruct (eq_str _ "list_tools") eqn:E1; [apply eq_str_true in E1; contradiction |].
    destruct (eq_str _ "execute") eqn:E2; [apply eq_str_true in E2; contradiction |].
    reflexivity.
  - intros s Hin. cbn in Hin.
    destruct Hin as [<- | [<- | [<- | [<- | []]]]]; cbn;
      (split; [intros H; try discriminate;
               repeat (destruct H as [H | H]; try discriminate); try contradiction
              | intros H; try (now contradiction H); auto]).
Qed.

Lemma X26_monitoring_handler_dispatch_witness :
  MCPTools.lambda_handler exact_add exact_div cloudwatch_up logs_down five_failures
    sample_clock (MCPTools.mkEvent None (Some (PyStr "get_cpu_metrics")) None)
  = (MCPTools.mkResponse 500 (MCPTools.ErrorBody CircuitBreaker.float_minus_decimal),
     five_failures)
  /\ MCPTools.lambda_handler exact_add exact_div cloudwatch_up logs_down five_failures
       sample_clock (MCPTools.mkEvent None (Some (PyStr "get_memory_metrics")) None)
     = (MCPTools.mkResponse 400 (MCPTools.ErrorBody "Unknown tool: get_memory_metrics"),
        five_failures).
Proof.
  split.
  - exact (proj1 (proj1 (proj2 (X26_monitoring_handler_dispatch exact_add exact_div
                                  cloudwatch_up logs_down five_failures sample_clock
                                  (MCPTools.mkEvent None (Some (PyStr "get_cpu_metrics"))
                                     None)))
                    eq_refl) eq_refl).
  - exact (proj2 (proj2 (proj2 (proj2 (proj1 (proj2
             (X26_monitoring_handler_dispatch exact_add exact_div cloudwatch_up logs_down
                five_failures sample_clock
                (MCPTools.mkEvent None (Some (PyStr "get_memory_metrics")) None)))
             eq_refl)))) eq_refl).
Defined.

(** * Further properties: from plan to execution *)

(** X27.  The executor performs no real action: a record is marked
    simulated exactly when it is marked successful, and the only way an
    action fails is a [command] entry that is not a string.  So a plan
    whose commands are all strings (or absent), once past the approval test
    and the safety check, always ends with status ['success']: every action
    of both phases is run in order, none fails, and a stored incident is
    set to ['resolved']. *)
Theorem X27_string_commands_always_succeed (tb : Tables) (now : Z)
    (incident_id : string) (plan : RemediationPlan) (approval_id : option string) :
  gate_open tb approval_id ->
  RemediationExecutor.safe (RemediationExecutor._pre_execution_safety_check plan) = true ->
  (forall a, In a (all_actions plan) -> action_fails a = false) ->
  (forall a phase,
     RemediationExecutor.res_simulated (RemediationExecutor._execute_action a phase)
     = RemediationExecutor.res_success (RemediationExecutor._execute_action a phase)
     /\ RemediationExecutor.res_success (RemediationExecutor._execute_action a phase)
        = negb (action_fails a))
  /\ exists r tb',
       RemediationExecutor.execute tb now incident_id plan approval_id
       = (RemediationExecutor.Ran r, tb', all_actions plan)
       /\ RemediationExecutor.status r = "success"
       /\ RemediationExecutor.failed_actions r = []
       /\ List.length (RemediationExecutor.immediate_actions_done r
                       ++ RemediationExecutor.corrective_actions_done r)
          = List.length (all_actions plan)
       /\ (forall x,
             In x (RemediationExecutor.immediate_actions_done r
                   ++ RemediationExecutor.corrective_actions_done r) ->
             RemediationExecutor.res_success x = true
             /\ RemediationExecutor.res_simulated x = true
             /\ RemediationExecutor.res_error x = None)
       /\ (forall inc,
             incidents_table tb !! incident_id = Some inc ->
             inc_status <$> (incidents_table tb' !! incident_id) = Some "resolved").
Proof.
  intros Hgate Hsafe Hok.
  assert (Hone : forall a phase,
            RemediationExecutor.res_simulated (RemediationExecutor._execute_action a phase)
            = RemediationExecutor.res_success (RemediationExecutor._execute_action a phase)
            /\ RemediationExecutor.res_success (RemediationExecutor._execute_action a phase)
               = negb (action_fails a)).
  { intros a phase. split; [| apply execute_action_success].
    unfold RemediationExecutor._execute_action.
    destruct (dict_get (command a) (PyStr "")); reflexivity. }
  split; [exact Hone |].
  assert (Hi : forall a, In a (dict_get (immediate_actions plan) []) ->
                         action_fails a = false).
  { intros a Ha. apply Hok. unfold all_actions. apply in_or_app. now left. }
  assert (Hc : forall a, In a (dict_get (corrective_actions plan) []) ->
                         action_fails a = false).
  { intros a Ha. apply Hok. unfold all_actions. apply in_or_app. now right. }
  assert (Hfilter : forall l, (forall a, In a l -> action_fails a = false) ->
                              List.filter action_fails l = []).
  { induction l as [| a l IH]; intros H; [reflexivity |]. cbn [List.filter].
    rewrite (H a (or_introl eq_refl)). apply IH. intros x Hx. apply H. now right. }
  destruct (execute_completed tb now incident_id plan approval_id Hgate Hsafe)
    as (r & He & Hs & Him & Hco & Hf).
  { intros x Hx. now rewrite (Hi x Hx). }
  rewrite (Hfilter _ Hi), (Hfilter _ Hc) in Hf. cbn [map app] in Hf.
  assert (Hstatus : RemediationExecutor.status r = "success").
  { rewrite Hs, determine_status_status, phases_fields.
    cbn [RemediationExecutor.failed_actions]. rewrite (Hfilter _ Hi), (Hfilter _ Hc).
    reflexivity. }
  eexists r, _. split; [exact He |]. split; [exact Hstatus |]. split; [exact Hf |].
  split; [| split].
  - rewrite Him, Hco. unfold all_actions.
    now rewrite !List.length_app, !List.length_map.
  - intros x Hx. rewrite Him, Hco in Hx. apply in_app_or in Hx.
    assert (Hx' : exists a phase,
               In a (all_actions plan)
               /\ x = RemediationExecutor._execute_action a phase).
    { destruct Hx as [Hx | Hx]; apply in_map_iff in Hx; destruct Hx as (a & <- & Ha);
        eexists a, _; (split; [| reflexivity]); unfold all_actions; apply in_or_app;
        [now left | now right]. }
    destruct Hx' as (a & phase & Ha & ->).
    destruct (Hone a phase) as [H1 H2]. rewrite H1, H2, (Hok a Ha).
    split; [reflexivity |]. split; [reflexivity |].
    specialize (Hok a Ha). unfold action_fails in Hok.
    unfold RemediationExecutor._execute_action.
    destruct (dict_get (command a) (PyStr "")); try discriminate. reflexivity.
  - intros inc Hinc.
    rewrite (executor_update_status _ _ _ _ inc Hinc).
    rewrite <- Hs, Hstatus. reflexivity.
Qed.

Lemma X27_string_commands_always_succeed_witness :
  exists r tb',
    RemediationExecutor.execute sample_tables 1700000000 "INC-1"
      (plan_of [act_ok] [act_ok]) None
    = (RemediationExecutor.Ran r, tb', all_actions (plan_of [act_ok] [act_ok]))
    /\ RemediationExecutor.status r = "success"
    /\ RemediationExecutor.failed_actions r = [].
Proof.
  assert (H : forall a, In a (all_actions (plan_of [act_ok] [act_ok])) ->
                        action_fails a = false).
  { intros a [<- | [<- | []]]; reflexivity. }
  destruct (proj2 (X27_string_commands_always_succeed sample_tables 1700000000 "INC-1"
                     (plan_of [act_ok] [act_ok]) None I eq_refl H))
    as (r & tb' & He & Hs & Hf & _).
  exists r, tb'. split; [exact He |]. split; [exact Hs | exact Hf].
Defined.



(** ** The list of pending approvals *)

Lemma insert_newest_first_perm (x : string * Approval) (l : list (string * Approval)) :
  Permutation (ApprovalApi.insert_newest_first x l) (x :: l).
Proof.
  induction l as [| y l IH]; cbn [ApprovalApi.insert_newest_first]; [reflexivity |].
  destruct (apr_created_at (snd x) <? apr_created_at (snd y)); [| reflexivity].
  rewrite IH. apply perm_swap.
Qed.

Lemma insert_newest_first_sorted (x : string * Approval) (l : list (string * Approval)) :
  newest_first l = true -> newest_first (ApprovalApi.insert_newest_first x l) = true.
Proof.
  induction l as [| y l IH]; intros H; [reflexivity |].
  cbn [ApprovalApi.insert_newest_first].
  destruct (Z.ltb_spec (apr_created_at (snd x)) (apr_created_at (snd y))) as [Hlt | Hge].
  - destruct l as [| z l].
    + cbn. apply andb_true_iff. split; [apply Z.leb_le; lia | reflexivity].
    + cbn [newest_first] in H. apply andb_true_iff in H. destruct H as [Hyz Hl].
      specialize (IH Hl). cbn [ApprovalApi.insert_newest_first] in IH |- *.
      destruct (apr_created_at (snd x) <? apr_created_at (snd z)).
      * cbn [newest_first] in IH |- *. now rewrite Hyz, IH.
      * cbn [newest_first] in IH |- *. rewrite IH.
        apply andb_true_iff. split; [apply Z.leb_le; lia | reflexivity].
  - change (newest_first (x :: y :: l)) with
      ((apr_created_at (snd y) <=? apr_created_at (snd x)) && newest_first (y :: l)).
    rewrite H. apply andb_true_iff. split; [now apply Z.leb_le | reflexivity].
Qed.

Lemma sort_newest_first_perm (items : list (string * Approval)) :
  Permutation (ApprovalApi.sort_newest_first items) items.
Proof.
  unfold ApprovalApi.sort_newest_first.
  induction items as [| x items IH]; cbn [fold_right]; [reflexivity |].
  now rewrite insert_newest_first_perm, IH.
Qed.

Lemma sort_newest_first_sorted (items : list (string * Approval)) :
  newest_first (ApprovalApi.sort_newest_first items) = true.
Proof.
  unfold ApprovalApi.sort_newest_first.
  induction items as [| x items IH]; cbn [fold_right]; [reflexivity |].
  now apply insert_newest_first_sorted.
Qed.

(** X29.  [list_pending_approvals] returns every item of the scan exactly
    once, in descending order of [created_at], with their number as
    [count]; when the scan raises it returns the error text instead. *)
Theorem X29_pending_list_newest_first
    (scan : Tables -> pyval -> list (string * Approval) + string)
    (tb : Tables) (limit : pyval) :
  match scan tb limit with
  | inl items =>
      exists approvals,
        ApprovalApi.list_pending_approvals scan tb limit
        = ApprovalApi.ListOk (List.length items) approvals
        /\ Permutation approvals items
        /\ newest_first approvals = true
        /\ List.length approvals = List.length items
  | inr e => ApprovalApi.list_pending_approvals scan tb limit = ApprovalApi.ListError e
  end.
Proof.
  unfold ApprovalApi.list_pending_approvals.
  destruct (scan tb limit) as [items | e]; [| reflexivity].
  exists (ApprovalApi.sort_newest_first items). split; [reflexivity |].
  split; [apply sort_newest_first_perm |].
  split; [apply sort_newest_first_sorted |].
  apply Permutation_length, sort_newest_first_perm.
Qed.

Lemma X29_pending_list_newest_first_witness :
  exists approvals,
    ApprovalApi.list_pending_approvals three_pending sample_tables (PyInt 50)
    = ApprovalApi.ListOk 3 approvals
    /\ Permutation approvals
         [("APPR-A", pending_item 100 "INC-1" empty_plan "high");
          ("APPR-B", pending_item 200 "INC-2" empty_plan "high");
          ("APPR-C", pending_item 300 "INC-3" empty_plan "critical")]
    /\ newest_first approvals = true
    /\ List.length approvals = 3%nat.
Proof.
  exact (X29_pending_list_newest_first three_pending sample_tables (PyInt 50)).
Defined.
